(** * MongoDB Atlas service broker: binding operations

    A shallow embedding of [pkg/broker/binding_operations.go] together with
    the parts of the Go standard library it calls ([net/url],
    [encoding/json], [strconv], [encoding/base64], [unicode/utf8]), followed
    by the properties of binding creation and connection-string rendering.

    Go strings are byte sequences: they are modelled by [string], whose
    characters are the 256 byte values.  The standard library is modelled as
    of Go 1.13, the toolchain of the repository's era. *)

From Stdlib Require Import ZArith Strings.String Strings.Ascii List Floats.SpecFloat
  DecimalString.
From stdpp Require Import gmap strings list fin_maps sorting.

Set Warnings "-register-all".
Local Open Scope string_scope.

(** ** Errors and outcomes *)

(** Go [error] values.  Each constructor is one of the concrete error types
    that can reach the broker; positions inside a JSON syntax error are not
    kept. *)
Inductive error : Type :=
  | ErrorString (msg : string)                       (* errors.New, fmt.Errorf *)
  | EscapeError (s : string)                         (* url.EscapeError *)
  | InvalidHostError (s : string)                    (* url.InvalidHostError *)
  | UrlError (op url : string) (err : error)         (* *url.Error *)
  | SyntaxError                                      (* *json.SyntaxError *)
  | UnmarshalTypeError (value : string)              (* *json.UnmarshalTypeError *)
  | WithMessage (err : error) (msg : string)         (* errors.Wrap *)
  | FailureResponse (err : error) (statusCode : Z) (loggerAction : string)
                                                     (* *brokerapi.FailureResponse *)
  | BackendError (name : string).                    (* an error of the Atlas client *)

(** The result of a Go call that returns [(T, error)]. *)
Inductive result (A : Type) : Type :=
  | Ok (a : A)
  | Error (e : error).
Arguments Ok {A} a.
Arguments Error {A} e.

(** The result of a Go call that may also end in a run-time panic. *)
Inductive outcome (A : Type) : Type :=
  | Ret (a : A)
  | Err (e : error)
  | Panic (msg : string).
Arguments Ret {A} a.
Arguments Err {A} e.
Arguments Panic {A} msg.

Definition nil_dereference : string :=
  "runtime error: invalid memory address or nil pointer dereference".

#[global] Instance result_ret : MRet result := fun _ a => Ok a.
#[global] Instance result_bind : MBind result := fun _ _ k r =>
  match r with
  | Ok a => k a
  | Error e => Error e
  end.

#[global] Instance outcome_ret : MRet outcome := fun _ a => Ret a.
#[global] Instance outcome_bind : MBind outcome := fun _ _ k r =>
  match r with
  | Ret a => k a
  | Err e => Err e
  | Panic msg => Panic msg
  end.

(** ** Bytes and the [strings] package *)

Module Bytes.

Definition code (c : ascii) : N := N_of_ascii c.

(** The double quote. *)
Definition DQUOTE : ascii := ascii_of_N 34.

(** [lo <= c && c <= hi] on bytes. *)
Definition between (lo hi c : ascii) : bool :=
  (code lo <=? code c)%N && (code c <=? code hi)%N.

Definition is_lower (c : ascii) : bool := between "a" "z" c.
Definition is_upper (c : ascii) : bool := between "A" "Z" c.
Definition is_digit (c : ascii) : bool := between "0" "9" c.
Definition is_alnum (c : ascii) : bool := is_lower c || is_upper c || is_digit c.

(** Membership of a byte in a literal set of bytes. *)
Fixpoint one_of (set : string) (c : ascii) : bool :=
  match set with
  | EmptyString => false
  | String a set' => Ascii.eqb a c || one_of set' c
  end.

End Bytes.

Module Strings.

(** [s[:n]] and [s[n:]]. *)
Fixpoint take (n : nat) (s : string) : string :=
  match n, s with
  | S n', String c s' => String c (take n' s')
  | _, _ => EmptyString
  end.

Fixpoint drop (n : nat) (s : string) : string :=
  match n, s with
  | S n', String _ s' => drop n' s'
  | _, _ => s
  end.

(** [strings.IndexByte]; [None] stands for -1. *)
Fixpoint IndexByte (s : string) (c : ascii) : option nat :=
  match s with
  | EmptyString => None
  | String a s' =>
      if Ascii.eqb a c then Some 0
      else match IndexByte s' c with
           | Some i => Some (S i)
           | None => None
           end
  end.

(** [strings.LastIndex] for a one-byte separator. *)
Fixpoint LastIndexByte (s : string) (c : ascii) : option nat :=
  match s with
  | EmptyString => None
  | String a s' =>
      match LastIndexByte s' c with
      | Some i => Some (S i)
      | None => if Ascii.eqb a c then Some 0 else None
      end
  end.

(** [strings.Index]. *)
Fixpoint Index (s sub : string) : option nat :=
  if String.prefix sub s then Some 0
  else match s with
       | EmptyString => None
       | String _ s' =>
           match Index s' sub with
           | Some i => Some (S i)
           | None => None
           end
       end.

(** [strings.IndexAny]. *)
Fixpoint IndexAny (s chars : string) : option nat :=
  match s with
  | EmptyString => None
  | String a s' =>
      if Bytes.one_of chars a then Some 0
      else match IndexAny s' chars with
           | Some i => Some (S i)
           | None => None
           end
  end.

Definition Contains (s : string) (c : ascii) : bool :=
  match IndexByte s c with Some _ => true | None => false end.

Definition HasPrefix (s p : string) : bool := String.prefix p s.

(** [strings.HasSuffix] for a one-byte suffix. *)
Fixpoint HasSuffixByte (s : string) (c : ascii) : bool :=
  match s with
  | EmptyString => false
  | String a EmptyString => Ascii.eqb a c
  | String _ s' => HasSuffixByte s' c
  end.

(** [strings.Count] for a one-byte separator. *)
Fixpoint CountByte (s : string) (c : ascii) : nat :=
  match s with
  | EmptyString => 0
  | String a s' => (if Ascii.eqb a c then 1 else 0) + CountByte s' c
  end.

Definition lower_byte (c : ascii) : ascii :=
  if Bytes.is_upper c then ascii_of_N (Bytes.code c + 32) else c.

(** [strings.ToLower], on the ASCII strings it is applied to here. *)
Fixpoint ToLower (s : string) : string :=
  match s with
  | EmptyString => EmptyString
  | String c s' => String (lower_byte c) (ToLower s')
  end.

Fixpoint forallb (p : ascii -> bool) (s : string) : bool :=
  match s with
  | EmptyString => true
  | String c s' => p c && forallb p s'
  end.

Definition is_empty (s : string) : bool :=
  match s with EmptyString => true | _ => false end.

(** [s] between double quotes. *)
Definition quoted (s : string) : string :=
  String Bytes.DQUOTE (s +:+ String Bytes.DQUOTE "").

Fixpoint concat (l : list string) : string :=
  match l with
  | [] => EmptyString
  | s :: l' => s +:+ concat l'
  end.

End Strings.

(** ** Package [net/url] *)

Module Url.

(** The escaping modes of url.go. *)
Inductive encoding : Type :=
  | encodePath
  | encodePathSegment
  | encodeHost
  | encodeZone
  | encodeUserPassword
  | encodeQueryComponent
  | encodeFragment.

Definition encoding_eqb (a b : encoding) : bool :=
  match a, b with
  | encodePath, encodePath
  | encodePathSegment, encodePathSegment
  | encodeHost, encodeHost
  | encodeZone, encodeZone
  | encodeUserPassword, encodeUserPassword
  | encodeQueryComponent, encodeQueryComponent
  | encodeFragment, encodeFragment => true
  | _, _ => false
  end.

Definition ishex (c : ascii) : bool :=
  Bytes.is_digit c || Bytes.between "a" "f" c || Bytes.between "A" "F" c.

Definition unhex (c : ascii) : N :=
  if Bytes.is_digit c then Bytes.code c - Bytes.code "0"
  else if Bytes.between "a" "f" c then Bytes.code c - Bytes.code "a" + 10
  else if Bytes.between "A" "F" c then Bytes.code c - Bytes.code "A" + 10
  else 0.

(** [unhex(a)<<4 | unhex(b)] *)
Definition unhex2 (a b : ascii) : ascii :=
  ascii_of_N (N.lor (N.shiftl (unhex a) 4) (unhex b)).

(** ["0123456789ABCDEF"[n]] *)
Definition upperhex (n : N) : ascii :=
  if (n <? 10)%N then ascii_of_N (Bytes.code "0" + n)
  else ascii_of_N (Bytes.code "A" + (n - 10)).

(** Whether byte [c] must be percent-encoded in the given part of a URL. *)
Definition shouldEscape (c : ascii) (mode : encoding) : bool :=
  if Bytes.is_alnum c then false
  else if (encoding_eqb mode encodeHost || encoding_eqb mode encodeZone)
          && (Bytes.one_of "!$&'()*+,;=:[]<>" c || Ascii.eqb c Bytes.DQUOTE) then false
  else if Bytes.one_of "-_.~" c then false
  else if Bytes.one_of "$&+,/:;=?@" c then
    match mode with
    | encodePath => Ascii.eqb c "?"
    | encodePathSegment => Bytes.one_of "/;,?" c
    | encodeUserPassword => Bytes.one_of "@/?:" c
    | encodeQueryComponent => true
    | encodeFragment => false
    | encodeHost | encodeZone => true
    end
  else if encoding_eqb mode encodeFragment && Bytes.one_of "!()*" c then false
  else true.

(** The first loop of [unescape]: the escapes are well formed for [mode].
    [None] when the loop runs to the end. *)
Fixpoint unescape_check (s : string) (mode : encoding) : option error :=
  match s with
  | EmptyString => None
  | String c r =>
      if Ascii.eqb c "%" then
        match r with
        | String a (String b r') =>
            if negb (ishex a && ishex b) then Some (EscapeError (Strings.take 3 s))
            else if encoding_eqb mode encodeHost && (unhex a <? 8)%N
                    && negb (String.eqb (Strings.take 3 s) "%25")
            then Some (EscapeError (Strings.take 3 s))
            else if encoding_eqb mode encodeZone
                    && negb (String.eqb (Strings.take 3 s) "%25")
                    && negb (Ascii.eqb (unhex2 a b) " ")
                    && shouldEscape (unhex2 a b) encodeHost
            then Some (EscapeError (Strings.take 3 s))
            else unescape_check r' mode
        | _ => Some (EscapeError (Strings.take 3 s))
        end
      else if Ascii.eqb c "+" then unescape_check r mode
      else if (encoding_eqb mode encodeHost || encoding_eqb mode encodeZone)
              && (Bytes.code c <? 128)%N && shouldEscape c encodeHost
      then Some (InvalidHostError (String c EmptyString))
      else unescape_check r mode
  end.

(** The second loop of [unescape], on a string the first loop accepted. *)
Fixpoint unescape_decode (s : string) (mode : encoding) : string :=
  match s with
  | EmptyString => EmptyString
  | String c r =>
      if Ascii.eqb c "%" then
        match r with
        | String a (String b r') => String (unhex2 a b) (unescape_decode r' mode)
        | _ => EmptyString
        end
      else if Ascii.eqb c "+" then
        String (if encoding_eqb mode encodeQueryComponent then " " else "+")%char
               (unescape_decode r mode)
      else String c (unescape_decode r mode)
  end.

Definition unescape (s : string) (mode : encoding) : result string :=
  match unescape_check s mode with
  | Some e => Error e
  | None => Ok (unescape_decode s mode)
  end.

Fixpoint escape (s : string) (mode : encoding) : string :=
  match s with
  | EmptyString => EmptyString
  | String c r =>
      if Ascii.eqb c " " && encoding_eqb mode encodeQueryComponent then
        String "+" (escape r mode)
      else if shouldEscape c mode then
        String "%" (String (upperhex (N.shiftr (Bytes.code c) 4))
                   (String (upperhex (N.land (Bytes.code c) 15)) (escape r mode)))
      else String c (escape r mode)
  end.

Definition QueryUnescape (s : string) : result string := unescape s encodeQueryComponent.
Definition QueryEscape (s : string) : string := escape s encodeQueryComponent.

(** [*Userinfo]: the pointer is the [option] at its uses. *)
Record Userinfo : Type := {
  username : string;
  password : string;
  passwordSet : bool
}.

Definition User (username : string) : Userinfo :=
  {| username := username; password := ""; passwordSet := false |}.

Definition UserPassword (username password : string) : Userinfo :=
  {| username := username; password := password; passwordSet := true |}.

Definition Userinfo_String (u : Userinfo) : string :=
  let s := escape (username u) encodeUserPassword in
  if passwordSet u then s +:+ ":" +:+ escape (password u) encodeUserPassword else s.

Record URL : Type := {
  Scheme : string;
  Opaque : string;
  User_ : option Userinfo;
  Host : string;
  Path : string;
  RawPath : string;
  ForceQuery : bool;
  RawQuery : string;
  Fragment : string
}.

Definition emptyURL : URL :=
  {| Scheme := ""; Opaque := ""; User_ := None; Host := ""; Path := ""; RawPath := "";
     ForceQuery := false; RawQuery := ""; Fragment := "" |}.

Definition set_Scheme (v : string) (u : URL) : URL :=
  {| Scheme := v; Opaque := Opaque u; User_ := User_ u; Host := Host u; Path := Path u;
     RawPath := RawPath u; ForceQuery := ForceQuery u; RawQuery := RawQuery u;
     Fragment := Fragment u |}.
Definition set_Opaque (v : string) (u : URL) : URL :=
  {| Scheme := Scheme u; Opaque := v; User_ := User_ u; Host := Host u; Path := Path u;
     RawPath := RawPath u; ForceQuery := ForceQuery u; RawQuery := RawQuery u;
     Fragment := Fragment u |}.
Definition set_User (v : option Userinfo) (u : URL) : URL :=
  {| Scheme := Scheme u; Opaque := Opaque u; User_ := v; Host := Host u; Path := Path u;
     RawPath := RawPath u; ForceQuery := ForceQuery u; RawQuery := RawQuery u;
     Fragment := Fragment u |}.
Definition set_Host (v : string) (u : URL) : URL :=
  {| Scheme := Scheme u; Opaque := Opaque u; User_ := User_ u; Host := v; Path := Path u;
     RawPath := RawPath u; ForceQuery := ForceQuery u; RawQuery := RawQuery u;
     Fragment := Fragment u |}.
Definition set_Path (v : string) (u : URL) : URL :=
  {| Scheme := Scheme u; Opaque := Opaque u; User_ := User_ u; Host := Host u; Path := v;
     RawPath := RawPath u; ForceQuery := ForceQuery u; RawQuery := RawQuery u;
     Fragment := Fragment u |}.
Definition set_RawPath (v : string) (u : URL) : URL :=
  {| Scheme := Scheme u; Opaque := Opaque u; User_ := User_ u; Host := Host u; Path := Path u;
     RawPath := v; ForceQuery := ForceQuery u; RawQuery := RawQuery u;
     Fragment := Fragment u |}.
Definition set_ForceQuery (v : bool) (u : URL) : URL :=
  {| Scheme := Scheme u; Opaque := Opaque u; User_ := User_ u; Host := Host u; Path := Path u;
     RawPath := RawPath u; ForceQuery := v; RawQuery := RawQuery u;
     Fragment := Fragment u |}.
Definition set_RawQuery (v : string) (u : URL) : URL :=
  {| Scheme := Scheme u; Opaque := Opaque u; User_ := User_ u; Host := Host u; Path := Path u;
     RawPath := RawPath u; ForceQuery := ForceQuery u; RawQuery := v;
     Fragment := Fragment u |}.
Definition set_Fragment (v : string) (u : URL) : URL :=
  {| Scheme := Scheme u; Opaque := Opaque u; User_ := User_ u; Host := Host u; Path := Path u;
     RawPath := RawPath u; ForceQuery := ForceQuery u; RawQuery := RawQuery u;
     Fragment := v |}.

(** [split(s, c, cutc)] for the one-byte separators url.go passes. *)
Definition split (s : string) (c : ascii) (cutc : bool) : string * string :=
  match Strings.IndexByte s c with
  | None => (s, "")
  | Some i => (Strings.take i s, if cutc then Strings.drop (S i) s else Strings.drop i s)
  end.

Definition stringContainsCTLByte (s : string) : bool :=
  negb (Strings.forallb
          (fun b => negb ((Bytes.code b <? Bytes.code " ")%N || (Bytes.code b =? 127)%N)) s).

(** The scan of [getscheme] from index [i]: [Some (Some i)] is a scheme of
    length [i], [Some None] is no scheme, [None] is the error. *)
Fixpoint getscheme_scan (s : string) (i : nat) : option (option nat) :=
  match s with
  | EmptyString => Some None
  | String c r =>
      if Bytes.is_lower c || Bytes.is_upper c then getscheme_scan r (S i)
      else if Bytes.is_digit c || Bytes.one_of "+-." c then
        match i with
        | 0 => Some None
        | _ => getscheme_scan r (S i)
        end
      else if Ascii.eqb c ":" then
        match i with
        | 0 => None
        | _ => Some (Some i)
        end
      else Some None
  end.

Definition getscheme (rawurl : string) : result (string * string) :=
  match getscheme_scan rawurl 0 with
  | None => Error (ErrorString "missing protocol scheme")
  | Some None => Ok ("", rawurl)
  | Some (Some i) => Ok (Strings.take i rawurl, Strings.drop (S i) rawurl)
  end.

Definition validOptionalPort (port : string) : bool :=
  match port with
  | EmptyString => true
  | String c digits => Ascii.eqb c ":" && Strings.forallb Bytes.is_digit digits
  end.

Definition invalid_port (colonPort : string) : error :=
  ErrorString ("invalid port " +:+ Strings.quoted colonPort +:+ " after host").

Definition parseHost (host : string) : result string :=
  let generic := unescape host encodeHost in
  if Strings.HasPrefix host "[" then
    match Strings.LastIndexByte host "]" with
    | None => Error (ErrorString "missing ']' in host")
    | Some i =>
        let colonPort := Strings.drop (S i) host in
        if negb (validOptionalPort colonPort) then Error (invalid_port colonPort)
        else
          match Strings.Index (Strings.take i host) "%25" with
          | Some zone =>
              host1 ← unescape (Strings.take zone host) encodeHost;
              host2 ← unescape (Strings.drop zone (Strings.take i host)) encodeZone;
              host3 ← unescape (Strings.drop i host) encodeHost;
              Ok (host1 +:+ host2 +:+ host3)
          | None => generic
          end
    end
  else
    match Strings.LastIndexByte host ":" with
    | Some i =>
        let colonPort := Strings.drop i host in
        if negb (validOptionalPort colonPort) then Error (invalid_port colonPort)
        else generic
    | None => generic
    end.

Definition validUserinfo (s : string) : bool :=
  Strings.forallb
    (fun r => Bytes.is_upper r || Bytes.is_lower r || Bytes.is_digit r
              || Bytes.one_of "-._:~!$&'()*+,;=%@" r) s.

Definition parseAuthority (authority : string) : result (option Userinfo * string) :=
  let i := Strings.LastIndexByte authority "@" in
  host ← match i with
         | None => parseHost authority
         | Some i => parseHost (Strings.drop (S i) authority)
         end;
  match i with
  | None => Ok (None, host)
  | Some i =>
      let userinfo := Strings.take i authority in
      if negb (validUserinfo userinfo) then Error (ErrorString "net/url: invalid userinfo")
      else if negb (Strings.Contains userinfo ":") then
        userinfo ← unescape userinfo encodeUserPassword;
        Ok (Some (User userinfo), host)
      else
        let '(username, password) := split userinfo ":" true in
        username ← unescape username encodeUserPassword;
        password ← unescape password encodeUserPassword;
        Ok (Some (UserPassword username password), host)
  end.

Definition setPath (u : URL) (p : string) : result URL :=
  path ← unescape p encodePath;
  let u := set_Path path u in
  if String.eqb p (escape path encodePath) then Ok (set_RawPath "" u)
  else Ok (set_RawPath p u).

(** The end of [parse], after the scheme and the query are split off:
    the opaque form, the authority and the path of [rest]. *)
Definition parse_hierarchy (url : URL) (rest : string) : result URL :=
  if negb (Strings.HasPrefix rest "/") && negb (Strings.is_empty (Scheme url)) then
    (* We consider rootless paths per RFC 3986 as opaque. *)
    Ok (set_Opaque rest url)
  else if negb (Strings.HasPrefix rest "/")
          && match Strings.IndexByte rest ":", Strings.IndexByte rest "/" with
             | Some colon, None => true
             | Some colon, Some slash => Nat.ltb colon slash
             | None, _ => false
             end
  then Error (ErrorString "first path segment in URL cannot contain colon")
  else
    '(rest, url) ←
      (if (negb (Strings.is_empty (Scheme url)) || negb (Strings.HasPrefix rest "///"))
          && Strings.HasPrefix rest "//"
       then
         let '(authority, rest) := split (Strings.drop 2 rest) "/" false in
         '(user, host) ← parseAuthority authority;
         Ok (rest, set_Host host (set_User user url))
       else Ok (rest, url));
    setPath url rest.

(** The split of the query off [rest]. *)
Definition split_query (url : URL) (rest : string) : string * URL :=
  if Strings.HasSuffixByte rest "?" && Nat.eqb (Strings.CountByte rest "?") 1
  then (Strings.take (String.length rest - 1) rest, set_ForceQuery true url)
  else let '(rest, query) := split rest "?" true in (rest, set_RawQuery query url).

(** [parse(rawurl, false)]: [Parse] never goes through the request form. *)
Definition parse (rawurl : string) : result URL :=
  if stringContainsCTLByte rawurl then
    Error (ErrorString "net/url: invalid control character in URL")
  else if String.eqb rawurl "*" then Ok (set_Path "*" emptyURL)
  else
    '(scheme, rest) ← getscheme rawurl;
    let url := set_Scheme (Strings.ToLower scheme) emptyURL in
    let '(rest, url) := split_query url rest in
    parse_hierarchy url rest.

Definition Parse (rawurl : string) : result URL :=
  let '(u, frag) := split rawurl "#" true in
  match parse u with
  | Error err => Error (UrlError "parse" u err)
  | Ok url =>
      if Strings.is_empty frag then Ok url
      else
        match unescape frag encodeFragment with
        | Error err => Error (UrlError "parse" rawurl err)
        | Ok f => Ok (set_Fragment f url)
        end
  end.

Definition validEncodedPath (s : string) : bool :=
  Strings.forallb
    (fun c => Bytes.one_of "!$&'()*+,;=:@" c || Bytes.one_of "[]" c || Ascii.eqb c "%"
              || negb (shouldEscape c encodePath)) s.

Definition EscapedPath (u : URL) : string :=
  let fallback :=
    if String.eqb (Path u) "*" then "*" else escape (Path u) encodePath in
  if negb (Strings.is_empty (RawPath u)) && validEncodedPath (RawPath u) then
    match unescape (RawPath u) encodePath with
    | Ok p => if String.eqb p (Path u) then RawPath u else fallback
    | Error _ => fallback
    end
  else fallback.

Definition URL_String (u : URL) : string :=
  let buf := if Strings.is_empty (Scheme u) then "" else Scheme u +:+ ":" in
  let buf :=
    if negb (Strings.is_empty (Opaque u)) then buf +:+ Opaque u
    else
      let buf :=
        if negb (Strings.is_empty (Scheme u)) || negb (Strings.is_empty (Host u))
           || bool_decide (is_Some (User_ u))
        then
          let buf :=
            if negb (Strings.is_empty (Host u)) || negb (Strings.is_empty (Path u))
               || bool_decide (is_Some (User_ u))
            then buf +:+ "//" else buf in
          let buf :=
            match User_ u with
            | Some ui => buf +:+ Userinfo_String ui +:+ "@"
            | None => buf
            end in
          if negb (Strings.is_empty (Host u)) then buf +:+ escape (Host u) encodeHost
          else buf
        else buf in
      let path := EscapedPath u in
      let buf :=
        if negb (Strings.is_empty path) && negb (Strings.HasPrefix path "/")
           && negb (Strings.is_empty (Host u))
        then buf +:+ "/" else buf in
      let buf :=
        if Strings.is_empty buf then
          match Strings.IndexByte path ":" with
          | Some i =>
              match Strings.IndexByte (Strings.take i path) "/" with
              | None => buf +:+ "./"
              | Some _ => buf
              end
          | None => buf
          end
        else buf in
      buf +:+ path in
  let buf :=
    if ForceQuery u || negb (Strings.is_empty (RawQuery u))
    then buf +:+ "?" +:+ RawQuery u else buf in
  if negb (Strings.is_empty (Fragment u))
  then buf +:+ "#" +:+ escape (Fragment u) encodeFragment else buf.

(** [url.Values], a [map[string][]string]. *)
Abbreviation Values := (gmap string (list string)).

Definition Values_Set (key value : string) (v : Values) : Values :=
  <[key := [value]]> v.

(** The pieces of a query between the separators [&] and [;], in order:
    the successive values of [key] in the loop of [parseQuery]. *)
Fixpoint query_fields (query : string) : list string :=
  match query with
  | EmptyString => [""]
  | String c r =>
      if Bytes.one_of "&;" c then "" :: query_fields r
      else match query_fields r with
           | f :: fs => String c f :: fs
           | [] => [String c ""]
           end
  end.

(** One turn of the loop of [parseQuery] on the piece [key]. *)
Definition parseQuery_step (st : Values * option error) (key : string)
  : Values * option error :=
  let '(m, err) := st in
  if Strings.is_empty key then st
  else
    let '(key, value) :=
      match Strings.IndexByte key "=" with
      | Some i => (Strings.take i key, Strings.drop (S i) key)
      | None => (key, "")
      end in
    match QueryUnescape key with
    | Error err1 => (m, match err with None => Some err1 | Some _ => err end)
    | Ok key =>
        match QueryUnescape value with
        | Error err1 => (m, match err with None => Some err1 | Some _ => err end)
        | Ok value => (<[key := (default [] (m !! key) ++ [value])%list]> m, err)
        end
    end.

Definition ParseQuery (query : string) : Values * option error :=
  fold_left parseQuery_step (query_fields query) (∅, None).

Definition URL_Query (u : URL) : Values := fst (ParseQuery (RawQuery u)).

Definition string_le (a b : string) : Prop := String.leb a b = true.
#[global] Instance string_le_dec a b : Decision (string_le a b).
Proof. unfold string_le. apply _. Defined.

(** [sort.Strings] of the keys of a map. *)
Definition sorted_keys (v : Values) : list string :=
  merge_sort string_le (fst <$> map_to_list v).

(** The body of the loops of [Encode]: one [key=value] per value, joined
    by [&]. *)
Definition encode_key (v : Values) (buf k : string) : string :=
  fold_left
    (fun buf val =>
       (if Strings.is_empty buf then buf else buf +:+ "&")
         +:+ QueryEscape k +:+ "=" +:+ QueryEscape val)
    (default [] (v !! k)) buf.

Definition Values_Encode (v : Values) : string :=
  fold_left (encode_key v) (sorted_keys v) "".

End Url.

(** ** Package [strconv] and the numeric types *)

Module Strconv.

(** [int64] values are the integers of this range. *)
Definition minInt64 : Z := - 2 ^ 63.
Definition maxInt64 : Z := 2 ^ 63 - 1.

(** [float64] is IEEE 754 binary64: precision 53, maximal exponent 1024. *)
Abbreviation float64 := spec_float.
Definition prec : Z := 53.
Definition emax : Z := 1024.

(** The integer part of a finite float, rounded toward zero. *)
Definition truncate (f : float64) : option Z :=
  match f with
  | S754_zero _ => Some 0%Z
  | S754_finite s m e =>
      let a := if (0 <=? e)%Z then (Z.pos m * 2 ^ e)%Z else (Z.pos m / 2 ^ (- e))%Z in
      Some (if s then (- a)%Z else a)
  | S754_infinity _ | S754_nan => None
  end.

(** The conversion [int64(v)] of a [float64].  When the integer part is
    not an [int64] the language leaves the result to the implementation;
    the amd64 compiler's instruction yields the minimal [int64]. *)
Definition int64_of_float64 (v : float64) : Z :=
  match truncate v with
  | Some z => if (minInt64 <=? z)%Z && (z <=? maxInt64)%Z then z else minInt64
  | None => minInt64
  end.

(** [strconv.FormatInt(i, 10)] *)
Definition FormatInt10 (i : Z) : string := NilZero.string_of_int (Z.to_int i).

(** [strconv.FormatBool] *)
Definition FormatBool (b : bool) : string := if b then "true" else "false".

Definition digit_value (c : ascii) : Z := Z.of_N (Bytes.code c - Bytes.code "0").

(** The digits of a string of decimal digits, as a number. *)
Definition digits_value (s : string) : Z :=
  let fix go (acc : Z) (s : string) : Z :=
    match s with
    | EmptyString => acc
    | String c r => go (10 * acc + digit_value c)%Z r
    end in
  go 0%Z s.

(** The exponent loop of [readFloat]: [if e < 10000 { e = e*10 + digit }]. *)
Definition exponent_value (s : string) : Z :=
  let fix go (e : Z) (s : string) : Z :=
    match s with
    | EmptyString => e
    | String c r => go (if (e <? 10000)%Z then 10 * e + digit_value c else e)%Z r
    end in
  go 0%Z s.

(** The decimal number [(-1)^neg * mant * 10^exp10], rounded to the
    nearest [float64], ties to even. *)
Definition round_decimal (neg : bool) (mant exp10 : Z) : float64 :=
  if (mant =? 0)%Z then S754_zero neg
  else if (0 <=? exp10)%Z then
    binary_normalize prec emax ((if neg then -1 else 1) * mant * 10 ^ exp10) 0 neg
  else
    let '(m, e, l) := SFdiv_core_binary prec emax mant 0 (10 ^ (- exp10)) 0 in
    binary_round_aux prec emax neg m e l.

(** The parts of a number literal of the JSON grammar:
    [-? int (. frac)? ([eE] [+-]? exp)?]. *)
Record number_parts : Type := {
  np_neg : bool;
  np_int : string;
  np_frac : string;
  np_eneg : bool;
  np_exp : string
}.

Definition span_digits (s : string) : string * string :=
  let fix go (s : string) : string * string :=
    match s with
    | EmptyString => ("", "")
    | String c r =>
        if Bytes.is_digit c then let '(d, rest) := go r in (String c d, rest)
        else ("", s)
    end in
  go s.

Definition split_number (s : string) : number_parts :=
  let '(neg, s) :=
    match s with
    | String c r => if Ascii.eqb c "-" then (true, r) else (false, s)
    | EmptyString => (false, s)
    end in
  let '(int, s) := span_digits s in
  let '(frac, s) :=
    match s with
    | String c r => if Ascii.eqb c "." then span_digits r else ("", s)
    | EmptyString => ("", s)
    end in
  let '(eneg, exp) :=
    match s with
    | String c r =>
        if Bytes.one_of "eE" c then
          match r with
          | String sg r' =>
              if Ascii.eqb sg "-" then (true, r')
              else if Ascii.eqb sg "+" then (false, r')
              else (false, r)
          | EmptyString => (false, r)
          end
        else (false, "")
    | EmptyString => (false, "")
    end in
  {| np_neg := neg; np_int := int; np_frac := frac; np_eneg := eneg; np_exp := exp |}.

(** [strconv.ParseFloat(s, 64)] on a literal of the JSON grammar: the
    correctly rounded value, or the range error when it overflows. *)
Definition ParseFloat (s : string) : result float64 :=
  let p := split_number s in
  let mant := digits_value (np_int p +:+ np_frac p) in
  let e := exponent_value (np_exp p) in
  let exp10 := ((if np_eneg p then - e else e) - Z.of_nat (String.length (np_frac p)))%Z in
  match round_decimal (np_neg p) mant exp10 with
  | S754_infinity _ | S754_nan =>
      Error (ErrorString ("strconv.ParseFloat: parsing " +:+ Strings.quoted s
                            +:+ ": value out of range"))
  | f => Ok f
  end.

End Strconv.

(** ** Package [unicode/utf8] *)

Module Utf8.

Definition RuneError : N := 65533.    (* U+FFFD *)
Definition MaxRune : N := 1114111.    (* U+10FFFF *)

Definition cont (b : ascii) : N := N.land (Bytes.code b) 63.

Definition in_range (lo hi : N) (b : ascii) : bool :=
  (lo <=? Bytes.code b)%N && (Bytes.code b <=? hi)%N.

(** [utf8.DecodeRune]: the rune at the front of [p] and its width; an
    invalid encoding is [(RuneError, 1)], the empty input [(RuneError, 0)]. *)
Definition DecodeRune (p : string) : N * nat :=
  match p with
  | EmptyString => (RuneError, 0)
  | String p0 r =>
      let c := Bytes.code p0 in
      if (c <? 128)%N then (c, 1)
      else
        (* size of the sequence and accepted range of the second byte *)
        let '(sz, lo, hi) :=
          if in_range 194 223 p0 then (2, 128%N, 191%N)
          else if (c =? 224)%N then (3, 160%N, 191%N)
          else if in_range 225 236 p0 then (3, 128%N, 191%N)
          else if (c =? 237)%N then (3, 128%N, 159%N)
          else if in_range 238 239 p0 then (3, 128%N, 191%N)
          else if (c =? 240)%N then (4, 144%N, 191%N)
          else if in_range 241 243 p0 then (4, 128%N, 191%N)
          else if (c =? 244)%N then (4, 128%N, 143%N)
          else (0, 0%N, 0%N) in
        match sz, r with
        | 2, String b1 _ =>
            if in_range lo hi b1
            then (N.lor (N.shiftl (N.land c 31) 6) (cont b1), 2)
            else (RuneError, 1)
        | 3, String b1 (String b2 _) =>
            if in_range lo hi b1 && in_range 128 191 b2
            then (N.lor (N.shiftl (N.land c 15) 12)
                        (N.lor (N.shiftl (cont b1) 6) (cont b2)), 3)
            else (RuneError, 1)
        | 4, String b1 (String b2 (String b3 _)) =>
            if in_range lo hi b1 && in_range 128 191 b2 && in_range 128 191 b3
            then (N.lor (N.shiftl (N.land c 7) 18)
                        (N.lor (N.shiftl (cont b1) 12)
                               (N.lor (N.shiftl (cont b2) 6) (cont b3))), 4)
            else (RuneError, 1)
        | _, _ => (RuneError, 1)
        end
  end.

Definition byte_of (n : N) : ascii := ascii_of_N n.

Definition is_surrogate (r : N) : bool := (55296 <=? r)%N && (r <? 57344)%N.

(** [utf8.EncodeRune] *)
Definition EncodeRune (r : N) : string :=
  let three (r : N) : string :=
    String (byte_of (N.lor 224 (N.shiftr r 12)))
      (String (byte_of (N.lor 128 (N.land (N.shiftr r 6) 63)))
         (String (byte_of (N.lor 128 (N.land r 63))) "")) in
  if (r <=? 127)%N then String (byte_of r) ""
  else if (r <=? 2047)%N then
    String (byte_of (N.lor 192 (N.shiftr r 6)))
      (String (byte_of (N.lor 128 (N.land r 63))) "")
  else if (MaxRune <? r)%N || is_surrogate r then three RuneError
  else if (r <=? 65535)%N then three r
  else
    String (byte_of (N.lor 240 (N.shiftr r 18)))
      (String (byte_of (N.lor 128 (N.land (N.shiftr r 12) 63)))
         (String (byte_of (N.lor 128 (N.land (N.shiftr r 6) 63)))
            (String (byte_of (N.lor 128 (N.land r 63))) ""))).

(** [utf16.DecodeRune] *)
Definition utf16_DecodeRune (r1 r2 : N) : N :=
  if (55296 <=? r1)%N && (r1 <? 56320)%N && (56320 <=? r2)%N && (r2 <? 57344)%N
  then (N.lor (N.shiftl (r1 - 55296) 10) (r2 - 56320) + 65536)%N
  else RuneError.

End Utf8.

(** ** Package [encoding/base64] *)

Module Base64.

(** The alphabet of [base64.URLEncoding]. *)
Definition encodeURL (n : N) : ascii :=
  if (n <? 26)%N then ascii_of_N (Bytes.code "A" + n)
  else if (n <? 52)%N then ascii_of_N (Bytes.code "a" + (n - 26))
  else if (n <? 62)%N then ascii_of_N (Bytes.code "0" + (n - 52))
  else if (n =? 62)%N then "-"%char
  else "_"%char.

(** [base64.URLEncoding.EncodeToString]: three bytes give four
    characters; the last group is padded with [=]. *)
Fixpoint EncodeToString (src : string) : string :=
  match src with
  | EmptyString => ""
  | String a EmptyString =>
      let v := N.shiftl (Bytes.code a) 16 in
      String (encodeURL (N.land (N.shiftr v 18) 63))
        (String (encodeURL (N.land (N.shiftr v 12) 63)) "==")
  | String a (String b EmptyString) =>
      let v := N.lor (N.shiftl (Bytes.code a) 16) (N.shiftl (Bytes.code b) 8) in
      String (encodeURL (N.land (N.shiftr v 18) 63))
        (String (encodeURL (N.land (N.shiftr v 12) 63))
           (String (encodeURL (N.land (N.shiftr v 6) 63)) "="))
  | String a (String b (String c r)) =>
      let v := N.lor (N.shiftl (Bytes.code a) 16)
                     (N.lor (N.shiftl (Bytes.code b) 8) (Bytes.code c)) in
      String (encodeURL (N.land (N.shiftr v 18) 63))
        (String (encodeURL (N.land (N.shiftr v 12) 63))
           (String (encodeURL (N.land (N.shiftr v 6) 63))
              (String (encodeURL (N.land v 63)) (EncodeToString r))))
  end.

End Base64.

(** ** Package [encoding/json] *)

Module Json.

(** A JSON document as [Unmarshal] walks it: object members in document
    order with repeated keys kept, strings unquoted, number literals as
    written. *)
Inductive json : Type :=
  | JNull
  | JBool (b : bool)
  | JNumber (lit : string)
  | JString (s : string)
  | JArray (elems : list json)
  | JObject (members : list (string * json)).

(** *** Unquoting of string literals (decode.go, [unquote]) *)

Definition hex4 (a b c d : ascii) : option N :=
  if Url.ishex a && Url.ishex b && Url.ishex c && Url.ishex d then
    Some (N.lor (N.shiftl (Url.unhex a) 12)
            (N.lor (N.shiftl (Url.unhex b) 8)
               (N.lor (N.shiftl (Url.unhex c) 4) (Url.unhex d))))
  else None.

(** [getu4]: the rune of a [\uXXXX] at the front of [s]; [None] is -1. *)
Definition getu4 (s : string) : option N :=
  match s with
  | String bs (String u (String a (String b (String c (String d _))))) =>
      if Ascii.eqb bs "\" && Ascii.eqb u "u" then hex4 a b c d else None
  | _ => None
  end.

Definition TAB : ascii := ascii_of_N 9.
Definition LF : ascii := ascii_of_N 10.
Definition CR : ascii := ascii_of_N 13.
Definition BS : ascii := ascii_of_N 8.
Definition FF : ascii := ascii_of_N 12.

Definition simple_escape (e : ascii) : option ascii :=
  if Ascii.eqb e Bytes.DQUOTE || Bytes.one_of "\/'" e then Some e
  else if Ascii.eqb e "b" then Some BS
  else if Ascii.eqb e "f" then Some FF
  else if Ascii.eqb e "n" then Some LF
  else if Ascii.eqb e "r" then Some CR
  else if Ascii.eqb e "t" then Some TAB
  else None.

(** The body of a string literal the scanner accepted, unquoted.  [skip]
    counts bytes already consumed by a multi-byte step (the rest of a
    [\u] escape, of a surrogate pair or of a UTF-8 sequence). *)
Fixpoint unquote_from (skip : nat) (s : string) : string :=
  match s with
  | EmptyString => ""
  | String c r =>
      match skip with
      | S k => unquote_from k r
      | 0 =>
          if Ascii.eqb c "\" then
            match r with
            | EmptyString => ""
            | String e r' =>
                if Ascii.eqb e "u" then
                  match getu4 s with
                  | None => ""
                  | Some rr =>
                      if Utf8.is_surrogate rr then
                        (* -1, like 0, is no low surrogate *)
                        let rr1 := default 0%N (getu4 (Strings.drop 6 s)) in
                        let dec := Utf8.utf16_DecodeRune rr rr1 in
                        if negb (dec =? Utf8.RuneError)%N
                        then Utf8.EncodeRune dec +:+ unquote_from 11 r
                        else Utf8.EncodeRune Utf8.RuneError +:+ unquote_from 5 r
                      else Utf8.EncodeRune rr +:+ unquote_from 5 r
                  end
                else
                  match simple_escape e with
                  | Some b => String b (unquote_from 1 r)
                  | None => ""
                  end
            end
          else if (Bytes.code c <? 128)%N then String c (unquote_from 0 r)
          else
            let '(rr, size) := Utf8.DecodeRune s in
            Utf8.EncodeRune rr +:+ unquote_from (size - 1) r
      end
  end.

Definition unquote (body : string) : string := unquote_from 0 body.

(** *** The scanner (scanner.go) as a pushdown machine building the tree *)

(** What encloses the value being read: [parseState] with the parts of
    the enclosing values read so far (latest first). *)
Inductive frame : Type :=
  | FArray (elems : list json)                         (* parseArrayValue *)
  | FKey (members : list (string * json)) (key : string)   (* parseObjectKey *)
  | FValue (members : list (string * json)) (key : string) (* parseObjectValue *)
  | FObject (members : list (string * json)).          (* between members *)

(** The [step] function of the scanner, with the bytes of the token being
    read (latest first) where there is one. *)
Inductive state : Type :=
  | BeginValueOrEmpty                       (* after [ *)
  | BeginValue
  | BeginStringOrEmpty                      (* after { *)
  | BeginString                             (* after , in an object *)
  | EndValue
  | EndTop (v : json)
  | InString (acc : string)
  | InStringEsc (acc : string)
  | InStringEscU (n : nat) (acc : string)   (* n hexadecimal digits read *)
  | Neg (acc : string)
  | Zero (acc : string)                     (* state0 *)
  | Int1 (acc : string)                     (* state1 *)
  | Dot (acc : string)
  | Dot0 (acc : string)
  | Exp (acc : string)                      (* stateE *)
  | ExpSign (acc : string)                  (* stateESign *)
  | Exp0 (acc : string)                     (* stateE0 *)
  | Lit (rest : string) (v : json).         (* inside true, false, null *)

Definition is_space (c : ascii) : bool :=
  Ascii.eqb c " " || Ascii.eqb c TAB || Ascii.eqb c CR || Ascii.eqb c LF.

Fixpoint rev_string (acc s : string) : string :=
  match s with
  | EmptyString => acc
  | String c r => rev_string (String c acc) r
  end.

Definition machine : Type := list frame * state.

(** A value is complete: it goes to the enclosing frame. *)
Definition complete (v : json) (stack : list frame) : option machine :=
  match stack with
  | [] => Some ([], EndTop v)
  | FArray elems :: stack' => Some (FArray (v :: elems) :: stack', EndValue)
  | FValue members key :: stack' => Some (FObject ((key, v) :: members) :: stack', EndValue)
  | FObject members :: stack' =>
      match v with
      | JString key => Some (FKey members key :: stack', EndValue)
      | _ => None
      end
  | FKey _ _ :: _ => None
  end.

(** [stateEndValue] and [stateEndTop] on byte [c]. *)
Definition end_value (stack : list frame) (c : ascii) : option machine :=
  if is_space c then Some (stack, EndValue)
  else
    match stack with
    | FKey members key :: stack' =>
        if Ascii.eqb c ":" then Some (FValue members key :: stack', BeginValue) else None
    | FObject members :: stack' =>
        if Ascii.eqb c "," then Some (FObject members :: stack', BeginString)
        else if Ascii.eqb c "}" then complete (JObject (rev members)) stack'
        else None
    | FArray elems :: stack' =>
        if Ascii.eqb c "," then Some (FArray elems :: stack', BeginValue)
        else if Ascii.eqb c "]" then complete (JArray (rev elems)) stack'
        else None
    | FValue _ _ :: _ | [] => None
    end.

(** The end of a number literal: the byte after it is scanned in the state
    that follows a value. *)
Definition end_number (acc : string) (stack : list frame) (c : ascii) : option machine :=
  match complete (JNumber (rev_string "" acc)) stack with
  | Some (stack', EndValue) => end_value stack' c
  | Some (stack', EndTop v) => if is_space c then Some (stack', EndTop v) else None
  | _ => None
  end.

(** [stateBeginValue] on byte [c]. *)
Definition begin_value (stack : list frame) (c : ascii) : option machine :=
  if is_space c then Some (stack, BeginValue)
  else if Ascii.eqb c "{" then Some (FObject [] :: stack, BeginStringOrEmpty)
  else if Ascii.eqb c "[" then Some (FArray [] :: stack, BeginValueOrEmpty)
  else if Ascii.eqb c Bytes.DQUOTE then Some (stack, InString "")
  else if Ascii.eqb c "-" then Some (stack, Neg "-")
  else if Ascii.eqb c "0" then Some (stack, Zero "0")
  else if Ascii.eqb c "t" then Some (stack, Lit "rue" (JBool true))
  else if Ascii.eqb c "f" then Some (stack, Lit "alse" (JBool false))
  else if Ascii.eqb c "n" then Some (stack, Lit "ull" JNull)
  else if Bytes.between "1" "9" c then Some (stack, Int1 (String c ""))
  else None.

Definition step (m : machine) (c : ascii) : option machine :=
  let '(stack, st) := m in
  match st with
  | BeginValueOrEmpty =>
      if is_space c then Some m
      else if Ascii.eqb c "]" then
        match stack with
        | FArray elems :: stack' => complete (JArray (rev elems)) stack'
        | _ => None
        end
      else begin_value stack c
  | BeginValue => begin_value stack c
  | BeginStringOrEmpty =>
      if is_space c then Some m
      else if Ascii.eqb c "}" then
        match stack with
        | FObject members :: stack' => complete (JObject (rev members)) stack'
        | _ => None
        end
      else if Ascii.eqb c Bytes.DQUOTE then Some (stack, InString "")
      else None
  | BeginString =>
      if is_space c then Some m
      else if Ascii.eqb c Bytes.DQUOTE then Some (stack, InString "")
      else None
  | EndValue => end_value stack c
  | EndTop v => if is_space c then Some m else None
  | InString acc =>
      if Ascii.eqb c Bytes.DQUOTE then complete (JString (unquote (rev_string "" acc))) stack
      else if Ascii.eqb c "\" then Some (stack, InStringEsc (String c acc))
      else if (Bytes.code c <? 32)%N then None
      else Some (stack, InString (String c acc))
  | InStringEsc acc =>
      if Bytes.one_of "bfnrt\/" c || Ascii.eqb c Bytes.DQUOTE
      then Some (stack, InString (String c acc))
      else if Ascii.eqb c "u" then Some (stack, InStringEscU 0 (String c acc))
      else None
  | InStringEscU n acc =>
      if Url.ishex c then
        Some (stack, if Nat.eqb n 3 then InString (String c acc)
                     else InStringEscU (S n) (String c acc))
      else None
  | Neg acc =>
      if Ascii.eqb c "0" then Some (stack, Zero (String c acc))
      else if Bytes.between "1" "9" c then Some (stack, Int1 (String c acc))
      else None
  | Int1 acc =>
      if Bytes.is_digit c then Some (stack, Int1 (String c acc))
      else if Ascii.eqb c "." then Some (stack, Dot (String c acc))
      else if Bytes.one_of "eE" c then Some (stack, Exp (String c acc))
      else end_number acc stack c
  | Zero acc =>
      if Ascii.eqb c "." then Some (stack, Dot (String c acc))
      else if Bytes.one_of "eE" c then Some (stack, Exp (String c acc))
      else end_number acc stack c
  | Dot acc =>
      if Bytes.is_digit c then Some (stack, Dot0 (String c acc)) else None
  | Dot0 acc =>
      if Bytes.is_digit c then Some (stack, Dot0 (String c acc))
      else if Bytes.one_of "eE" c then Some (stack, Exp (String c acc))
      else end_number acc stack c
  | Exp acc =>
      if Bytes.one_of "+-" c then Some (stack, ExpSign (String c acc))
      else if Bytes.is_digit c then Some (stack, Exp0 (String c acc))
      else None
  | ExpSign acc =>
      if Bytes.is_digit c then Some (stack, Exp0 (String c acc)) else None
  | Exp0 acc =>
      if Bytes.is_digit c then Some (stack, Exp0 (String c acc))
      else end_number acc stack c
  | Lit rest v =>
      match rest with
      | String x EmptyString => if Ascii.eqb c x then complete v stack else None
      | String x rest' => if Ascii.eqb c x then Some (stack, Lit rest' v) else None
      | EmptyString => None
      end
  end.

Fixpoint run (m : machine) (data : string) : option machine :=
  match data with
  | EmptyString => Some m
  | String c r =>
      match step m c with
      | Some m' => run m' r
      | None => None
      end
  end.

(** [checkValid] and the tree of the document: [None] is the syntax
    error.  At the end of the input the scanner is fed one space ([eof]). *)
Definition parse (data : string) : option json :=
  match run ([], BeginValue) data with
  | Some m =>
      match step m " " with
      | Some ([], EndTop v) => Some v
      | _ => None
      end
  | None => None
  end.

Definition Valid (data : string) : bool := bool_decide (is_Some (parse data)).

(** *** Decoding (decode.go) *)

(** [saveError]: the first error is the one [Unmarshal] returns. *)
Definition first_error (e1 e2 : option error) : option error :=
  match e1 with
  | Some _ => e1
  | None => e2
  end.

(** The [Value] of the [UnmarshalTypeError] for a JSON value that does
    not fit its target. *)
Definition type_error (j : json) : option error :=
  match j with
  | JNull => None
  | JBool _ => Some (UnmarshalTypeError "bool")
  | JNumber _ => Some (UnmarshalTypeError "number")
  | JString _ => Some (UnmarshalTypeError "string")
  | JArray _ => Some (UnmarshalTypeError "array")
  | JObject _ => Some (UnmarshalTypeError "object")
  end.

(** A JSON value into a [string]: [null] has no effect. *)
Definition store_string (j : json) (cur : string) : string * option error :=
  match j with
  | JString s => (s, None)
  | _ => (cur, type_error j)
  end.

(** A JSON value into a [bool]. *)
Definition store_bool (j : json) (cur : bool) : bool * option error :=
  match j with
  | JBool b => (b, None)
  | _ => (cur, type_error j)
  end.

(** Values of type [interface{}] as [Unmarshal] builds them. *)
Inductive iface : Type :=
  | INil
  | IBool (b : bool)
  | IFloat64 (f : Strconv.float64)
  | IString (s : string)
  | ISlice (elems : list iface)                 (* []interface{} *)
  | IMap (m : gmap string iface).               (* map[string]interface{} *)

(** [convertNumber]: a literal as [float64]. *)
Definition convertNumber (lit : string) : iface * option error :=
  match Strconv.ParseFloat lit with
  | Ok f => (IFloat64 f, None)
  | Error _ => (INil, Some (UnmarshalTypeError ("number " +:+ lit)))
  end.

(** [valueInterface]: a JSON value into an empty [interface{}]. *)
Fixpoint valueInterface (j : json) : iface * option error :=
  match j with
  | JNull => (INil, None)
  | JBool b => (IBool b, None)
  | JNumber lit => convertNumber lit
  | JString s => (IString s, None)
  | JArray elems =>
      let fix arrayInterface (elems : list json) : list iface * option error :=
        match elems with
        | [] => ([], None)
        | x :: elems' =>
            let '(v, e) := valueInterface x in
            let '(vs, es) := arrayInterface elems' in
            (v :: vs, first_error e es)
        end in
      let '(vs, e) := arrayInterface elems in (ISlice vs, e)
  | JObject members =>
      let fix objectInterface (members : list (string * json)) (m : gmap string iface)
        : gmap string iface * option error :=
        match members with
        | [] => (m, None)
        | (key, x) :: members' =>
            let '(v, e) := valueInterface x in
            let '(m', es) := objectInterface members' (<[key := v]> m) in
            (m', first_error e es)
        end in
      let '(m, e) := objectInterface members ∅ in (IMap m, e)
  end.

(** A JSON value into a [map[string]interface{}]; [None] is the nil map.
    An object is merged into the map that is there. *)
Definition store_map (j : json) (cur : option (gmap string iface))
  : option (gmap string iface) * option error :=
  match j with
  | JNull => (None, None)
  | JObject members =>
      let step (st : gmap string iface * option error) (kv : string * json) :=
        let '(v, e) := valueInterface kv.2 in
        (<[kv.1 := v]> st.1, first_error st.2 e) in
      let '(m, e) := fold_left step members (default ∅ cur, None) in
      (Some m, e)
  | _ => (cur, type_error j)
  end.

(** A slice: its backing array, whose length is the capacity, and its
    length.  The nil slice has no backing array. *)
Record slice (A : Type) : Type := {
  backing : list A;
  len : nat
}.
Arguments backing {A} s.
Arguments len {A} s.

Definition nil_slice {A : Type} : slice A := {| backing := []; len := 0 |}.

(** The elements of the slice, [s[0:len(s)]]. *)
Definition elements {A : Type} (s : slice A) : list A := take (len s) (backing s).

Definition slice_of {A : Type} (l : list A) : slice A :=
  {| backing := l; len := length l |}.

Section Array.
Context {A : Type} (zero : A) (value : json -> A -> A * option error).

(** The loop of [array] on a slice: element [i] is decoded into the
    slot [i] of the backing array, which is first enlarged (to one and
    a half times its capacity, at least 4) when [i] is past it. *)
Fixpoint array_loop (elems : list json) (i : nat) (s : slice A)
  : slice A * option error :=
  match elems with
  | [] => (s, None)
  | x :: elems' =>
      let cap := length (backing s) in
      let s :=
        if Nat.leb cap i then
          let newcap := Nat.max 4 (cap + cap / 2) in
          {| backing := (take (len s) (backing s) ++ replicate (newcap - len s) zero)%list;
             len := len s |}
        else s in
      let s := if Nat.leb (len s) i then {| backing := backing s; len := S i |} else s in
      let '(v, e) := value x (nth i (backing s) zero) in
      let s := {| backing := <[i := v]> (backing s); len := len s |} in
      let '(s, es) := array_loop elems' (S i) s in
      (s, first_error e es)
  end.

(** A JSON value into a slice. *)
Definition store_slice (j : json) (cur : slice A) : slice A * option error :=
  match j with
  | JNull => (nil_slice, None)
  | JArray elems =>
      let '(s, e) := array_loop elems 0 cur in
      let i := length elems in
      let s := if Nat.ltb i (len s) then {| backing := backing s; len := i |} else s in
      (if Nat.eqb i 0 then nil_slice else s, e)
  | _ => (cur, type_error j)
  end.
End Array.

(** *** Field names (fold.go) *)

(** [b & caseMask] *)
Definition caseMask (b : ascii) : N := N.land (Bytes.code b) 223.

Definition is_letter (b : ascii) : bool := Bytes.is_lower b || Bytes.is_upper b.

Fixpoint simpleLetterEqualFold (s t : string) : bool :=
  match s, t with
  | EmptyString, EmptyString => true
  | String sb s', String tb t' => (caseMask sb =? caseMask tb)%N && simpleLetterEqualFold s' t'
  | _, _ => false
  end.

Fixpoint asciiEqualFold (s t : string) : bool :=
  match s, t with
  | EmptyString, EmptyString => true
  | String sb s', String tb t' =>
      (Ascii.eqb sb tb || (is_letter sb && (caseMask sb =? caseMask tb)%N))
      && asciiEqualFold s' t'
  | _, _ => false
  end.

Definition smallLongEss : N := 383.    (* U+017F *)
Definition kelvin : N := 8490.         (* U+212A *)

Fixpoint equalFoldRight (s t : string) : bool :=
  match s with
  | EmptyString => Strings.is_empty t
  | String sb s' =>
      match t with
      | EmptyString => false
      | String tb t' =>
          if (Bytes.code tb <? 128)%N then
            (Ascii.eqb sb tb
             || (Bytes.between "A" "Z" (ascii_of_N (caseMask sb))
                 && (caseMask sb =? caseMask tb)%N))
            && equalFoldRight s' t'
          else
            let '(tr, size) := Utf8.DecodeRune t in
            (if Bytes.one_of "sS" sb then (tr =? smallLongEss)%N
             else if Bytes.one_of "kK" sb then (tr =? kelvin)%N
             else false)
            && equalFoldRight s' (Strings.drop size t)
      end
  end.

(** [foldFunc] for a field name of ASCII bytes, applied. *)
Definition equalFold (name key : string) : bool :=
  if negb (Strings.forallb (fun b => negb (Bytes.one_of "KS" (ascii_of_N (caseMask b)))) name)
  then equalFoldRight name key
  else if negb (Strings.forallb is_letter name) then asciiEqualFold name key
  else simpleLetterEqualFold name key.

(** The field a key of an object goes to: the one whose name is the key,
    else the first whose name is the key up to case. *)
Fixpoint find_field (names : list string) (key : string) (i : nat) (f : option nat)
  : option nat :=
  match names with
  | [] => f
  | name :: names' =>
      if String.eqb name key then Some i
      else find_field names' key (S i)
             (match f with
              | None => if equalFold name key then Some i else None
              | Some _ => f
              end)
  end.

Section Struct.
Context {T : Type} (names : list string) (field : nat -> json -> T -> T * option error).

(** [object] on a struct: each member goes to its field, in document
    order; a member that matches no field is skipped. *)
Definition object_step (st : T * option error) (kv : string * json) : T * option error :=
  match find_field names kv.1 0 None with
  | Some i => let '(v, e) := field i kv.2 st.1 in (v, first_error st.2 e)
  | None => st
  end.

(** A JSON value into a struct. *)
Definition store_struct (j : json) (cur : T) : T * option error :=
  match j with
  | JObject members => fold_left object_step members (cur, None)
  | _ => (cur, type_error j)
  end.

(** A JSON value into a pointer to a struct: [null] sets the pointer to
    nil, any other value goes to the struct pointed to, a new one when
    the pointer is nil. *)
Definition store_pointer (zero : T) (j : json) (cur : option T) : option T * option error :=
  match j with
  | JNull => (None, None)
  | _ => let '(v, e) := store_struct j (default zero cur) in (Some v, e)
  end.
End Struct.

(** [json.Unmarshal(data, &v)] for a struct [v] decoded by [store]: the
    syntax error of an invalid document, else the decoded value or the
    first type error. *)
Definition Unmarshal {T : Type} (store : json -> T -> T * option error)
    (data : string) (v : T) : result T :=
  match parse data with
  | None => Error SyntaxError
  | Some j =>
      match store j v with
      | (v', None) => Ok v'
      | (_, Some e) => Error e
      end
  end.

End Json.


(** ** Package [pkg/atlas]: the backend client *)

Module Atlas.

(** Modelled from the spec: the declarations of [atlas.Role], [atlas.User]
    and [atlas.Cluster] are in [pkg/atlas], outside the sources at hand.
    The fields and JSON keys are those of the bind parameters of the spec
    ([roles] with [roleName], [databaseName], [collectionName];
    [ldapAuthType]), of the claims on [username] and [password], and of the
    uses in [binding_operations.go] and in the integration test. *)
Record Role : Type := {
  Name : string;                 (* json:"roleName" *)
  DatabaseName : string;         (* json:"databaseName" *)
  CollectionName : string        (* json:"collectionName" *)
}.

Record User : Type := {
  Username : string;             (* json:"username" *)
  Password : string;             (* json:"password" *)
  LDAPAuthType : string;         (* json:"ldapAuthType" *)
  Roles : Json.slice Role        (* json:"roles" *)
}.

Record Cluster : Type := {
  SrvAddress : string;           (* the abbreviated address *)
  MongoURIWithOptions : string;  (* the verbose address *)
  StateName : string
}.

Definition zeroRole : Role := {| Name := ""; DatabaseName := ""; CollectionName := "" |}.

Definition zeroUser : User :=
  {| Username := ""; Password := ""; LDAPAuthType := ""; Roles := Json.nil_slice |}.

Definition Role_names : list string := ["roleName"; "databaseName"; "collectionName"].

Definition Role_field (i : nat) (j : Json.json) (r : Role) : Role * option error :=
  match i with
  | 0 => let '(v, e) := Json.store_string j (Name r) in
         ({| Name := v; DatabaseName := DatabaseName r; CollectionName := CollectionName r |}, e)
  | 1 => let '(v, e) := Json.store_string j (DatabaseName r) in
         ({| Name := Name r; DatabaseName := v; CollectionName := CollectionName r |}, e)
  | _ => let '(v, e) := Json.store_string j (CollectionName r) in
         ({| Name := Name r; DatabaseName := DatabaseName r; CollectionName := v |}, e)
  end.

Definition store_Role : Json.json -> Role -> Role * option error :=
  Json.store_struct Role_names Role_field.

Definition User_names : list string := ["username"; "password"; "ldapAuthType"; "roles"].

Definition User_field (i : nat) (j : Json.json) (u : User) : User * option error :=
  match i with
  | 0 => let '(v, e) := Json.store_string j (Username u) in
         ({| Username := v; Password := Password u; LDAPAuthType := LDAPAuthType u;
             Roles := Roles u |}, e)
  | 1 => let '(v, e) := Json.store_string j (Password u) in
         ({| Username := Username u; Password := v; LDAPAuthType := LDAPAuthType u;
             Roles := Roles u |}, e)
  | 2 => let '(v, e) := Json.store_string j (LDAPAuthType u) in
         ({| Username := Username u; Password := Password u; LDAPAuthType := v;
             Roles := Roles u |}, e)
  | _ => let '(v, e) := Json.store_slice zeroRole store_Role j (Roles u) in
         ({| Username := Username u; Password := Password u; LDAPAuthType := LDAPAuthType u;
             Roles := v |}, e)
  end.

(** The [atlas.Client] interface, over the state [St] of the backend: the
    three operations the binding operations call.  A call of [GetCluster]
    or [CreateUser] that returns no error returns a pointer that is not
    nil. *)
Record Client (St : Type) : Type := {
  GetCluster : string -> St -> St * result Cluster;
  CreateUser : User -> St -> St * result User;
  DeleteUser : string -> St -> St * option error
}.
Arguments GetCluster {St} c name st.
Arguments CreateUser {St} c user st.
Arguments DeleteUser {St} c name st.

(** The calls that reach the backend. *)
Inductive call : Type :=
  | CallGetCluster (name : string)
  | CallCreateUser (user : User)
  | CallDeleteUser (name : string).

(** The backend and the calls made on it so far, oldest first. *)
Record world (St : Type) : Type := {
  backend : St;
  calls : list call
}.
Arguments backend {St} w.
Arguments calls {St} w.

Definition do_GetCluster {St} (c : Client St) (name : string) (w : world St)
  : world St * result Cluster :=
  let '(st, r) := GetCluster c name (backend w) in
  ({| backend := st; calls := calls w ++ [CallGetCluster name] |}, r).

Definition do_CreateUser {St} (c : Client St) (user : User) (w : world St)
  : world St * result User :=
  let '(st, r) := CreateUser c user (backend w) in
  ({| backend := st; calls := calls w ++ [CallCreateUser user] |}, r).

Definition do_DeleteUser {St} (c : Client St) (name : string) (w : world St)
  : world St * option error :=
  let '(st, r) := DeleteUser c name (backend w) in
  ({| backend := st; calls := calls w ++ [CallDeleteUser name] |}, r).

(** Modelled from the spec: a backend in memory for the operations of its
    section 6, [getCluster] failing on an unknown cluster, [createUser]
    adding the principal under its username and [deleteUser] failing on an
    unknown principal.  The client of the repository talks to the remote
    service and is outside the sources at hand. *)
Record memory : Type := {
  clusters : gmap string Cluster;
  users : gmap string User
}.

Definition memoryClient : Client memory := {|
  GetCluster := fun name st =>
    (st, match clusters st !! name with
         | Some c => Ok c
         | None => Error (BackendError "cluster not found")
         end);
  CreateUser := fun user st =>
    match users st !! Username user with
    | Some _ => (st, Error (BackendError "user already exists"))
    | None => ({| clusters := clusters st; users := <[Username user := user]> (users st) |},
               Ok user)
    end;
  DeleteUser := fun name st =>
    match users st !! name with
    | Some _ => ({| clusters := clusters st; users := delete name (users st) |}, None)
    | None => (st, Some (BackendError "user not found"))
    end
|}.

End Atlas.

(** ** Package [pkg/broker]: binding operations *)

Module Broker.

(** ConnectionDetails will be returned when a new binding is created. *)
Record ConnectionDetails : Type := {
  Username : string;
  Password : string;
  URI : string;
  ConnectionString : string
}.

(** ConnectionStringParams stores the connectionString parameters of a
    service binding.  [Options] is a [map[string]interface{}]; [None] is the
    nil map. *)
Record ConnectionStringParams : Type := {
  SkipCredentials : bool;                          (* json:"skipCredentials" *)
  Database : string;                               (* json:"database" *)
  Options : option (gmap string Json.iface);       (* json:"options" *)
  Format : string                                  (* json:"format" *)
}.

Definition zeroConnectionStringParams : ConnectionStringParams :=
  {| SkipCredentials := false; Database := ""; Options := None; Format := "" |}.

Definition ConnectionStringParams_names : list string :=
  ["skipCredentials"; "database"; "options"; "format"].

Definition ConnectionStringParams_field (i : nat) (j : Json.json) (p : ConnectionStringParams)
  : ConnectionStringParams * option error :=
  match i with
  | 0 => let '(v, e) := Json.store_bool j (SkipCredentials p) in
         ({| SkipCredentials := v; Database := Database p; Options := Options p;
             Format := Format p |}, e)
  | 1 => let '(v, e) := Json.store_string j (Database p) in
         ({| SkipCredentials := SkipCredentials p; Database := v; Options := Options p;
             Format := Format p |}, e)
  | 2 => let '(v, e) := Json.store_map j (Options p) in
         ({| SkipCredentials := SkipCredentials p; Database := Database p; Options := v;
             Format := Format p |}, e)
  | _ => let '(v, e) := Json.store_string j (Format p) in
         ({| SkipCredentials := SkipCredentials p; Database := Database p; Options := Options p;
             Format := v |}, e)
  end.

(** The types of [brokerapi] the binding operations exchange.  The
    [Credentials] of a binding is an [interface{}], nil in the zero value. *)
Record BindDetails : Type := {
  ServiceID : string;
  PlanID : string;
  RawParameters : string
}.

Record Binding : Type := { Credentials : option ConnectionDetails }.
Record UnbindSpec : Type := { IsAsync : bool }.
Record GetBindingSpec : Type := { BindingCredentials : option ConnectionDetails }.

Definition zeroBinding : Binding := {| Credentials := None |}.
Definition zeroUnbindSpec : UnbindSpec := {| IsAsync := false |}.
Definition zeroGetBindingSpec : GetBindingSpec := {| BindingCredentials := None |}.

(** What the binding operations use of the rest of the repository and of
    the process: the catalog lookups, the normalization of cluster names,
    the translation of backend errors, and the bytes [crypto/rand] reads.
    Their code is outside the sources at hand; they are parameters. *)
Record Deps : Type := {
  St : Type;                      (* the state of the backend *)
  Ctx : Type;                     (* context.Context *)
  Provider : Type;
  InstanceSize : Type;
  atlasClientFromContext : Ctx -> result (Atlas.Client St);
  findProviderByServiceID : Atlas.Client St -> string -> result Provider;
  findInstanceSizeByPlanID : Provider -> string -> result InstanceSize;
  NormalizeClusterName : string -> string;
  atlasToAPIError : error -> error;
  rand_Read : nat -> result string
}.

(** generatePassword will generate a cryptographically secure password.
    The password will be base64 encoded for easy usage. *)
Definition numberOfBytes : nat := 32.

Definition generatePassword (rand_Read : nat -> result string) : result string :=
  match rand_Read numberOfBytes with
  | Error err => Error err
  | Ok b => Ok (Base64.EncodeToString b)
  end.

(** The params object of [userFromParams], [struct { User *atlas.User }]. *)
Definition store_userParams : Json.json -> option Atlas.User -> option Atlas.User * option error :=
  Json.store_struct ["user"]
    (fun _ => Json.store_pointer Atlas.User_names Atlas.User_field Atlas.zeroUser).

Definition defaultRoles : Json.slice Atlas.Role :=
  Json.slice_of [ {| Atlas.Name := "readWriteAnyDatabase"; Atlas.DatabaseName := "admin";
                     Atlas.CollectionName := "" |} ].

Definition userFromParams (bindingID password rawParams : string) : outcome Atlas.User :=
  (* Set up a params object which will be used for deserialiation. *)
  let params := Some Atlas.zeroUser in
  (* If params were passed we unmarshal them into the params object. *)
  let unmarshalled :=
    if Nat.ltb 0 (String.length rawParams)
    then Json.Unmarshal store_userParams rawParams params
    else Ok params in
  match unmarshalled with
  | Error err => Err err
  | Ok None => Panic nil_dereference
  | Ok (Some user) =>
      (* Set binding ID as username and add password. *)
      let user := {| Atlas.Username := bindingID; Atlas.Password := password;
                     Atlas.LDAPAuthType := Atlas.LDAPAuthType user;
                     Atlas.Roles := Atlas.Roles user |} in
      (* If no role is specified we default to read/write on any database. *)
      let user :=
        if Nat.eqb (Json.len (Atlas.Roles user)) 0
        then {| Atlas.Username := Atlas.Username user; Atlas.Password := Atlas.Password user;
                Atlas.LDAPAuthType := Atlas.LDAPAuthType user; Atlas.Roles := defaultRoles |}
        else user in
      Ret user
  end.

(** The params object of [connectionStringParamsFromParams]. *)
Definition store_connectionStringParams
  : Json.json -> option ConnectionStringParams -> option ConnectionStringParams * option error :=
  Json.store_struct ["connectionString"]
    (fun _ => Json.store_pointer ConnectionStringParams_names ConnectionStringParams_field
                zeroConnectionStringParams).

(** The pointer returned is the [option]: [Ok None] is [(nil, nil)]. *)
Definition connectionStringParamsFromParams (rawParams : string)
  : result (option ConnectionStringParams) :=
  let params := Some zeroConnectionStringParams in
  if Nat.ltb 0 (String.length rawParams)
  then Json.Unmarshal store_connectionStringParams rawParams params
  else Ok params.

(** The [switch v := value.(type)] of the loop over the options: the value
    to set for the key, if any. *)
Definition option_value (value : Json.iface) : option string :=
  match value with
  | Json.IString v => Some v
  | Json.IFloat64 v => Some (Strconv.FormatInt10 (Strconv.int64_of_float64 v))
  | Json.IBool v => Some (Strconv.FormatBool v)
  | _ => None
  end.

(** The loop [for key, value := range Options] on the query [q]. *)
Definition set_options (options : gmap string Json.iface) (q : Url.Values) : Url.Values :=
  map_fold
    (fun key value q =>
       match option_value value with
       | Some v => Url.Values_Set key v q
       | None => q
       end)
    q options.

Definition map_len {A} (m : option (gmap string A)) : nat :=
  match m with
  | Some m => size m
  | None => 0
  end.

Definition buildConnectionString (connectionStringParams : option ConnectionStringParams)
    (cluster : Atlas.Cluster) (bindingID password : string) : outcome string :=
  match connectionStringParams with
  | None => Panic nil_dereference
  | Some params =>
      let clusterAddress :=
        if String.eqb (Format params) "standard"
        then Atlas.MongoURIWithOptions cluster
        else Atlas.SrvAddress cluster in
      match Url.Parse clusterAddress with
      | Error err => Err (WithMessage err "Couldn't parse Atlas address URL")
      | Ok connectionStringURL =>
          let connectionStringURL :=
            if negb (SkipCredentials params)
            then Url.set_User (Some (Url.UserPassword bindingID password)) connectionStringURL
            else connectionStringURL in
          let connectionStringURL :=
            if Nat.ltb 0 (String.length (Database params))
            then Url.set_Path (Database params) connectionStringURL
            else connectionStringURL in
          let connectionStringURL :=
            if Nat.ltb 0 (map_len (Options params)) then
              let q := set_options (default ∅ (Options params))
                         (Url.URL_Query connectionStringURL) in
              let connectionStringURL :=
                Url.set_RawQuery (Url.Values_Encode q) connectionStringURL in
              if Nat.eqb (String.length (Url.Path connectionStringURL)) 0
              then Url.set_Path "/" connectionStringURL
              else connectionStringURL
            else connectionStringURL in
          Ret (Url.URL_String connectionStringURL)
      end
  end.

Section Operations.
Context (deps : Deps).

Abbreviation world := (Atlas.world (St deps)).

(** Bind will create a new database user with a username matching the
    binding ID and a randomly generated password.  The user credentials
    will be returned back.  [Err e] is the return of the zero [spec] with
    the error [e]; the log lines are left out. *)
Definition Bind (ctx : Ctx deps) (instanceID bindingID : string) (details : BindDetails)
    (asyncAllowed : bool) (w : world) : world * outcome Binding :=
  match atlasClientFromContext deps ctx with
  | Error err => (w, Err err)
  | Ok client =>
  (* The service_id and plan_id are required to be valid. *)
  match findProviderByServiceID deps client (ServiceID details) with
  | Error err => (w, Err err)
  | Ok provider =>
  match findInstanceSizeByPlanID deps provider (PlanID details) with
  | Error err => (w, Err err)
  | Ok _ =>
  (* Fetch the cluster from Atlas to ensure it exists. *)
  match Atlas.do_GetCluster client (NormalizeClusterName deps instanceID) w with
  | (w, Error err) => (w, Err (atlasToAPIError deps err))
  | (w, Ok cluster) =>
  (* Generate a cryptographically secure random password. *)
  match generatePassword (rand_Read deps) with
  | Error _ => (w, Err (ErrorString "Failed to generate binding password"))
  | Ok password =>
  (* Construct a user definition from the binding ID, password and params. *)
  match userFromParams bindingID password (RawParameters details) with
  | Panic msg => (w, Panic msg)
  | Err err => (w, Err err)
  | Ret user =>
  (* Create a new Atlas database user from the generated definition. *)
  match Atlas.do_CreateUser client user w with
  | (w, Error err) => (w, Err (atlasToAPIError deps err))
  | (w, Ok _) =>
  match connectionStringParamsFromParams (RawParameters details) with
  | Error err => (w, Err err)
  | Ok connectionStringParams =>
  match buildConnectionString connectionStringParams cluster bindingID password with
  | Panic msg => (w, Panic msg)
  | Err err => (w, Err err)
  | Ret connectionString =>
      (w, Ret {| Credentials := Some {| Username := bindingID;
                                        Password := password;
                                        URI := Atlas.SrvAddress cluster;
                                        ConnectionString := connectionString |} |})
  end end end end end end end end end.

(** Unbind will delete the database user for a specific binding.  The
    database user should have the binding ID as its username. *)
Definition Unbind (ctx : Ctx deps) (instanceID bindingID : string) (asyncAllowed : bool)
    (w : world) : world * result UnbindSpec :=
  match atlasClientFromContext deps ctx with
  | Error err => (w, Error err)
  | Ok client =>
  (* Fetch the cluster from Atlas to ensure it exists. *)
  match Atlas.do_GetCluster client (NormalizeClusterName deps instanceID) w with
  | (w, Error err) => (w, Error (atlasToAPIError deps err))
  | (w, Ok _) =>
  (* Delete database user which has the binding ID as its username. *)
  match Atlas.do_DeleteUser client bindingID w with
  | (w, Some err) => (w, Error (atlasToAPIError deps err))
  | (w, None) => (w, Ok zeroUnbindSpec)
  end end end.

(** GetBinding is currently not supported as specified by the
    BindingsRetrievable setting in the service catalog.  The result is the
    pair [(spec, err)] the function returns. *)
Definition GetBinding (ctx : Ctx deps) (instanceID bindingID : string) (w : world)
  : world * (GetBindingSpec * option error) :=
  (w, (zeroGetBindingSpec,
       Some (FailureResponse (ErrorString ("Unknown binding ID " +:+ bindingID)) 404
               "get-binding"))).

(** LastBindingOperation should fetch the status of the last creation or
    deletion of a database user. *)
Definition LastBindingOperation (ctx : Ctx deps) (instanceID bindingID : string) (w : world)
  : world * outcome unit :=
  (w, Panic "not implemented").

End Operations.

End Broker.


(** ** The integration test: the helpers of [test/integration_test.go] *)

Module Integration.

(** Go's [int] and [time.Duration] on the 64-bit targets: the result of an
    addition or a multiplication wraps around to the [int64] range. *)
Definition wrap (z : Z) : Z := ((z - Strconv.minInt64) mod 2 ^ 64 + Strconv.minInt64)%Z.

(** [time.Second], a [Duration] in nanoseconds. *)
Definition Second : Z := 1000000000.

Definition pollInterval : Z := 10.

(** [brokerapi.PollDetails] *)
Record PollDetails : Type := {
  ServiceID : string;
  PlanID : string;
  OperationData : string
}.

Section Helpers.
(** The state of the world the test runs in, and [time.Sleep] on it. *)
Context {W : Type} (Sleep : Z -> W -> W).

(** poll will run f every 10 seconds until it returns true or the timout
    is reached.  [poll_from] is the loop from the value [i] of its counter;
    [None] is the loop cut short by the lack of [fuel]. *)
Fixpoint poll_from (fuel : nat) (timeoutMinutes : Z) (f : W -> W * (bool * option error))
    (i : Z) (w : W) : option (W * option error) :=
  if (i <? wrap (timeoutMinutes * 60))%Z then
    match fuel with
    | 0 => None
    | S fuel =>
        let '(w, (res, err)) := f w in
        match err with
        | Some err => Some (w, Some err)
        | None =>
            if res then Some (w, None)
            else
              let i := wrap (i + pollInterval) in
              let w := Sleep (wrap (pollInterval * Second)) w in
              poll_from fuel timeoutMinutes f (wrap (i + 1)) w
        end
    end
  else
    Some (w, Some (ErrorString ("timeout while polling (waited "
                                  +:+ Strconv.FormatInt10 timeoutMinutes +:+ " minutes)"))).

Definition poll (fuel : nat) (timeoutMinutes : Z) (f : W -> W * (bool * option error)) (w : W)
  : option (W * option error) :=
  poll_from fuel timeoutMinutes f 0 w.

(** The last-operation function of the broker, the states it reports and
    the state of a successful operation: their code is outside the sources
    at hand; they are parameters. *)
Context {LastOperation LastOperationState : Type} `{EqDecision LastOperationState}.
Context (State : LastOperation -> LastOperationState) (Succeeded : LastOperationState).
Context (broker_LastOperation : string -> PollDetails -> W -> W * result LastOperation).

(** The function [waitForLastOperation] polls. *)
Definition lastOperationSucceeded (instanceID operation : string) (w : W)
  : W * (bool * option error) :=
  let '(w, r) :=
    broker_LastOperation instanceID
      {| ServiceID := ""; PlanID := ""; OperationData := operation |} w in
  match r with
  | Error err => (w, (false, Some err))
  | Ok res => (w, (bool_decide (State res = Succeeded), None))
  end.

(** waitForLastOperation will poll the last operation function for a
    specified operation.  The function returns once the operation was
    successful or the timeout has been reached. *)
Definition waitForLastOperation (fuel : nat) (instanceID operation : string)
    (timeoutMinutes : Z) (w : W) : option (W * option error) :=
  poll fuel timeoutMinutes (lastOperationSucceeded instanceID operation) w.

End Helpers.

(** setupBinding will create a new user with the binding ID as its
    username and a random password, the string [uuid] of a new UUID. *)
Definition setupBinding {St : Type} (client : Atlas.Client St) (uuid bindingID : string)
    (w : Atlas.world St) : Atlas.world St * result Atlas.User :=
  Atlas.do_CreateUser client
    {| Atlas.Username := bindingID;
       Atlas.Password := uuid;
       Atlas.LDAPAuthType := "";
       Atlas.Roles :=
         Json.slice_of [ {| Atlas.Name := "readWriteAnyDatabase";
                            Atlas.DatabaseName := "admin";
                            Atlas.CollectionName := "" |} ] |} w.

(** [teardownBinding] drops the error of the deletion. *)
Definition teardownBinding {St : Type} (client : Atlas.Client St) (bindingID : string)
    (w : Atlas.world St) : Atlas.world St :=
  fst (Atlas.do_DeleteUser client bindingID w).

End Integration.


(** * Examples

    Concrete requests, clusters and collaborators on which the properties
    below are instantiated. *)

Import Broker.

(** The JSON texts below are written with ['] for the double quote. *)
Fixpoint json_text (s : string) : string :=
  match s with
  | EmptyString => EmptyString
  | String c s' => String (if Ascii.eqb c "'" then Bytes.DQUOTE else c) (json_text s')
  end.

Definition example_parameters : string :=
  json_text
    "{'connectionString':{'format':'standard','database':'app','options':{'retryWrites':true}}}".

Definition example_cluster (srvAddress stateName : string) : Atlas.Cluster :=
  {| Atlas.SrvAddress := srvAddress;
     Atlas.MongoURIWithOptions := "mongodb://host1,host2/?ssl=true";
     Atlas.StateName := stateName |}.

Definition example_entropy : string := "0123456789abcdef0123456789abcdef".

(** Collaborators that accept every service and plan, leave names and errors
    as they are, and read [example_entropy]; the backend is the one in
    memory. *)
Definition example_deps : Deps := {|
  St := Atlas.memory;
  Ctx := unit;
  Provider := unit;
  InstanceSize := unit;
  atlasClientFromContext := fun _ => Ok Atlas.memoryClient;
  findProviderByServiceID := fun _ _ => Ok tt;
  findInstanceSizeByPlanID := fun _ _ => Ok tt;
  NormalizeClusterName := fun name => name;
  atlasToAPIError := fun err => err;
  rand_Read := fun n => Ok (Strings.take n example_entropy)
|}.

(** A backend with the one cluster [i1] and no user. *)
Definition example_world : Atlas.world Atlas.memory :=
  {| Atlas.backend :=
       {| Atlas.clusters := {[ "i1" := example_cluster "mongodb+srv://c0.example.net" "IDLE" ]};
          Atlas.users := ∅ |};
     Atlas.calls := [] |}.

Definition example_details (rawParameters : string) : BindDetails :=
  {| ServiceID := "aosb-cluster-service-aws"; PlanID := "aosb-cluster-plan-aws-m10";
     RawParameters := rawParameters |}.

(** The collaborators of [example_deps] with a catalog that knows the
    services [catalog] accepts and the random source [entropy]. *)
Definition example_deps_with (catalog : string -> result unit) (entropy : nat -> result string)
  : Deps := {|
  St := Atlas.memory;
  Ctx := unit;
  Provider := unit;
  InstanceSize := unit;
  atlasClientFromContext := fun _ => Ok Atlas.memoryClient;
  findProviderByServiceID := fun _ serviceID => catalog serviceID;
  findInstanceSizeByPlanID := fun _ _ => Ok tt;
  NormalizeClusterName := fun name => name;
  atlasToAPIError := fun err => WithMessage err "atlas";
  rand_Read := entropy
|}.

Definition example_catalog (serviceID : string) : result unit :=
  if String.eqb serviceID "aosb-cluster-service-aws" then Ok tt
  else Error (ErrorString "unknown service").

(** A clock in nanoseconds as the state of the world: [Sleep] moves it on. *)
Definition clock_Sleep (d : Z) (now : Z) : Z := (now + d)%Z.

(** A function to poll that never answers, and one that answers [true]
    from the time [ready] on. *)
Definition never_ready (now : Z) : Z * (bool * option error) := (now, (false, None)).

Definition ready_from (ready : Z) (now : Z) : Z * (bool * option error) :=
  (now, ((ready <=? now)%Z, None)).

(** A last-operation function that reports the state ["failed"] whatever
    it is asked. *)
Definition failed_LastOperation (instanceID : string) (details : Integration.PollDetails)
    (now : Z) : Z * result string :=
  (now, Ok "failed").

(** The password [generatePassword] makes of [example_entropy], and the
    credentials [Bind] returns for [example_parameters] with it. *)
Definition example_password : string := "MDEyMzQ1Njc4OWFiY2RlZjAxMjM0NTY3ODlhYmNkZWY=".

Definition example_credentials : ConnectionDetails :=
  {| Username := "b1";
     Password := example_password;
     URI := "mongodb+srv://c0.example.net";
     ConnectionString :=
       "mongodb://b1:" +:+ example_password +:+ "@host1,host2/app?retryWrites=true&ssl=true" |}.

(** * The vocabulary of the properties

    Predicates on bytes, strings and URLs in which the lemmas on [net/url]
    are stated. *)

(** A string without the byte [c]. *)
Definition without (c : ascii) (s : string) : bool :=
  Strings.forallb (fun x => negb (Ascii.eqb x c)) s.

(** A case for each of the 256 bytes. *)
Ltac byte_cases c := destruct c as [[] [] [] [] [] [] [] []].

(** The bytes [escape] writes in a mode: those it leaves alone, [%], and
    [+] for a space of a query component. *)
Definition escaped_byte (mode : Url.encoding) (c : ascii) : bool :=
  negb (Url.shouldEscape c mode) || Ascii.eqb c "%"
  || (Ascii.eqb c "+" && Url.encoding_eqb mode Url.encodeQueryComponent).

Definition plain_mode (mode : Url.encoding) : bool :=
  negb (Url.encoding_eqb mode Url.encodeHost || Url.encoding_eqb mode Url.encodeZone).

(** Neither a control byte nor [#]: what the part of a URL before the
    fragment is made of. *)
Definition safe_byte (c : ascii) : bool :=
  negb ((Bytes.code c <? Bytes.code " ")%N || (Bytes.code c =? 127)%N)
  && negb (Ascii.eqb c "#").

Definition scheme_byte (c : ascii) : bool :=
  Bytes.is_lower c || Bytes.is_digit c || Bytes.one_of "+-." c.

(** A scheme as [Parse] leaves it: empty, or a lower-case letter followed by
    lower-case letters, digits, [+], [-] and [.]. *)
Definition scheme_ok (s : string) : bool :=
  match s with
  | EmptyString => true
  | String c r => Bytes.is_lower c && Strings.forallb scheme_byte r
  end.

Definition query_ok (q : string) : bool := Strings.forallb safe_byte q.

(** A host that is a name, or a list of names, with an optional port:
    not empty, no bracket in front, made of bytes that need no escape in a
    host, and digits only after its last colon. *)
Definition regular_host (h : string) : bool :=
  negb (Strings.is_empty h) && negb (Strings.HasPrefix h "[")
  && Strings.forallb (fun c => negb (Url.shouldEscape c Url.encodeHost)) h
  && match Strings.LastIndexByte h ":" with
     | Some i => Url.validOptionalPort (Strings.drop i h)
     | None => true
     end.

(** A host that [Parse] accepts back in the form [String] writes it. *)
Definition host_parses_back (h : string) : bool :=
  negb (Strings.is_empty h)
  && match Url.parseHost (Url.escape h Url.encodeHost) with
     | Ok _ => true
     | Error _ => false
     end.

(** The path as [String] writes it after a host: with a [/] in front when
    it is not empty and has none. *)
Definition path_part (u : Url.URL) : string :=
  (if negb (Strings.is_empty (Url.EscapedPath u))
      && negb (Strings.HasPrefix (Url.EscapedPath u) "/")
   then "/" else "") +:+ Url.EscapedPath u.

Definition query_part (u : Url.URL) : string :=
  if Url.ForceQuery u || negb (Strings.is_empty (Url.RawQuery u))
  then "?" +:+ Url.RawQuery u else "".

Definition fragment_part (u : Url.URL) : string :=
  if negb (Strings.is_empty (Url.Fragment u))
  then "#" +:+ Url.escape (Url.Fragment u) Url.encodeFragment else "".

Definition scheme_part (u : Url.URL) : string :=
  if Strings.is_empty (Url.Scheme u) then "" else Url.Scheme u +:+ ":".

(** The value a key has in the query after the options are merged in. *)
Definition merged_value (options : gmap string Json.iface) (q : Url.Values) (key : string)
  : option (list string) :=
  match options !! key with
  | Some (Json.IString v) => Some [v]
  | Some (Json.IFloat64 v) => Some [Strconv.FormatInt10 (Strconv.int64_of_float64 v)]
  | Some (Json.IBool v) => Some [if v then "true" else "false"]
  | Some Json.INil | Some (Json.ISlice _) | Some (Json.IMap _) | None => q !! key
  end.


(** The user-info as [String] writes it in front of the host. *)
Definition authority_user (user : option Url.Userinfo) : string :=
  match user with
  | Some ui => Url.Userinfo_String ui +:+ "@"
  | None => ""
  end.

(** A user-info as [Parse] builds them: without a password set, the
    password is empty. *)
Definition user_ok (user : option Url.Userinfo) : bool :=
  match user with
  | Some ui => Url.passwordSet ui || Strings.is_empty (Url.password ui)
  | None => true
  end.

(** The [/] that [String] writes between a host and a path that has none
    in front. *)
Definition slash_part (u : Url.URL) : string :=
  if negb (Strings.is_empty (Url.EscapedPath u))
     && negb (Strings.HasPrefix (Url.EscapedPath u) "/")
  then "/" else "".

(** A path as it stands after a host: empty, or with a [/] in front. *)
Definition rooted (p : string) : bool :=
  Strings.is_empty p || Strings.HasPrefix p "/".

(** The path a database name is read back as. *)
Definition database_path (database : string) : string :=
  if Strings.HasPrefix database "/" then database else "/" +:+ database.

(** A piece of a query: no separator in it. *)
Definition field_byte (c : ascii) : bool := negb (Bytes.one_of "&;" c).

(** The values of a key that has some. *)
Definition values_of (v : Url.Values) (key : string) : option (list string) :=
  match v !! key with
  | Some (x :: l) => Some (x :: l)
  | Some [] | None => None
  end.

(** What holds of the user and of the paths of a parsed URL. *)
Definition shape_ok (u : Url.URL) : Prop :=
  user_ok (Url.User_ u) = true
  /\ (Url.Host u <> "" -> rooted (Url.Path u) = true /\ rooted (Url.RawPath u) = true).


(** The alphabet of the URL-safe base64: letters, digits, [-] and [_]. *)
Definition base64url_byte (c : ascii) : bool := Bytes.is_alnum c || Bytes.one_of "-_" c.

(** A byte of an encoded text: of the alphabet, or the padding. *)
Definition base64url_text_byte (c : ascii) : bool := base64url_byte c || Ascii.eqb c "=".

(** The number of times [poll] runs a function that never answers:
    its counter grows by 11 at each turn, up to 60 times the minutes. *)
Definition attempts (timeoutMinutes : Z) : nat :=
  Z.to_nat ((timeoutMinutes * 60 + 10) / 11).

(** An attempt without an answer and the sleep that follows it. *)
Definition round {W : Type} (Sleep : Z -> W -> W) (f : W -> W * (bool * option error))
    (w : W) : W :=
  Sleep (Integration.pollInterval * Integration.Second)%Z (fst (f w)).

(** The world after [k] such rounds. *)
Definition rounds {W : Type} (Sleep : Z -> W -> W) (f : W -> W * (bool * option error))
    (k : nat) (w : W) : W :=
  Nat.iter k (round Sleep f) w.

Definition timeout_error (timeoutMinutes : Z) : error :=
  ErrorString ("timeout while polling (waited " +:+ Strconv.FormatInt10 timeoutMinutes
                 +:+ " minutes)").

(** A key of a JSON object goes to the field [name]: it is the name, or
    the name up to case. *)
Definition matches (name key : string) : bool :=
  String.eqb name key || Json.equalFold name key.

(** The members of an object that go to the field [name]. *)
Definition members_of (name : string) (members : list (string * Json.json))
  : list (string * Json.json) :=
  List.filter (fun kv => matches name kv.1) members.

(** A slice within its backing array. *)
Definition slice_ok {A : Type} (s : Json.slice A) : Prop :=
  Json.len s <= length (Json.backing s).

(** * Properties *)

Local Open Scope list_scope.

(** ** The end-to-end example *)

(** C1.  The parameters
    [{"connectionString":{"format":"standard","database":"app","options":{"retryWrites":true}}}]
    are read as the standard format, the database [app] and the one option
    [retryWrites = true]; with them, a cluster whose verbose address is
    [mongodb://host1,host2/?ssl=true], the binding ID [b1] and the secret [S],
    [buildConnectionString] returns exactly
    [mongodb://b1:S@host1,host2/app?retryWrites=true&ssl=true], the keys of
    the query in sorted order. *)
Theorem C1_end_to_end_connection_string (srvAddress stateName : string) :
  connectionStringParamsFromParams example_parameters
    = Ok (Some {| SkipCredentials := false; Database := "app";
                  Options := Some {[ "retryWrites" := Json.IBool true ]};
                  Format := "standard" |})
  /\ buildConnectionString
       (Some {| SkipCredentials := false; Database := "app";
                Options := Some {[ "retryWrites" := Json.IBool true ]};
                Format := "standard" |})
       (example_cluster srvAddress stateName) "b1" "S"
     = Ret "mongodb://b1:S@host1,host2/app?retryWrites=true&ssl=true".
Proof. split; vm_compute; reflexivity. Qed.

(** ** Defaults of the rendering options *)

(** C4.  For every cluster, binding ID, secret, format and choice of
    skipping the credentials, [buildConnectionString] with an empty options
    map and an empty database returns what it returns with the options map
    nil and the database empty, the values the two fields have when they are
    left out; the parameter blobs with the two fields empty, with both left
    out, and the absent blob decode to these values. *)
Theorem C4_empty_options_and_database_are_defaults
    (skipCredentials : bool) (format : string) (cluster : Atlas.Cluster)
    (bindingID password : string) :
  buildConnectionString
    (Some {| SkipCredentials := skipCredentials; Database := "";
             Options := Some ∅; Format := format |}) cluster bindingID password
  = buildConnectionString
      (Some {| SkipCredentials := skipCredentials; Database := "";
               Options := None; Format := format |}) cluster bindingID password
  /\ connectionStringParamsFromParams
       (json_text "{'connectionString':{'options':{},'database':''}}")
     = Ok (Some {| SkipCredentials := false; Database := ""; Options := Some ∅; Format := "" |})
  /\ connectionStringParamsFromParams (json_text "{'connectionString':{}}")
     = Ok (Some {| SkipCredentials := false; Database := ""; Options := None; Format := "" |})
  /\ connectionStringParamsFromParams ""
     = Ok (Some {| SkipCredentials := false; Database := ""; Options := None; Format := "" |}).
Proof.
  split; [| repeat split; vm_compute; reflexivity].
  unfold buildConnectionString; simpl.
  destruct (Url.Parse _); reflexivity.
Qed.

(** ** Skipping the credentials *)

(** C9.  When [skipCredentials] is set, the connection string does not
    depend on the binding ID nor on the secret: for the same rendering
    options and cluster, any two pairs of binding ID and password give the
    same result, the one obtained from the cluster address with no
    credentials supplied at all. *)
Theorem C9_skip_credentials_is_independent_of_the_secret
    (params : ConnectionStringParams) (cluster : Atlas.Cluster)
    (bindingID1 password1 bindingID2 password2 : string) :
  SkipCredentials params = true ->
  buildConnectionString (Some params) cluster bindingID1 password1
  = buildConnectionString (Some params) cluster bindingID2 password2.
Proof.
  intros Hskip. unfold buildConnectionString. rewrite Hskip. reflexivity.
Qed.

(** C9 on an example: two pairs of binding ID and password, one result. *)
Lemma C9_skip_credentials_witness :
  buildConnectionString
    (Some {| SkipCredentials := true; Database := "app"; Options := None; Format := "" |})
    (example_cluster "mongodb+srv://c0.example.net" "IDLE") "b1" "S"
  = buildConnectionString
      (Some {| SkipCredentials := true; Database := "app"; Options := None; Format := "" |})
      (example_cluster "mongodb+srv://c0.example.net" "IDLE") "b2" "T".
Proof.
  apply (C9_skip_credentials_is_independent_of_the_secret
           {| SkipCredentials := true; Database := "app"; Options := None; Format := "" |}).
  reflexivity.
Defined.

(** ** Retrieving a binding *)

(** C10.  For every instance ID, binding ID and state of the backend,
    [GetBinding] returns a specification without credentials together with
    the failure response of status 404 for the unknown binding ID, and makes
    no call to the backend. *)
Theorem C10_GetBinding_is_a_not_found_failure
    (deps : Deps) (ctx : Ctx deps) (instanceID bindingID : string)
    (w : Atlas.world (St deps)) :
  GetBinding deps ctx instanceID bindingID w
  = (w, ({| BindingCredentials := None |},
         Some (FailureResponse (ErrorString ("Unknown binding ID " +:+ bindingID)) 404
                 "get-binding"))).
Proof. reflexivity. Qed.

(** ** Null parameters *)

(** C8.  The blobs [{"user":null}] and [{"connectionString":null}] are
    valid JSON.  On the first, [Unmarshal] sets the user pointer to nil and
    [userFromParams] faults when it assigns the username; on the second,
    [connectionStringParamsFromParams] returns the nil pointer without an
    error and [buildConnectionString] faults when it reads the format.
    [Bind] ends in the fault on both, on the second after the user has been
    created. *)
Theorem C8_null_parameters_fault :
  Json.Valid (json_text "{'user':null}") = true
  /\ userFromParams "b1" "S" (json_text "{'user':null}") = Panic nil_dereference
  /\ Json.Valid (json_text "{'connectionString':null}") = true
  /\ connectionStringParamsFromParams (json_text "{'connectionString':null}") = Ok None
  /\ buildConnectionString None (example_cluster "mongodb+srv://c0.example.net" "IDLE") "b1" "S"
     = Panic nil_dereference
  /\ snd (Bind example_deps tt "i1" "b1" (example_details (json_text "{'user':null}")) true
            example_world)
     = Panic nil_dereference
  /\ snd (Bind example_deps tt "i1" "b1"
            (example_details (json_text "{'connectionString':null}")) true example_world)
     = Panic nil_dereference
  /\ is_Some (Atlas.users
                (Atlas.backend
                   (fst (Bind example_deps tt "i1" "b1"
                           (example_details (json_text "{'connectionString':null}")) true
                           example_world)))
              !! "b1").
Proof.
  repeat split; try (vm_compute; reflexivity).
  vm_compute. eexists. reflexivity.
Qed.

(** ** Errors of the parameter blob *)

Lemma Unmarshal_error {T : Type} (store : Json.json -> T -> T * option error)
    (data : string) (v : T) (e : error) :
  Json.Unmarshal store data v = Error e <->
  (Json.parse data = None /\ e = SyntaxError)
  \/ (exists j, Json.parse data = Some j /\ snd (store j v) = Some e).
Proof.
  unfold Json.Unmarshal. destruct (Json.parse data) as [j|].
  - destruct (store j v) as [v' [e'|]] eqn:Hs; simpl.
    + split.
      * intros [= <-]. right. exists j. rewrite Hs. auto.
      * intros [[? _]|(j' & [= <-] & He)]; [discriminate|].
        rewrite Hs in He. simpl in He. congruence.
    + split; [discriminate|].
      intros [[? _]|(j' & [= <-] & He)]; [discriminate|].
      rewrite Hs in He. discriminate.
  - split.
    + intros [= <-]. auto.
    + intros [[_ ->]|(j & ? & _)]; [reflexivity|discriminate].
Qed.

Lemma length_pos_nonempty (s : string) : Nat.ltb 0 (String.length s) = true <-> s <> "".
Proof. destruct s; simpl; split; intros; try done. Qed.

Lemma length_zero_empty (s : string) : Nat.ltb 0 (String.length s) = false <-> s = "".
Proof. destruct s; simpl; split; intros; try done. Qed.

(** C7, as the code has it.  [userFromParams] and
    [connectionStringParamsFromParams] return an error exactly when the blob
    is not empty and [json.Unmarshal] rejects it; [Unmarshal] rejects every
    blob that is not valid JSON, with the syntax error, and also the valid
    documents in which a value does not fit the type of its field, with the
    first type error.  The empty blob never yields an error and gives the
    defaults: the user with the binding ID, the password and the single role
    [readWriteAnyDatabase] on [admin]; credentials embedded, no path, no
    options and the abbreviated format. *)
Theorem C7_parameter_errors (bindingID password rawParams : string) :
  (forall e, userFromParams bindingID password rawParams = Err e <->
             rawParams <> ""
             /\ Json.Unmarshal store_userParams rawParams (Some Atlas.zeroUser) = Error e)
  /\ (forall e, connectionStringParamsFromParams rawParams = Error e <->
                rawParams <> ""
                /\ Json.Unmarshal store_connectionStringParams rawParams
                     (Some zeroConnectionStringParams) = Error e)
  /\ (forall e, Json.Unmarshal store_userParams rawParams (Some Atlas.zeroUser) = Error e <->
                (Json.Valid rawParams = false /\ e = SyntaxError)
                \/ (exists j, Json.parse rawParams = Some j
                              /\ snd (store_userParams j (Some Atlas.zeroUser)) = Some e))
  /\ (forall e, Json.Unmarshal store_connectionStringParams rawParams
                  (Some zeroConnectionStringParams) = Error e <->
                (Json.Valid rawParams = false /\ e = SyntaxError)
                \/ (exists j, Json.parse rawParams = Some j
                              /\ snd (store_connectionStringParams j
                                        (Some zeroConnectionStringParams)) = Some e))
  /\ userFromParams bindingID password ""
     = Ret {| Atlas.Username := bindingID; Atlas.Password := password;
              Atlas.LDAPAuthType := "";
              Atlas.Roles :=
                Json.slice_of [ {| Atlas.Name := "readWriteAnyDatabase";
                                   Atlas.DatabaseName := "admin";
                                   Atlas.CollectionName := "" |} ] |}
  /\ connectionStringParamsFromParams ""
     = Ok (Some {| SkipCredentials := false; Database := ""; Options := None; Format := "" |}).
Proof.
  assert (Hvalid : Json.Valid rawParams = false <-> Json.parse rawParams = None).
  { unfold Json.Valid. rewrite bool_decide_eq_false.
    destruct (Json.parse rawParams); split; intros H; try done.
    all: try (exfalso; apply H; eauto).
    all: try (intros [? ?]; done). }
  split; [|split; [|split; [|split; [|split]]]].
  - intros e. unfold userFromParams.
    destruct (Nat.ltb 0 (String.length rawParams)) eqn:Hlen.
    + apply length_pos_nonempty in Hlen.
      destruct (Json.Unmarshal store_userParams rawParams (Some Atlas.zeroUser))
        as [[u|]|e']; split; try done.
      * intros [_ [=]].
      * intros [_ [=]].
      * intros [= <-]. done.
      * intros [_ [= <-]]. done.
    + apply length_zero_empty in Hlen. split; [done|]. intros [Hne _]. done.
  - intros e. unfold connectionStringParamsFromParams.
    destruct (Nat.ltb 0 (String.length rawParams)) eqn:Hlen.
    + apply length_pos_nonempty in Hlen. split; [done|]. intros [_ H]. done.
    + apply length_zero_empty in Hlen. split; [done|]. intros [Hne _]. done.
  - intros e. rewrite Hvalid. apply Unmarshal_error.
  - intros e. rewrite Hvalid. apply Unmarshal_error.
  - reflexivity.
  - reflexivity.
Qed.

(** C7, as stated, fails: the blob [[]] is not empty and is valid JSON, and
    both functions return an error on it. *)
Lemma C7_valid_json_is_rejected :
  "[]" <> "" /\ Json.Valid "[]" = true
  /\ userFromParams "b1" "S" "[]" = Err (UnmarshalTypeError "array")
  /\ connectionStringParamsFromParams "[]" = Error (UnmarshalTypeError "array").
Proof. repeat split; try discriminate; vm_compute; reflexivity. Qed.

(** ** The backend calls of Bind and Unbind *)


(** The calls [Bind] adds to the log: none when a lookup fails, the fetch of
    the cluster alone when a step before the creation of the user fails, and
    otherwise the fetch followed by the creation of the user built by
    [userFromParams] from the binding ID and the generated password. *)
Lemma Bind_calls (deps : Deps) (ctx : Ctx deps) (instanceID bindingID : string)
    (details : BindDetails) (asyncAllowed : bool) (w : Atlas.world (St deps)) :
  let get := Atlas.CallGetCluster (NormalizeClusterName deps instanceID) in
  let r := Bind deps ctx instanceID bindingID details asyncAllowed w in
  (Atlas.calls (fst r) = Atlas.calls w /\ exists e, snd r = Err e)
  \/ (Atlas.calls (fst r) = Atlas.calls w ++ [get] /\ forall b, snd r <> Ret b)
  \/ (exists password user,
        generatePassword (rand_Read deps) = Ok password
        /\ userFromParams bindingID password (RawParameters details) = Ret user
        /\ Atlas.calls (fst r) = Atlas.calls w ++ [get; Atlas.CallCreateUser user]
        /\ forall b, snd r = Ret b ->
             exists connectionString cluster,
               b = {| Credentials :=
                        Some {| Username := bindingID; Password := password;
                                URI := Atlas.SrvAddress cluster;
                                ConnectionString := connectionString |} |}).
Proof.
  intros get r. subst r. unfold Bind.
  destruct (atlasClientFromContext deps ctx) as [client|e]; [|left; simpl; eauto].
  destruct (findProviderByServiceID deps client _) as [provider|e]; [|left; simpl; eauto].
  destruct (findInstanceSizeByPlanID deps provider _) as [size|e]; [|left; simpl; eauto].
  unfold Atlas.do_GetCluster.
  destruct (Atlas.GetCluster client _ _) as [st1 [cluster|e]];
    [|right; left; simpl; split; [reflexivity|discriminate]].
  destruct (generatePassword (rand_Read deps)) as [password|e] eqn:Hpw;
    [|right; left; simpl; split; [reflexivity|discriminate]].
  destruct (userFromParams bindingID password (RawParameters details)) as [user|e|msg] eqn:Hu;
    [|right; left; simpl; split; [reflexivity|discriminate]..].
  right; right. exists password, user.
  split; [reflexivity|]. split; [assumption|].
  unfold Atlas.do_CreateUser; simpl.
  destruct (Atlas.CreateUser client user st1) as [st2 [created|e]]; simpl.
  - destruct (connectionStringParamsFromParams _) as [csp|e]; simpl.
    + destruct (buildConnectionString csp cluster bindingID password) as [cs|e|msg]; simpl.
      * split; [rewrite <- app_assoc; reflexivity|]. intros b [= <-]. eauto.
      * split; [rewrite <- app_assoc; reflexivity|]. discriminate.
      * split; [rewrite <- app_assoc; reflexivity|]. discriminate.
    + split; [rewrite <- app_assoc; reflexivity|]. discriminate.
  - split; [rewrite <- app_assoc; reflexivity|]. discriminate.
Qed.



(** ** The order of the steps of Bind *)




(** * The round trip through net/url *)

(** ** Strings *)

Lemma sapp_cons (x : ascii) (a b : string) : String x a +:+ b = String x (a +:+ b).
Proof. reflexivity. Qed.

Lemma sapp_nil_l (b : string) : "" +:+ b = b.
Proof. reflexivity. Qed.

Lemma sapp_nil_r (s : string) : s +:+ "" = s.
Proof. induction s as [|c s IH]; [reflexivity|]. rewrite sapp_cons, IH. reflexivity. Qed.

Lemma sapp_assoc (a b c : string) : (a +:+ b) +:+ c = a +:+ (b +:+ c).
Proof. induction a as [|x a IH]; [reflexivity|]. rewrite !sapp_cons, IH. reflexivity. Qed.

Lemma slength_app (a b : string) : String.length (a +:+ b) = String.length a + String.length b.
Proof.
  induction a as [|x a IH]; [reflexivity|]. rewrite sapp_cons. cbn. rewrite IH. reflexivity.
Qed.

Lemma forallb_app (p : ascii -> bool) (a b : string) :
  Strings.forallb p (a +:+ b) = Strings.forallb p a && Strings.forallb p b.
Proof.
  induction a as [|x a IH]; [reflexivity|]. rewrite sapp_cons. cbn. rewrite IH.
  destruct (p x); reflexivity.
Qed.

Lemma forallb_impl (p q : ascii -> bool) (s : string) :
  (forall c, p c = true -> q c = true) ->
  Strings.forallb p s = true -> Strings.forallb q s = true.
Proof.
  intros Hpq. induction s as [|x s IH]; [reflexivity|]. cbn.
  intros [Hx Hs]%andb_prop. rewrite (Hpq _ Hx), (IH Hs). reflexivity.
Qed.

Lemma take_app_length (a b : string) : Strings.take (String.length a) (a +:+ b) = a.
Proof.
  induction a as [|x a IH]; [destruct b; reflexivity|]. rewrite sapp_cons. cbn.
  rewrite IH. reflexivity.
Qed.

Lemma drop_app_length (a b : string) : Strings.drop (String.length a) (a +:+ b) = b.
Proof.
  induction a as [|x a IH]; [destruct b; reflexivity|]. rewrite sapp_cons. cbn. exact IH.
Qed.

Lemma forallb_take (p : ascii -> bool) (n : nat) (s : string) :
  Strings.forallb p s = true -> Strings.forallb p (Strings.take n s) = true.
Proof.
  revert n. induction s as [|x s IH]; intros [|n]; try reflexivity. cbn.
  intros [Hx Hs]%andb_prop. rewrite Hx, (IH n Hs). reflexivity.
Qed.

Lemma forallb_drop (p : ascii -> bool) (n : nat) (s : string) :
  Strings.forallb p s = true -> Strings.forallb p (Strings.drop n s) = true.
Proof.
  revert n. induction s as [|x s IH]; intros [|n]; try (intros; assumption || reflexivity).
  cbn. intros [Hx Hs]%andb_prop. exact (IH n Hs).
Qed.

Lemma IndexByte_without (c : ascii) (s : string) :
  without c s = true -> Strings.IndexByte s c = None.
Proof.
  induction s as [|x s IH]; [reflexivity|]. cbn.
  intros [Hx Hs]%andb_prop. apply negb_true_iff in Hx. rewrite Hx, (IH Hs). reflexivity.
Qed.

Lemma IndexByte_app (c : ascii) (a b : string) :
  without c a = true -> Strings.IndexByte (a +:+ String c b) c = Some (String.length a).
Proof.
  induction a as [|x a IH]; rewrite ?sapp_cons, ?sapp_nil_l; cbn.
  - rewrite Ascii.eqb_refl. reflexivity.
  - intros [Hx Ha]%andb_prop. apply negb_true_iff in Hx. rewrite Hx, (IH Ha). reflexivity.
Qed.

Lemma LastIndexByte_without (c : ascii) (s : string) :
  without c s = true -> Strings.LastIndexByte s c = None.
Proof.
  induction s as [|x s IH]; [reflexivity|]. cbn.
  intros [Hx Hs]%andb_prop. apply negb_true_iff in Hx. rewrite Hx, (IH Hs). reflexivity.
Qed.

Lemma LastIndexByte_app (c : ascii) (a b : string) :
  without c b = true -> Strings.LastIndexByte (a +:+ String c b) c = Some (String.length a).
Proof.
  intros Hb. induction a as [|x a IH]; rewrite ?sapp_cons, ?sapp_nil_l; cbn.
  - rewrite (LastIndexByte_without _ _ Hb), Ascii.eqb_refl. reflexivity.
  - rewrite IH. reflexivity.
Qed.

Lemma split_without (c : ascii) (cutc : bool) (s : string) :
  without c s = true -> Url.split s c cutc = (s, "").
Proof. intros H. unfold Url.split. rewrite (IndexByte_without _ _ H). reflexivity. Qed.

Lemma split_app_cut (c : ascii) (a b : string) :
  without c a = true -> Url.split (a +:+ String c b) c true = (a, b).
Proof.
  intros H. unfold Url.split. rewrite (IndexByte_app _ _ _ H), take_app_length.
  f_equal. replace (S (String.length a)) with (String.length (a +:+ String c "")).
  - replace (a +:+ String c b) with ((a +:+ String c "") +:+ b).
    + apply drop_app_length.
    + rewrite sapp_assoc. reflexivity.
  - rewrite slength_app. cbn. lia.
Qed.

Lemma split_app_keep (c : ascii) (a b : string) :
  without c a = true -> Url.split (a +:+ String c b) c false = (a, String c b).
Proof.
  intros H. unfold Url.split.
  rewrite (IndexByte_app _ _ _ H), take_app_length, drop_app_length. reflexivity.
Qed.

Lemma is_empty_true (s : string) : Strings.is_empty s = true <-> s = "".
Proof. destruct s; cbn; split; intros; done. Qed.

Lemma is_empty_false (s : string) : Strings.is_empty s = false <-> s <> "".
Proof. destruct s; cbn; split; intros; done. Qed.

Lemma is_empty_app (a b : string) :
  Strings.is_empty (a +:+ b) = Strings.is_empty a && Strings.is_empty b.
Proof. destruct a; reflexivity. Qed.

(** ** Bytes *)

Lemma upperhex_escaped (mode : Url.encoding) (c : ascii) :
  escaped_byte mode (Url.upperhex (N.shiftr (Bytes.code c) 4)) = true
  /\ escaped_byte mode (Url.upperhex (N.land (Bytes.code c) 15)) = true.
Proof. destruct mode; byte_cases c; split; reflexivity. Qed.

Lemma forallb_cons (p : ascii -> bool) (c : ascii) (s : string) :
  Strings.forallb p (String c s) = p c && Strings.forallb p s.
Proof. reflexivity. Qed.

Lemma escape_cons (c : ascii) (s : string) (mode : Url.encoding) :
  Url.escape (String c s) mode
  = if Ascii.eqb c " " && Url.encoding_eqb mode Url.encodeQueryComponent then
      String "+" (Url.escape s mode)
    else if Url.shouldEscape c mode then
      String "%" (String (Url.upperhex (N.shiftr (Bytes.code c) 4))
                 (String (Url.upperhex (N.land (Bytes.code c) 15)) (Url.escape s mode)))
    else String c (Url.escape s mode).
Proof. reflexivity. Qed.

Lemma escape_bytes (mode : Url.encoding) (s : string) :
  Strings.forallb (escaped_byte mode) (Url.escape s mode) = true.
Proof.
  induction s as [|c s IH]; [reflexivity|]. rewrite escape_cons.
  destruct (Ascii.eqb c " " && Url.encoding_eqb mode Url.encodeQueryComponent) eqn:Hsp.
  - rewrite forallb_cons, IH. apply andb_prop in Hsp as [_ Hq].
    unfold escaped_byte. rewrite Hq. cbn. rewrite orb_true_r. reflexivity.
  - destruct (Url.shouldEscape c mode) eqn:Hesc.
    + rewrite !forallb_cons, IH. destruct (upperhex_escaped mode c) as [-> ->].
      unfold escaped_byte. cbn. rewrite orb_true_r. reflexivity.
    + rewrite forallb_cons, IH. unfold escaped_byte. rewrite Hesc. reflexivity.
Qed.

(** ** unescape after escape *)

Lemma unescape_check_literal (mode : Url.encoding) (c : ascii) (r : string) :
  plain_mode mode = true -> Url.shouldEscape c mode = false ->
  Url.unescape_check (String c r) mode = Url.unescape_check r mode
  /\ Url.unescape_decode (String c r) mode = String c (Url.unescape_decode r mode).
Proof.
  intros Hm Hc. destruct mode; try discriminate Hm;
    byte_cases c;
    try (vm_compute in Hc; discriminate Hc); split; reflexivity.
Qed.

Lemma unescape_check_hex (mode : Url.encoding) (c : ascii) (r : string) :
  plain_mode mode = true ->
  let s := String "%" (String (Url.upperhex (N.shiftr (Bytes.code c) 4))
                         (String (Url.upperhex (N.land (Bytes.code c) 15)) r)) in
  Url.unescape_check s mode = Url.unescape_check r mode
  /\ Url.unescape_decode s mode = String c (Url.unescape_decode r mode).
Proof.
  intros Hm. destruct mode; try discriminate Hm;
    byte_cases c; split; reflexivity.
Qed.

Lemma unescape_escape (mode : Url.encoding) (s : string) :
  plain_mode mode = true -> Url.unescape (Url.escape s mode) mode = Ok s.
Proof.
  intros Hm.
  assert (H : Url.unescape_check (Url.escape s mode) mode = None
              /\ Url.unescape_decode (Url.escape s mode) mode = s).
  { induction s as [|c s [IHc IHd]]; [split; reflexivity|]. rewrite escape_cons.
    destruct (Ascii.eqb c " " && Url.encoding_eqb mode Url.encodeQueryComponent) eqn:Hsp.
    - apply andb_prop in Hsp as [Hc Hq]. apply Ascii.eqb_eq in Hc. subst c.
      destruct mode; try discriminate Hq. split.
      + exact IHc.
      + change (String " " (Url.unescape_decode (Url.escape s Url.encodeQueryComponent)
                              Url.encodeQueryComponent) = String " " s).
        rewrite IHd. reflexivity.
    - destruct (Url.shouldEscape c mode) eqn:Hesc.
      + destruct (unescape_check_hex mode c (Url.escape s mode) Hm) as [-> ->].
        rewrite IHd. auto.
      + destruct (unescape_check_literal mode c (Url.escape s mode) Hm Hesc) as [-> ->].
        rewrite IHd. auto. }
  destruct H as [Hc Hd]. unfold Url.unescape. rewrite Hc, Hd. reflexivity.
Qed.

(** ** Facts on bytes *)

Lemma host_parses_back_spec (h : string) :
  host_parses_back h = true ->
  h <> "" /\ exists h', Url.parseHost (Url.escape h Url.encodeHost) = Ok h'.
Proof.
  unfold host_parses_back. intros [Hne Hp]%andb_prop.
  apply negb_true_iff, is_empty_false in Hne. split; [exact Hne|].
  destruct (Url.parseHost _) as [h'|]; [eauto|discriminate].
Qed.

Lemma userinfo_byte_facts (c : ascii) :
  escaped_byte Url.encodeUserPassword c = true ->
  safe_byte c = true
  /\ negb (Ascii.eqb c "/") = true /\ negb (Ascii.eqb c "@") = true
  /\ negb (Ascii.eqb c ":") = true /\ negb (Ascii.eqb c "?") = true
  /\ (Bytes.is_upper c || Bytes.is_lower c || Bytes.is_digit c
      || Bytes.one_of "-._:~!$&'()*+,;=%@" c) = true.
Proof.
  intros H. byte_cases c;
    try (vm_compute in H; discriminate H); repeat split; reflexivity.
Qed.

Lemma host_byte_facts (c : ascii) :
  escaped_byte Url.encodeHost c = true ->
  safe_byte c = true
  /\ negb (Ascii.eqb c "/") = true /\ negb (Ascii.eqb c "@") = true
  /\ negb (Ascii.eqb c "?") = true.
Proof.
  intros H. byte_cases c;
    try (vm_compute in H; discriminate H); repeat split; reflexivity.
Qed.

Lemma path_byte_facts (c : ascii) :
  escaped_byte Url.encodePath c = true
  \/ (Bytes.one_of "!$&'()*+,;=:@" c || Bytes.one_of "[]" c || Ascii.eqb c "%"
      || negb (Url.shouldEscape c Url.encodePath)) = true ->
  safe_byte c = true /\ negb (Ascii.eqb c "?") = true.
Proof.
  intros H. byte_cases c;
    try (vm_compute in H; destruct H as [H|H]; discriminate H); repeat split; reflexivity.
Qed.

Lemma query_byte_facts (c : ascii) :
  escaped_byte Url.encodeQueryComponent c = true -> safe_byte c = true.
Proof.
  intros H. byte_cases c;
    try (vm_compute in H; discriminate H); reflexivity.
Qed.

Lemma scheme_byte_facts (c : ascii) :
  scheme_byte c = true ->
  safe_byte c = true /\ Strings.lower_byte c = c /\ negb (Ascii.eqb c "?") = true
  /\ negb (Ascii.eqb c "*") = true.
Proof.
  intros H. byte_cases c;
    try (vm_compute in H; discriminate H); repeat split; reflexivity.
Qed.

Lemma lower_byte_scheme (c : ascii) :
  (Bytes.is_lower c || Bytes.is_upper c || Bytes.is_digit c || Bytes.one_of "+-." c) = true ->
  scheme_byte (Strings.lower_byte c) = true
  /\ ((Bytes.is_lower c || Bytes.is_upper c) = true ->
      Bytes.is_lower (Strings.lower_byte c) = true).
Proof.
  intros H. byte_cases c;
    try (vm_compute in H; discriminate H); split; try reflexivity;
    intros H'; try (vm_compute in H'; discriminate H'); reflexivity.
Qed.

(** ** The scheme *)

Lemma getscheme_scan_app (s x : string) (i : nat) :
  Strings.forallb scheme_byte s = true ->
  (i = 0 -> match s with String c _ => Bytes.is_lower c = true | EmptyString => False end) ->
  Url.getscheme_scan (s +:+ String ":" x) i = Some (Some (i + String.length s)).
Proof.
  revert i. induction s as [|c s IH]; intros i Hs Hi.
  - destruct i as [|i]; [destruct (Hi eq_refl)|].
    rewrite sapp_nil_l. cbn. rewrite Nat.add_0_r. reflexivity.
  - rewrite sapp_cons. rewrite forallb_cons in Hs. apply andb_prop in Hs as [Hc Hs].
    assert (Hstep : Url.getscheme_scan (String c (s +:+ String ":" x)) i
                    = Url.getscheme_scan (s +:+ String ":" x) (S i)).
    { destruct i as [|i].
      - specialize (Hi eq_refl). cbn in Hi. cbn [Url.getscheme_scan]. rewrite Hi. reflexivity.
      - clear Hi. cbn [Url.getscheme_scan]. unfold scheme_byte in Hc.
        destruct (Bytes.is_lower c); [reflexivity|]. cbn in Hc.
        destruct (Bytes.is_upper c); [reflexivity|]. cbn. rewrite Hc. reflexivity. }
    rewrite Hstep.
    destruct s as [|c' s'].
    + rewrite sapp_nil_l. cbn. f_equal. f_equal. lia.
    + rewrite IH; [cbn; f_equal; f_equal; lia|assumption|discriminate].
Qed.

Lemma getscheme_app (s x : string) :
  scheme_ok s = true -> s <> "" ->
  Url.getscheme (s +:+ String ":" x) = Ok (s, x).
Proof.
  intros Hs Hne. destruct s as [|c r]; [done|].
  cbn in Hs. apply andb_prop in Hs as [Hc Hr].
  unfold Url.getscheme. rewrite getscheme_scan_app.
  - cbn [Nat.add]. rewrite take_app_length.
    replace (S (String.length (String c r)))
      with (String.length (String c r +:+ String ":" "")).
    + replace (String c r +:+ String ":" x) with ((String c r +:+ String ":" "") +:+ x).
      * rewrite drop_app_length. reflexivity.
      * rewrite sapp_assoc. reflexivity.
    + rewrite slength_app. cbn. lia.
  - rewrite forallb_cons, Hr. unfold scheme_byte. rewrite Hc. reflexivity.
  - intros _. exact Hc.
Qed.

Lemma ToLower_scheme (s : string) : Strings.forallb scheme_byte s = true -> Strings.ToLower s = s.
Proof.
  induction s as [|c s IH]; [reflexivity|]. rewrite forallb_cons.
  intros [Hc Hs]%andb_prop. cbn. rewrite (IH Hs).
  destruct (scheme_byte_facts c Hc) as (_ & -> & _). reflexivity.
Qed.

Lemma scheme_ok_bytes (s : string) : scheme_ok s = true -> Strings.forallb scheme_byte s = true.
Proof.
  destruct s as [|c r]; [reflexivity|]. cbn. intros [Hc Hr]%andb_prop.
  unfold scheme_byte at 1. rewrite Hc, Hr. reflexivity.
Qed.

(** The scan of [getscheme] accepts only letters, digits, [+], [-] and [.]
    before the colon, and a letter in front. *)
Lemma getscheme_scan_spec (s : string) (i n : nat) :
  Url.getscheme_scan s i = Some (Some n) ->
  i <= n
  /\ Strings.forallb
       (fun c => Bytes.is_lower c || Bytes.is_upper c || Bytes.is_digit c
                 || Bytes.one_of "+-." c) (Strings.take (n - i) s) = true
  /\ (i = 0 -> match s with
               | String c _ => (Bytes.is_lower c || Bytes.is_upper c) = true /\ 0 < n
               | EmptyString => False
               end).
Proof.
  revert i. induction s as [|c s IH]; intros i; [discriminate|].
  cbn [Url.getscheme_scan].
  destruct (Bytes.is_lower c || Bytes.is_upper c) eqn:Hl.
  - intros H. destruct (IH _ H) as (Hle & Hall & _).
    split; [lia|]. split.
    + replace (n - i) with (S (n - S i)) by lia. cbn [Strings.take]. rewrite forallb_cons.
      rewrite Hall. rewrite Hl. reflexivity.
    + intros _. split; [reflexivity|lia].
  - destruct (Bytes.is_digit c || Bytes.one_of "+-." c) eqn:Hd.
    + destruct i as [|i]; [discriminate|].
      intros H. destruct (IH _ H) as (Hle & Hall & _).
      split; [lia|]. split; [|discriminate].
      replace (n - S i) with (S (n - S (S i))) by lia. cbn [Strings.take].
      rewrite forallb_cons, Hall.
      apply orb_false_iff in Hl as [-> ->]. cbn [orb]. rewrite Hd. reflexivity.
    + destruct (Ascii.eqb c ":"); [|discriminate].
      destruct i as [|i]; [discriminate|]. intros [= <-].
      split; [lia|]. split; [|discriminate].
      rewrite Nat.sub_diag. reflexivity.
Qed.

Lemma ToLower_scheme_ok (s : string) (n : nat) :
  Url.getscheme_scan s 0 = Some (Some n) ->
  scheme_ok (Strings.ToLower (Strings.take n s)) = true.
Proof.
  intros H. destruct (getscheme_scan_spec _ _ _ H) as (_ & Hall & Hfirst).
  rewrite Nat.sub_0_r in Hall. specialize (Hfirst eq_refl).
  destruct s as [|c s]; [destruct Hfirst|]. destruct Hfirst as [Hc Hn].
  destruct n as [|n]; [lia|]. cbn [Strings.take Strings.ToLower scheme_ok].
  cbn [Strings.take] in Hall. rewrite forallb_cons in Hall.
  apply andb_prop in Hall as [Hc' Hall].
  destruct (lower_byte_scheme c Hc') as [_ Hlow]. rewrite (Hlow Hc). cbn [andb].
  clear -Hall. generalize (Strings.take n s) Hall. clear. intros t.
  induction t as [|c t IH]; [reflexivity|]. rewrite forallb_cons.
  intros [Hc Ht]%andb_prop. cbn [Strings.ToLower]. rewrite forallb_cons, (IH Ht).
  destruct (lower_byte_scheme c Hc) as [-> _]. reflexivity.
Qed.

(** ** What Parse leaves in a URL *)

Lemma IndexByte_take_without (c : ascii) (s : string) (i : nat) :
  Strings.IndexByte s c = Some i -> without c (Strings.take i s) = true.
Proof.
  revert i. induction s as [|x s IH]; intros i; [discriminate|]. cbn [Strings.IndexByte].
  destruct (Ascii.eqb x c) eqn:Hx.
  - intros [= <-]. reflexivity.
  - destruct (Strings.IndexByte s c) as [j|]; [|discriminate]. intros [= <-].
    cbn [Strings.take]. unfold without. rewrite forallb_cons, Hx. cbn [negb andb].
    apply IH. reflexivity.
Qed.

Lemma split_fst_without (c : ascii) (cutc : bool) (s : string) :
  without c (fst (Url.split s c cutc)) = true.
Proof.
  unfold Url.split. destruct (Strings.IndexByte s c) as [i|] eqn:Hi; cbn [fst].
  - apply IndexByte_take_without. assumption.
  - clear cutc. induction s as [|x s IH]; [reflexivity|]. cbn [Strings.IndexByte] in Hi.
    destruct (Ascii.eqb x c) eqn:Hx; [discriminate|].
    destruct (Strings.IndexByte s c); [discriminate|].
    unfold without. rewrite forallb_cons, Hx. apply IH. reflexivity.
Qed.

Lemma split_forallb (p : ascii -> bool) (c : ascii) (cutc : bool) (s : string) :
  Strings.forallb p s = true ->
  Strings.forallb p (fst (Url.split s c cutc)) = true
  /\ Strings.forallb p (snd (Url.split s c cutc)) = true.
Proof.
  intros H. unfold Url.split. destruct (Strings.IndexByte s c) as [i|]; cbn [fst snd].
  - split; [apply forallb_take; assumption|].
    destruct cutc; apply forallb_drop; assumption.
  - split; [assumption|reflexivity].
Qed.

Lemma setPath_fields (u u' : Url.URL) (p : string) :
  Url.setPath u p = Ok u' ->
  Url.Scheme u' = Url.Scheme u /\ Url.Opaque u' = Url.Opaque u /\ Url.User_ u' = Url.User_ u
  /\ Url.Host u' = Url.Host u /\ Url.RawQuery u' = Url.RawQuery u.
Proof.
  unfold Url.setPath. destruct (Url.unescape p Url.encodePath) as [path|e]; [|discriminate].
  cbn. destruct (String.eqb p _); intros [= <-]; repeat split; reflexivity.
Qed.

Lemma parse_hierarchy_fields (url u : Url.URL) (rest : string) :
  Url.parse_hierarchy url rest = Ok u ->
  Url.Scheme u = Url.Scheme url /\ Url.RawQuery u = Url.RawQuery url
  /\ (Url.Host url = "" -> Url.Opaque url = "" -> Url.Host u <> "" -> Url.Opaque u = "").
Proof.
  unfold Url.parse_hierarchy.
  destruct (negb (Strings.HasPrefix rest "/") && negb (Strings.is_empty (Url.Scheme url))).
  { intros [= <-]. cbn. split; [reflexivity|]. split; [reflexivity|].
    intros Hh _ Hne. done. }
  destruct (negb (Strings.HasPrefix rest "/") && _); [discriminate|].
  destruct ((negb (Strings.is_empty (Url.Scheme url)) || negb (Strings.HasPrefix rest "///"))
            && Strings.HasPrefix rest "//").
  - destruct (Url.split (Strings.drop 2 rest) "/" false) as [authority rest'].
    destruct (Url.parseAuthority authority) as [[user host]|e]; [|discriminate].
    cbn. intros H. destruct (setPath_fields _ _ _ H) as (Hs & Ho & _ & _ & Hq).
    rewrite Hs, Ho, Hq. cbn. split; [reflexivity|]. split; [reflexivity|].
    intros _ Ho' _. exact Ho'.
  - cbn. intros H. destruct (setPath_fields _ _ _ H) as (Hs & Ho & _ & _ & Hq).
    rewrite Hs, Ho, Hq. split; [reflexivity|]. split; [reflexivity|].
    intros _ Ho' _. exact Ho'.
Qed.

Lemma stringContainsCTLByte_false (s : string) :
  Url.stringContainsCTLByte s = false ->
  Strings.forallb
    (fun b => negb ((Bytes.code b <? Bytes.code " ")%N || (Bytes.code b =? 127)%N)) s = true.
Proof. unfold Url.stringContainsCTLByte. intros H. apply negb_false_iff in H. exact H. Qed.

Lemma forallb_and (p q : ascii -> bool) (s : string) :
  Strings.forallb p s = true -> Strings.forallb q s = true ->
  Strings.forallb (fun c => p c && q c) s = true.
Proof.
  induction s as [|c s IH]; [reflexivity|]. rewrite !forallb_cons.
  intros [Hp Hps]%andb_prop [Hq Hqs]%andb_prop. rewrite Hp, Hq, (IH Hps Hqs). reflexivity.
Qed.

Lemma split_query_fields (url : Url.URL) (rest : string) :
  Strings.forallb safe_byte rest = true -> query_ok (Url.RawQuery url) = true ->
  Url.Scheme (snd (Url.split_query url rest)) = Url.Scheme url
  /\ Url.Host (snd (Url.split_query url rest)) = Url.Host url
  /\ Url.Opaque (snd (Url.split_query url rest)) = Url.Opaque url
  /\ query_ok (Url.RawQuery (snd (Url.split_query url rest))) = true.
Proof.
  intros Hr Hq. unfold Url.split_query.
  destruct (Strings.HasSuffixByte rest "?" && _); cbn; [auto|].
  destruct (split_forallb safe_byte "?" true rest Hr) as [_ Hq'].
  destruct (Url.split rest "?" true) as [rest' query]. cbn in *. auto.
Qed.

Lemma parse_fields (pre : string) (url : Url.URL) :
  without "#" pre = true ->
  Url.parse pre = Ok url ->
  scheme_ok (Url.Scheme url) = true /\ query_ok (Url.RawQuery url) = true
  /\ (Url.Host url <> "" -> Url.Opaque url = "").
Proof.
  intros Hhash. unfold Url.parse.
  destruct (Url.stringContainsCTLByte pre) eqn:Hctl; [discriminate|].
  apply stringContainsCTLByte_false in Hctl.
  assert (Hsafe : Strings.forallb safe_byte pre = true).
  { unfold safe_byte. apply forallb_and; assumption. }
  destruct (String.eqb pre "*") eqn:Hstar.
  { intros [= <-]. cbn. split; [reflexivity|]. split; [reflexivity|]. intros H; done. }
  assert (Hgo : forall scheme rest,
             scheme_ok (Strings.ToLower scheme) = true ->
             Strings.forallb safe_byte rest = true ->
             (let '(rest, url) :=
                Url.split_query (Url.set_Scheme (Strings.ToLower scheme) Url.emptyURL) rest in
              Url.parse_hierarchy url rest) = Ok url ->
             scheme_ok (Url.Scheme url) = true /\ query_ok (Url.RawQuery url) = true
             /\ (Url.Host url <> "" -> Url.Opaque url = "")).
  { intros scheme rest Hsch Hr.
    pose proof (split_query_fields (Url.set_Scheme (Strings.ToLower scheme) Url.emptyURL)
                  rest Hr eq_refl) as (Hs & Hh & Ho & Hq).
    destruct (Url.split_query _ rest) as [rest' url']. cbn [snd] in *.
    intros H. destruct (parse_hierarchy_fields _ _ _ H) as (-> & -> & Hop).
    rewrite Hs. split; [exact Hsch|]. split; [exact Hq|].
    apply Hop; [rewrite Hh|rewrite Ho]; reflexivity. }
  unfold Url.getscheme.
  destruct (Url.getscheme_scan pre 0) as [[n|]|] eqn:Hscan; [| |discriminate];
    cbn [mbind result_bind].
  - apply Hgo; [exact (ToLower_scheme_ok _ _ Hscan)|apply forallb_drop; assumption].
  - apply Hgo; [reflexivity|assumption].
Qed.

Lemma Parse_fields (rawurl : string) (u : Url.URL) :
  Url.Parse rawurl = Ok u ->
  scheme_ok (Url.Scheme u) = true /\ query_ok (Url.RawQuery u) = true
  /\ (Url.Host u <> "" -> Url.Opaque u = "").
Proof.
  unfold Url.Parse.
  pose proof (split_fst_without "#" true rawurl) as Hhash.
  destruct (Url.split rawurl "#" true) as [pre frag]. cbn [fst] in Hhash.
  destruct (Url.parse pre) as [url|e] eqn:Hparse; [|discriminate].
  pose proof (parse_fields _ _ Hhash Hparse) as Hurl.
  destruct (Strings.is_empty frag).
  - intros [= <-]. exact Hurl.
  - destruct (Url.unescape frag Url.encodeFragment); [|discriminate].
    intros [= <-]. exact Hurl.
Qed.

(** ** Regular hosts *)

Lemma unescape_host_literal (c : ascii) (r : string) :
  negb (Url.shouldEscape c Url.encodeHost) = true ->
  Url.unescape_check (String c r) Url.encodeHost = Url.unescape_check r Url.encodeHost
  /\ Url.unescape_decode (String c r) Url.encodeHost
     = String c (Url.unescape_decode r Url.encodeHost)
  /\ Url.escape (String c r) Url.encodeHost = String c (Url.escape r Url.encodeHost).
Proof.
  intros Hc. byte_cases c;
    try (vm_compute in Hc; discriminate Hc); repeat split; reflexivity.
Qed.

Lemma unescape_host_bytes (h : string) :
  Strings.forallb (fun c => negb (Url.shouldEscape c Url.encodeHost)) h = true ->
  Url.unescape h Url.encodeHost = Ok h /\ Url.escape h Url.encodeHost = h.
Proof.
  intros H.
  assert (Hall : Url.unescape_check h Url.encodeHost = None
                 /\ Url.unescape_decode h Url.encodeHost = h
                 /\ Url.escape h Url.encodeHost = h).
  { induction h as [|c h IH]; [repeat split; reflexivity|].
    rewrite forallb_cons in H. apply andb_prop in H as [Hc Hh].
    destruct (IH Hh) as (IHc & IHd & IHe).
    destruct (unescape_host_literal c h Hc) as (-> & -> & ->).
    rewrite IHd, IHe. auto. }
  destruct Hall as (Hc & Hd & He). unfold Url.unescape. rewrite Hc, Hd. auto.
Qed.

Lemma regular_host_parse (h : string) :
  regular_host h = true ->
  Url.parseHost h = Ok h /\ Url.escape h Url.encodeHost = h
  /\ Strings.forallb (fun c => negb (Url.shouldEscape c Url.encodeHost)) h = true
  /\ h <> "".
Proof.
  unfold regular_host. intros H.
  apply andb_prop in H as [H Hport]. apply andb_prop in H as [H Hbytes].
  apply andb_prop in H as [Hne Hbr].
  apply negb_true_iff in Hne, Hbr. apply is_empty_false in Hne.
  destruct (unescape_host_bytes h Hbytes) as [Hun Hesc].
  split; [|auto]. unfold Url.parseHost. rewrite Hbr.
  destruct (Strings.LastIndexByte h ":") as [i|]; [|exact Hun].
  rewrite Hport. exact Hun.
Qed.

Lemma regular_host_parses_back (h : string) :
  regular_host h = true -> host_parses_back h = true.
Proof.
  intros H. destruct (regular_host_parse h H) as (Hp & He & _ & Hne).
  unfold host_parses_back. rewrite He, Hp. apply is_empty_false in Hne. rewrite Hne.
  reflexivity.
Qed.

(** ** The authority *)

Lemma userinfo_bytes (s : string) :
  let e := Url.escape s Url.encodeUserPassword in
  Strings.forallb safe_byte e = true /\ without "/" e = true /\ without "@" e = true
  /\ without ":" e = true /\ without "?" e = true /\ Url.validUserinfo e = true.
Proof.
  intros e. pose proof (escape_bytes Url.encodeUserPassword s) as H. fold e in H.
  repeat split; (eapply forallb_impl; [|exact H]); intros c Hc;
    destruct (userinfo_byte_facts c Hc) as (? & ? & ? & ? & ? & ?); assumption.
Qed.

Lemma escaped_host_bytes (h : string) :
  let e := Url.escape h Url.encodeHost in
  Strings.forallb safe_byte e = true /\ without "/" e = true /\ without "@" e = true
  /\ without "?" e = true.
Proof.
  intros e. pose proof (escape_bytes Url.encodeHost h) as H. fold e in H.
  repeat split; (eapply forallb_impl; [|exact H]); intros c Hc;
    destruct (host_byte_facts c Hc) as (? & ? & ? & ?); assumption.
Qed.

Lemma without_app (c : ascii) (a b : string) :
  without c (a +:+ b) = without c a && without c b.
Proof. apply forallb_app. Qed.

Lemma drop_S_app (c : ascii) (a b : string) :
  Strings.drop (S (String.length a)) (a +:+ String c b) = b.
Proof.
  induction a as [|x a IH]; [reflexivity|]. rewrite sapp_cons. cbn. exact IH.
Qed.

Lemma parseAuthority_userinfo (b p h h' : string) :
  Url.parseHost (Url.escape h Url.encodeHost) = Ok h' ->
  Url.parseAuthority
    (Url.Userinfo_String (Url.UserPassword b p) +:+ String "@" (Url.escape h Url.encodeHost))
  = Ok (Some (Url.UserPassword b p), h').
Proof.
  intros Hparse.
  destruct (escaped_host_bytes h) as (_ & _ & Hat & _).
  destruct (userinfo_bytes b) as (_ & _ & _ & Hbc & _ & Hbv).
  destruct (userinfo_bytes p) as (_ & _ & _ & _ & _ & Hpv).
  unfold Url.Userinfo_String. cbn [Url.passwordSet Url.UserPassword Url.username Url.password].
  set (eb := Url.escape b Url.encodeUserPassword) in *.
  set (ep := Url.escape p Url.encodeUserPassword) in *.
  unfold Url.parseAuthority.
  rewrite (LastIndexByte_app "@" _ _ Hat), drop_S_app, Hparse. cbn [mbind result_bind].
  rewrite take_app_length.
  assert (Hv : Url.validUserinfo (eb +:+ ":" +:+ ep) = true).
  { unfold Url.validUserinfo in *. rewrite !forallb_app, Hbv, Hpv. reflexivity. }
  rewrite Hv. cbn [negb].
  change (":" +:+ ep) with (String ":" ep).
  unfold Strings.Contains. rewrite (IndexByte_app ":" eb ep Hbc). cbn [negb].
  rewrite (split_app_cut ":" eb ep Hbc).
  unfold eb, ep. rewrite !unescape_escape by reflexivity. reflexivity.
Qed.

(** ** The path *)

Lemma validEncodedPath_bytes (s : string) :
  Url.validEncodedPath s = true ->
  Strings.forallb safe_byte s = true /\ without "?" s = true.
Proof.
  unfold Url.validEncodedPath. intros H.
  split; (eapply forallb_impl; [|exact H]); intros c Hc;
    destruct (path_byte_facts c (or_intror Hc)) as [? ?]; assumption.
Qed.

Lemma escape_path_bytes (s : string) :
  Strings.forallb safe_byte (Url.escape s Url.encodePath) = true
  /\ without "?" (Url.escape s Url.encodePath) = true.
Proof.
  pose proof (escape_bytes Url.encodePath s) as H.
  split; (eapply forallb_impl; [|exact H]); intros c Hc;
    destruct (path_byte_facts c (or_introl Hc)) as [? ?]; assumption.
Qed.

Lemma EscapedPath_ok (u : Url.URL) :
  Strings.forallb safe_byte (Url.EscapedPath u) = true
  /\ without "?" (Url.EscapedPath u) = true
  /\ exists p, Url.unescape (Url.EscapedPath u) Url.encodePath = Ok p.
Proof.
  assert (Hfall : forall path,
             path = (if String.eqb (Url.Path u) "*" then "*"
                     else Url.escape (Url.Path u) Url.encodePath) ->
             Strings.forallb safe_byte path = true /\ without "?" path = true
             /\ exists p, Url.unescape path Url.encodePath = Ok p).
  { intros path ->. destruct (String.eqb (Url.Path u) "*").
    - split; [reflexivity|]. split; [reflexivity|]. exists "*". reflexivity.
    - destruct (escape_path_bytes (Url.Path u)) as [Hs Hq].
      split; [exact Hs|]. split; [exact Hq|].
      exists (Url.Path u). apply unescape_escape. reflexivity. }
  unfold Url.EscapedPath.
  destruct (negb (Strings.is_empty (Url.RawPath u)) && Url.validEncodedPath (Url.RawPath u))
    eqn:Hraw; [|apply Hfall; reflexivity].
  apply andb_prop in Hraw as [_ Hvalid].
  destruct (Url.unescape (Url.RawPath u) Url.encodePath) as [p|e] eqn:Hun;
    [|apply Hfall; reflexivity].
  destruct (String.eqb p (Url.Path u)); [|apply Hfall; reflexivity].
  destruct (validEncodedPath_bytes _ Hvalid) as [Hs Hq].
  split; [exact Hs|]. split; [exact Hq|]. exists p. exact Hun.
Qed.

Lemma HasPrefix_slash (s : string) :
  Strings.HasPrefix s "/" = true -> exists t, s = String "/" t.
Proof.
  destruct s as [|c t]; [discriminate|]. unfold Strings.HasPrefix.
  change (String.prefix "/" (String c t))
    with (if ascii_dec "/" c then String.prefix "" t else false).
  destruct (ascii_dec "/" c) as [<-|]; intros H; [eauto|discriminate].
Qed.

Lemma path_part_ok (u : Url.URL) :
  Strings.forallb safe_byte (path_part u) = true
  /\ without "?" (path_part u) = true
  /\ (path_part u = "" \/ exists t, path_part u = String "/" t)
  /\ exists p, Url.unescape (path_part u) Url.encodePath = Ok p.
Proof.
  destruct (EscapedPath_ok u) as (Hs & Hq & p & Hun). unfold path_part.
  destruct (Url.EscapedPath u) as [|c t] eqn:Hpath.
  { cbn. split; [reflexivity|]. split; [reflexivity|]. split; [left; reflexivity|].
    exists "". reflexivity. }
  cbn [Strings.is_empty negb andb].
  destruct (Strings.HasPrefix (String c t) "/") eqn:Hpre; cbn [negb].
  - rewrite sapp_nil_l. split; [exact Hs|]. split; [exact Hq|].
    split; [right; apply HasPrefix_slash; exact Hpre|]. exists p. exact Hun.
  - change ("/" +:+ String c t) with (String "/" (String c t)).
    split; [rewrite forallb_cons, Hs; reflexivity|].
    split; [unfold without in *; rewrite forallb_cons, Hq; reflexivity|].
    split; [right; eauto|].
    unfold Url.unescape in *.
    destruct (unescape_check_literal Url.encodePath "/" (String c t) eq_refl eq_refl)
      as [-> ->].
    destruct (Url.unescape_check (String c t) Url.encodePath); [discriminate|].
    eauto.
Qed.

(** ** The string of a URL with an authority *)

Lemma URL_String_authority (u : Url.URL) (ui : Url.Userinfo) :
  Url.Opaque u = "" -> Url.Host u <> "" -> Url.User_ u = Some ui ->
  Url.URL_String u
  = scheme_part u +:+ "//" +:+ Url.Userinfo_String ui +:+ "@"
      +:+ Url.escape (Url.Host u) Url.encodeHost
      +:+ path_part u +:+ query_part u +:+ fragment_part u.
Proof.
  intros Ho Hh Hu. apply is_empty_false in Hh.
  unfold Url.URL_String, scheme_part, path_part, query_part, fragment_part.
  rewrite Ho, Hh, Hu. cbn [Strings.is_empty negb orb andb].
  replace (bool_decide (is_Some (Some ui))) with true
    by (symmetry; apply bool_decide_eq_true; eauto).
  rewrite ?orb_true_r, ?andb_true_r. cbn [orb andb].
  set (S := if Strings.is_empty (Url.Scheme u) then "" else Url.Scheme u +:+ ":").
  set (P := Url.EscapedPath u).
  set (buf0 := ((S +:+ "//") +:+ Url.Userinfo_String ui +:+ "@")
                 +:+ Url.escape (Url.Host u) Url.encodeHost).
  assert (Hne0 : Strings.is_empty buf0 = false).
  { unfold buf0. rewrite !is_empty_app. destruct (Strings.is_empty S); reflexivity. }
  assert (Hne : forall x, Strings.is_empty (buf0 +:+ x) = false).
  { intros x. rewrite is_empty_app, Hne0. reflexivity. }
  destruct (negb (Strings.is_empty P) && negb (Strings.HasPrefix P "/")).
  - rewrite Hne. unfold buf0.
    destruct (Url.ForceQuery u || negb (Strings.is_empty (Url.RawQuery u)));
      destruct (negb (Strings.is_empty (Url.Fragment u)));
      rewrite ?sapp_assoc, ?sapp_nil_r; reflexivity.
  - rewrite Hne0. unfold buf0.
    destruct (Url.ForceQuery u || negb (Strings.is_empty (Url.RawQuery u)));
      destruct (negb (Strings.is_empty (Url.Fragment u)));
      rewrite ?sapp_assoc, ?sapp_nil_r, ?sapp_nil_l; reflexivity.
Qed.

(** ** Splitting a concatenation *)

Lemma IndexByte_app_l (c : ascii) (a b : string) :
  without c a = true ->
  Strings.IndexByte (a +:+ b) c
  = match Strings.IndexByte b c with
    | Some i => Some (String.length a + i)
    | None => None
    end.
Proof.
  induction a as [|x a IH].
  { intros _. rewrite sapp_nil_l. destruct (Strings.IndexByte b c); reflexivity. }
  unfold without. rewrite forallb_cons. intros [Hx Ha]%andb_prop.
  apply negb_true_iff in Hx. rewrite sapp_cons. cbn [Strings.IndexByte]. rewrite Hx.
  rewrite (IH Ha). destruct (Strings.IndexByte b c); reflexivity.
Qed.

Lemma take_app_plus (a b : string) (i : nat) :
  Strings.take (String.length a + i) (a +:+ b) = a +:+ Strings.take i b.
Proof.
  induction a as [|x a IH]; [reflexivity|]. rewrite !sapp_cons. cbn. rewrite IH. reflexivity.
Qed.

Lemma drop_app_plus (a b : string) (i : nat) :
  Strings.drop (String.length a + i) (a +:+ b) = Strings.drop i b.
Proof.
  induction a as [|x a IH]; [reflexivity|]. rewrite !sapp_cons. cbn. exact IH.
Qed.

Lemma split_app_l (c : ascii) (cutc : bool) (a b : string) :
  without c a = true ->
  Url.split (a +:+ b) c cutc
  = (a +:+ fst (Url.split b c cutc), snd (Url.split b c cutc)).
Proof.
  intros Ha. unfold Url.split. rewrite (IndexByte_app_l _ _ _ Ha).
  destruct (Strings.IndexByte b c) as [i|]; cbn [fst snd]; [|reflexivity].
  rewrite take_app_plus. f_equal.
  destruct cutc.
  - replace (S (String.length a + i)) with (String.length a + S i) by lia.
    apply drop_app_plus.
  - apply drop_app_plus.
Qed.

Lemma HasSuffixByte_without (c : ascii) (s : string) :
  without c s = true -> Strings.HasSuffixByte s c = false.
Proof.
  induction s as [|x s IH]; [reflexivity|]. unfold without. rewrite forallb_cons.
  intros [Hx Hs]%andb_prop. apply negb_true_iff in Hx.
  cbn [Strings.HasSuffixByte]. destruct s; [exact Hx|]. apply IH. exact Hs.
Qed.

Lemma HasSuffixByte_app (c : ascii) (a b : string) :
  b <> "" -> Strings.HasSuffixByte (a +:+ b) c = Strings.HasSuffixByte b c.
Proof.
  intros Hb. induction a as [|x a IH]; [reflexivity|]. rewrite sapp_cons.
  cbn [Strings.HasSuffixByte]. destruct (a +:+ b) as [|y t] eqn:Hab; [|exact IH].
  destruct a; [rewrite sapp_nil_l in Hab; done|rewrite sapp_cons in Hab; discriminate].
Qed.

Lemma CountByte_app (c : ascii) (a b : string) :
  Strings.CountByte (a +:+ b) c = Strings.CountByte a c + Strings.CountByte b c.
Proof.
  induction a as [|x a IH]; [reflexivity|]. rewrite sapp_cons. cbn [Strings.CountByte].
  rewrite IH. lia.
Qed.

Lemma CountByte_zero (c : ascii) (s : string) :
  Strings.CountByte s c = 0 -> without c s = true.
Proof.
  induction s as [|x s IH]; [reflexivity|]. cbn [Strings.CountByte]. unfold without.
  rewrite forallb_cons. destruct (Ascii.eqb x c); [discriminate|]. cbn. exact IH.
Qed.

Lemma CountByte_without (c : ascii) (s : string) :
  without c s = true -> Strings.CountByte s c = 0.
Proof.
  induction s as [|x s IH]; [reflexivity|]. unfold without. rewrite forallb_cons.
  intros [Hx Hs]%andb_prop. apply negb_true_iff in Hx. cbn [Strings.CountByte].
  rewrite Hx, (IH Hs). reflexivity.
Qed.

(** The query is split off a string that ends in [query_part]. *)
Lemma split_query_app (url : Url.URL) (a q : string) (force : bool) :
  without "?" a = true ->
  exists url',
    Url.split_query url (a +:+ (if force || negb (Strings.is_empty q) then "?" +:+ q else ""))
    = (a, url')
    /\ Url.Scheme url' = Url.Scheme url.
Proof.
  intros Ha. unfold Url.split_query.
  destruct (force || negb (Strings.is_empty q)) eqn:Hq.
  - change ("?" +:+ q) with (String "?" q).
    destruct (Strings.HasSuffixByte (a +:+ String "?" q) "?"
              && Nat.eqb (Strings.CountByte (a +:+ String "?" q) "?") 1) eqn:Hcond.
    + apply andb_prop in Hcond as [Hsuf Hcount]. apply Nat.eqb_eq in Hcount.
      rewrite CountByte_app, (CountByte_without _ _ Ha) in Hcount.
      cbn [Strings.CountByte] in Hcount. rewrite Ascii.eqb_refl in Hcount.
      assert (Hq0 : without "?" q = true) by (apply CountByte_zero; lia).
      rewrite HasSuffixByte_app in Hsuf by discriminate.
      destruct q as [|y q'].
      * exists (Url.set_ForceQuery true url). split; [|reflexivity].
        rewrite slength_app. cbn [String.length].
        replace (String.length a + 1 - 1) with (String.length a + 0) by lia.
        rewrite take_app_plus. cbn. rewrite sapp_nil_r. reflexivity.
      * change (String "?" (String y q')) with ("?" +:+ String y q') in Hsuf.
        rewrite HasSuffixByte_app in Hsuf by discriminate.
        rewrite (HasSuffixByte_without _ _ Hq0) in Hsuf. discriminate.
    + rewrite (split_app_cut "?" a q Ha). exists (Url.set_RawQuery q url).
      split; reflexivity.
  - rewrite sapp_nil_r, (HasSuffixByte_without _ _ Ha). cbn [andb].
    rewrite (split_without "?" true a Ha). exists (Url.set_RawQuery "" url).
    split; reflexivity.
Qed.

Lemma HasPrefix_app_without (c : ascii) (a b : string) :
  without c a = true -> a <> "" ->
  Strings.HasPrefix (a +:+ b) (String c "") = false.
Proof.
  destruct a as [|x a]; [done|]. unfold without. rewrite forallb_cons.
  intros [Hx _]%andb_prop _. apply negb_true_iff, Ascii.eqb_neq in Hx.
  rewrite sapp_cons. unfold Strings.HasPrefix.
  change (String.prefix (String c "") (String x (a +:+ b)))
    with (if ascii_dec c x then String.prefix "" (a +:+ b) else false).
  destruct (ascii_dec c x); [congruence|reflexivity].
Qed.

(** ** Parsing the string of a URL back *)

Lemma Userinfo_String_password (b p : string) :
  Url.Userinfo_String (Url.UserPassword b p)
  = Url.escape b Url.encodeUserPassword +:+ String ":" (Url.escape p Url.encodeUserPassword).
Proof. reflexivity. Qed.

Lemma userinfo_string_bytes (b p : string) :
  let ui := Url.Userinfo_String (Url.UserPassword b p) in
  Strings.forallb safe_byte ui = true /\ without "/" ui = true /\ without "?" ui = true
  /\ ui <> "".
Proof.
  intros ui. subst ui. rewrite Userinfo_String_password.
  destruct (userinfo_bytes b) as (Hbs & Hbsl & _ & _ & Hbq & _).
  destruct (userinfo_bytes p) as (Hps & Hpsl & _ & _ & Hpq & _).
  unfold without in *. rewrite !forallb_app, !forallb_cons.
  rewrite Hbs, Hps, Hbsl, Hpsl, Hbq, Hpq. repeat split.
  destruct (Url.escape b Url.encodeUserPassword); discriminate.
Qed.

Lemma parse_hierarchy_authority (url : Url.URL) (b p h h' P : string) :
  Url.parseHost (Url.escape h Url.encodeHost) = Ok h' ->
  (P = "" \/ exists t, P = String "/" t) ->
  (exists p', Url.unescape P Url.encodePath = Ok p') ->
  exists u',
    Url.parse_hierarchy url
      ("//" +:+ Url.Userinfo_String (Url.UserPassword b p) +:+ "@"
         +:+ Url.escape h Url.encodeHost +:+ P) = Ok u'
    /\ Url.User_ u' = Some (Url.UserPassword b p).
Proof.
  intros Hh HP [p' Hun].
  destruct (escaped_host_bytes h) as (_ & Hhsl & _ & _).
  set (eh := Url.escape h Url.encodeHost) in *.
  destruct (userinfo_string_bytes b p) as (_ & Huisl & _ & Huine).
  set (ui := Url.Userinfo_String (Url.UserPassword b p)) in *.
  set (T := ui +:+ "@" +:+ eh +:+ P).
  change ("//" +:+ T) with (String "/" (String "/" T)).
  unfold Url.parse_hierarchy.
  assert (H1 : Strings.HasPrefix (String "/" (String "/" T)) "/" = true) by reflexivity.
  assert (H2 : Strings.HasPrefix (String "/" (String "/" T)) "//" = true)
    by (destruct T; reflexivity).
  assert (H3 : Strings.HasPrefix (String "/" (String "/" T)) "///" = false).
  { change (Strings.HasPrefix (String "/" (String "/" T)) "///")
      with (Strings.HasPrefix T "/").
    apply HasPrefix_app_without; assumption. }
  rewrite H1, H2, H3. cbn [negb andb orb]. rewrite orb_true_r. cbn [andb].
  change (Strings.drop 2 (String "/" (String "/" T))) with T.
  assert (Hsplit : Url.split T "/" false = (ui +:+ String "@" eh, P)).
  { unfold T. change ("@" +:+ eh +:+ P) with (String "@" (eh +:+ P)).
    replace (ui +:+ String "@" (eh +:+ P)) with ((ui +:+ String "@" eh) +:+ P)
      by (rewrite sapp_assoc; reflexivity).
    assert (Hw : without "/" (ui +:+ String "@" eh) = true).
    { unfold without in *. rewrite forallb_app, forallb_cons, Huisl, Hhsl. reflexivity. }
    destruct HP as [->|[t ->]].
    - rewrite sapp_nil_r. apply split_without. exact Hw.
    - apply split_app_keep. exact Hw. }
  rewrite Hsplit. unfold ui, eh. rewrite (parseAuthority_userinfo b p h h' Hh).
  cbn [mbind result_bind].
  unfold Url.setPath. rewrite Hun. cbn [mbind result_bind].
  destruct (String.eqb P _); eexists; split; reflexivity.
Qed.

Lemma forallb_not_ctl (s : string) :
  Strings.forallb safe_byte s = true -> Url.stringContainsCTLByte s = false.
Proof.
  intros H. unfold Url.stringContainsCTLByte. apply negb_false_iff.
  eapply forallb_impl; [|exact H]. intros c Hc. unfold safe_byte in Hc.
  apply andb_prop in Hc as [Hc _]. exact Hc.
Qed.

Lemma forallb_safe_without (s : string) :
  Strings.forallb safe_byte s = true -> without "#" s = true.
Proof.
  intros H. eapply forallb_impl; [|exact H]. intros c Hc. unfold safe_byte in Hc.
  apply andb_prop in Hc as [_ Hc]. exact Hc.
Qed.

Lemma scheme_part_getscheme (u : Url.URL) (rest : string) :
  scheme_ok (Url.Scheme u) = true ->
  Url.getscheme (scheme_part u +:+ "//" +:+ rest) = Ok (Url.Scheme u, "//" +:+ rest)
  /\ String.eqb (scheme_part u +:+ "//" +:+ rest) "*" = false
  /\ Strings.forallb safe_byte (scheme_part u) = true
  /\ Strings.ToLower (Url.Scheme u) = Url.Scheme u.
Proof.
  intros Hs. unfold scheme_part.
  destruct (Url.Scheme u) as [|c r] eqn:Hsch.
  - cbn [Strings.is_empty]. rewrite sapp_nil_l. repeat split; reflexivity.
  - cbn [Strings.is_empty].
    pose proof (scheme_ok_bytes _ Hs) as Hb.
    assert (Hc : scheme_byte c = true)
      by (rewrite forallb_cons in Hb; apply andb_prop in Hb as [? _]; assumption).
    destruct (scheme_byte_facts c Hc) as (_ & _ & _ & Hstar).
    split; [|split; [|split]].
    + rewrite sapp_assoc. change (":" +:+ "//" +:+ rest) with (String ":" ("//" +:+ rest)).
      apply getscheme_app; [assumption|discriminate].
    + rewrite !sapp_cons. cbn [String.eqb]. apply negb_true_iff in Hstar.
      rewrite Hstar. reflexivity.
    + rewrite forallb_app. rewrite andb_true_r.
      eapply forallb_impl; [|exact Hb]. intros x Hx.
      destruct (scheme_byte_facts x Hx) as (? & _). assumption.
    + apply ToLower_scheme. exact Hb.
Qed.

(** A URL with an authority whose host is regular and whose user is a pair
    of name and password gives a string that [Parse] accepts and from which
    it reads that user back. *)
Lemma Parse_String_user (u : Url.URL) (b p : string) :
  Url.Opaque u = "" -> host_parses_back (Url.Host u) = true ->
  scheme_ok (Url.Scheme u) = true -> query_ok (Url.RawQuery u) = true ->
  Url.User_ u = Some (Url.UserPassword b p) ->
  exists u',
    Url.Parse (Url.URL_String u) = Ok u'
    /\ Url.User_ u' = Some (Url.UserPassword b p).
Proof.
  intros Ho Hh Hs Hq Hu.
  destruct (host_parses_back_spec _ Hh) as (Hne & h' & Hh').
  destruct (escaped_host_bytes (Url.Host u)) as (Hhsafe & _ & _ & Hhq).
  destruct (userinfo_string_bytes b p) as (Huisafe & _ & Huiq & _).
  destruct (path_part_ok u) as (Hpsafe & Hpq & Hpform & Hpun).
  rewrite (URL_String_authority u _ Ho Hne Hu).
  set (eh := Url.escape (Url.Host u) Url.encodeHost) in *.
  set (ui := Url.Userinfo_String (Url.UserPassword b p)) in *.
  set (R0 := "//" +:+ ui +:+ "@" +:+ eh +:+ path_part u).
  assert (HR0safe : Strings.forallb safe_byte R0 = true).
  { unfold R0. rewrite !forallb_app, Huisafe, Hhsafe, Hpsafe. reflexivity. }
  assert (HR0q : without "?" R0 = true).
  { unfold R0, without in *. rewrite !forallb_app, Huiq, Hhq, Hpq. reflexivity. }
  assert (Hqsafe : Strings.forallb safe_byte (query_part u) = true).
  { unfold query_part. destruct (_ || _); [|reflexivity].
    rewrite forallb_app. exact Hq. }
  destruct (scheme_part_getscheme u (ui +:+ "@" +:+ eh +:+ path_part u
                                        +:+ query_part u) Hs)
    as (Hget & Hstar & Hssafe & Hlow).
  assert (Hpre : scheme_part u +:+ "//" +:+ ui +:+ "@" +:+ eh +:+ path_part u
                   +:+ query_part u +:+ fragment_part u
                 = (scheme_part u +:+ "//" +:+ ui +:+ "@" +:+ eh +:+ path_part u
                      +:+ query_part u) +:+ fragment_part u).
  { rewrite !sapp_assoc. reflexivity. }
  rewrite Hpre. clear Hpre.
  set (pre := scheme_part u +:+ "//" +:+ ui +:+ "@" +:+ eh +:+ path_part u
                +:+ query_part u) in *.
  assert (Hpresafe : Strings.forallb safe_byte pre = true).
  { unfold pre. rewrite forallb_app, Hssafe.
    replace ("//" +:+ ui +:+ "@" +:+ eh +:+ path_part u +:+ query_part u)
      with (R0 +:+ query_part u) by (unfold R0; rewrite !sapp_assoc; reflexivity).
    rewrite forallb_app, HR0safe, Hqsafe. reflexivity. }
  assert (Hparse : exists u', Url.parse pre = Ok u'
                              /\ Url.User_ u' = Some (Url.UserPassword b p)).
  { unfold Url.parse. rewrite (forallb_not_ctl _ Hpresafe), Hstar, Hget.
    cbn [mbind result_bind]. rewrite Hlow.
    replace ("//" +:+ ui +:+ "@" +:+ eh +:+ path_part u +:+ query_part u)
      with (R0 +:+ query_part u) by (unfold R0; rewrite !sapp_assoc; reflexivity).
    unfold query_part.
    destruct (split_query_app (Url.set_Scheme (Url.Scheme u) Url.emptyURL) R0
                (Url.RawQuery u) (Url.ForceQuery u) HR0q) as (url' & -> & _).
    unfold R0, ui, eh. eapply parse_hierarchy_authority; eassumption. }
  destruct Hparse as (u' & Hparse & Hu').
  unfold Url.Parse, fragment_part.
  destruct (negb (Strings.is_empty (Url.Fragment u))) eqn:Hf.
  - change ("#" +:+ Url.escape (Url.Fragment u) Url.encodeFragment)
      with (String "#" (Url.escape (Url.Fragment u) Url.encodeFragment)).
    rewrite (split_app_cut "#" pre _ (forallb_safe_without _ Hpresafe)), Hparse.
    rewrite unescape_escape by reflexivity.
    destruct (Strings.is_empty (Url.escape (Url.Fragment u) Url.encodeFragment));
      eexists; (split; [reflexivity|exact Hu']).
  - rewrite sapp_nil_r, (split_without "#" true pre (forallb_safe_without _ Hpresafe)), Hparse.
    cbn [Strings.is_empty]. eexists; split; [reflexivity|exact Hu'].
Qed.

(** ** The encoded query *)

Lemma QueryEscape_safe (s : string) : Strings.forallb safe_byte (Url.QueryEscape s) = true.
Proof.
  unfold Url.QueryEscape. eapply forallb_impl; [|apply escape_bytes].
  apply query_byte_facts.
Qed.

Lemma encode_key_safe (v : Url.Values) (buf k : string) :
  Strings.forallb safe_byte buf = true ->
  Strings.forallb safe_byte (Url.encode_key v buf k) = true.
Proof.
  unfold Url.encode_key. generalize (default [] (v !! k)). intros vs. revert buf.
  induction vs as [|val vs IH]; intros buf Hbuf; [exact Hbuf|].
  cbn [fold_left]. apply IH.
  rewrite !forallb_app, !QueryEscape_safe.
  destruct (Strings.is_empty buf); rewrite ?forallb_app, Hbuf; reflexivity.
Qed.

Lemma Values_Encode_safe (v : Url.Values) : query_ok (Url.Values_Encode v) = true.
Proof.
  unfold query_ok, Url.Values_Encode. generalize (Url.sorted_keys v). intros keys.
  assert (H : Strings.forallb safe_byte "" = true) by reflexivity.
  revert H. generalize "". induction keys as [|k keys IH]; intros buf Hbuf; [exact Hbuf|].
  cbn [fold_left]. apply IH. apply encode_key_safe. exact Hbuf.
Qed.

(** C5.  For every binding ID and every secret [generatePassword] produces
    (the URL-safe base64 text of the 32 bytes read from the random source),
    with [skipCredentials] unset and a cluster address that [Parse] accepts
    with a host that is not empty and that [Parse] accepts back,
    [buildConnectionString] returns a string that [Parse] accepts and whose
    user-info is exactly that binding ID and that secret, whatever the
    database, the options and the format are. *)
Theorem C5_userinfo_round_trips (params : ConnectionStringParams) (cluster : Atlas.Cluster)
    (bindingID password : string) (rand_Read : nat -> result string) (u0 : Url.URL) :
  SkipCredentials params = false ->
  generatePassword rand_Read = Ok password ->
  Url.Parse (if String.eqb (Format params) "standard"
             then Atlas.MongoURIWithOptions cluster
             else Atlas.SrvAddress cluster) = Ok u0 ->
  host_parses_back (Url.Host u0) = true ->
  exists connectionString u,
    buildConnectionString (Some params) cluster bindingID password = Ret connectionString
    /\ Url.Parse connectionString = Ok u
    /\ Url.User_ u = Some (Url.UserPassword bindingID password)
    /\ exists b, rand_Read 32 = Ok b /\ password = Base64.EncodeToString b.
Proof.
  intros Hskip Hpw Hparse Hhost.
  destruct (Parse_fields _ _ Hparse) as (Hs & Hq & Ho).
  destruct (host_parses_back_spec _ Hhost) as (Hne & _).
  specialize (Ho Hne).
  unfold buildConnectionString. rewrite Hparse, Hskip. cbn [negb].
  set (u := if Nat.ltb 0 (map_len (Options params)) then _ else _).
  destruct (Parse_String_user u bindingID password) as (u' & Hu' & Huser).
  - unfold u. destruct (Nat.ltb 0 (map_len (Options params)));
      [destruct (Nat.eqb _ 0)|]; destruct (Nat.ltb 0 (String.length (Database params)));
      exact Ho.
  - unfold u. destruct (Nat.ltb 0 (map_len (Options params)));
      [destruct (Nat.eqb _ 0)|]; destruct (Nat.ltb 0 (String.length (Database params)));
      exact Hhost.
  - unfold u. destruct (Nat.ltb 0 (map_len (Options params)));
      [destruct (Nat.eqb _ 0)|]; destruct (Nat.ltb 0 (String.length (Database params)));
      exact Hs.
  - unfold u. destruct (Nat.ltb 0 (map_len (Options params)));
      [destruct (Nat.eqb _ 0)|]; destruct (Nat.ltb 0 (String.length (Database params)));
      try exact Hq; apply Values_Encode_safe.
  - unfold u. destruct (Nat.ltb 0 (map_len (Options params)));
      [destruct (Nat.eqb _ 0)|]; destruct (Nat.ltb 0 (String.length (Database params)));
      reflexivity.
  - exists (Url.URL_String u), u'. split; [reflexivity|]. split; [exact Hu'|].
    split; [exact Huser|].
    unfold generatePassword, numberOfBytes in Hpw.
    destruct (rand_Read 32) as [b|e]; [|discriminate].
    injection Hpw as <-. eauto.
Qed.

Lemma set_options_lookup (options : gmap string Json.iface) (q : Url.Values) (key : string) :
  set_options options q !! key = merged_value options q key.
Proof.
  unfold set_options, merged_value. revert key.
  apply (map_fold_weak_ind
           (fun (r : Url.Values) (m : gmap string Json.iface) =>
              forall key, r !! key =
                match m !! key with
                | Some (Json.IString v) => Some [v]
                | Some (Json.IFloat64 v) =>
                    Some [Strconv.FormatInt10 (Strconv.int64_of_float64 v)]
                | Some (Json.IBool v) => Some [if v then "true" else "false"]
                | Some Json.INil | Some (Json.ISlice _) | Some (Json.IMap _) | None => q !! key
                end)).
  - intros key. rewrite lookup_empty. reflexivity.
  - intros i x m r Hi IH key. destruct (decide (i = key)) as [->|Hne].
    + rewrite lookup_insert_eq. specialize (IH key). rewrite Hi in IH.
      destruct x as [|b|f|s|l|m']; cbn [option_value]; unfold Url.Values_Set;
        rewrite ?lookup_insert_eq; try exact IH; try reflexivity.
    + rewrite (lookup_insert_ne m i key x Hne).
      destruct (option_value x); [unfold Url.Values_Set; rewrite lookup_insert_ne by exact Hne|];
        apply IH.
Qed.



Lemma size_pos_nonempty {A} (m : gmap string A) : Nat.ltb 0 (size m) = true <-> m <> ∅.
Proof.
  rewrite Nat.ltb_lt. split.
  - intros H ->. rewrite map_size_empty in H. lia.
  - intros H. destruct (size m) eqn:Hs; [|lia]. apply map_size_empty_inv in Hs. done.
Qed.

(** C5 on an example: the abbreviated address of the example cluster, the
    binding ID [b1] and the password made of the example entropy. *)
Lemma C5_userinfo_round_trips_witness :
  exists connectionString u,
    buildConnectionString (Some zeroConnectionStringParams)
      (example_cluster "mongodb+srv://c0.example.net" "IDLE") "b1"
      "MDEyMzQ1Njc4OWFiY2RlZjAxMjM0NTY3ODlhYmNkZWY=" = Ret connectionString
    /\ Url.Parse connectionString = Ok u
    /\ Url.User_ u
       = Some (Url.UserPassword "b1" "MDEyMzQ1Njc4OWFiY2RlZjAxMjM0NTY3ODlhYmNkZWY=")
    /\ exists b, rand_Read example_deps 32 = Ok b
                 /\ "MDEyMzQ1Njc4OWFiY2RlZjAxMjM0NTY3ODlhYmNkZWY=" = Base64.EncodeToString b.
Proof.
  eapply (C5_userinfo_round_trips zeroConnectionStringParams
            (example_cluster "mongodb+srv://c0.example.net" "IDLE") "b1"
            "MDEyMzQ1Njc4OWFiY2RlZjAxMjM0NTY3ODlhYmNkZWY=" (rand_Read example_deps)).
  - reflexivity.
  - vm_compute. reflexivity.
  - vm_compute. reflexivity.
  - vm_compute. reflexivity.
Defined.

(** C5, as stated, fails.  The address [c0.example.net:27017] has no [//]
    after its scheme: [Parse] reads it as opaque, and [String] writes no
    user-info for an opaque URL.  With the credentials not skipped and the
    password made of the example entropy, the connection string is the
    address again, and no user-info is parsed back out of it. *)
Lemma C5_opaque_address_carries_no_userinfo :
  generatePassword (rand_Read example_deps)
  = Ok "MDEyMzQ1Njc4OWFiY2RlZjAxMjM0NTY3ODlhYmNkZWY="
  /\ SkipCredentials zeroConnectionStringParams = false
  /\ buildConnectionString (Some zeroConnectionStringParams)
       (example_cluster "c0.example.net:27017" "IDLE") "b1"
       "MDEyMzQ1Njc4OWFiY2RlZjAxMjM0NTY3ODlhYmNkZWY="
     = Ret "c0.example.net:27017"
  /\ Url.Parse "c0.example.net:27017"
     = Ok {| Url.Scheme := "c0.example.net"; Url.Opaque := "27017"; Url.User_ := None;
             Url.Host := ""; Url.Path := ""; Url.RawPath := ""; Url.ForceQuery := false;
             Url.RawQuery := ""; Url.Fragment := "" |}.
Proof. repeat split; vm_compute; reflexivity. Qed.

(** * The connection string read back *)

(** ** The path of a URL as [String] writes it *)

Lemma unescape_EscapedPath (u : Url.URL) :
  Url.unescape (Url.EscapedPath u) Url.encodePath = Ok (Url.Path u).
Proof.
  assert (Hfall : Url.unescape (if String.eqb (Url.Path u) "*" then "*"
                                else Url.escape (Url.Path u) Url.encodePath) Url.encodePath
                  = Ok (Url.Path u)).
  { destruct (String.eqb (Url.Path u) "*") eqn:Hstar.
    - apply String.eqb_eq in Hstar. rewrite Hstar. reflexivity.
    - apply unescape_escape. reflexivity. }
  unfold Url.EscapedPath.
  destruct (negb (Strings.is_empty (Url.RawPath u)) && Url.validEncodedPath (Url.RawPath u));
    [|exact Hfall].
  destruct (Url.unescape (Url.RawPath u) Url.encodePath) as [p|e] eqn:Hun; [|exact Hfall].
  destruct (String.eqb p (Url.Path u)) eqn:Hp; [|exact Hfall].
  apply String.eqb_eq in Hp. rewrite Hun, Hp. reflexivity.
Qed.

Lemma unescape_slash (s p : string) :
  Url.unescape s Url.encodePath = Ok p ->
  Url.unescape (String "/" s) Url.encodePath = Ok (String "/" p).
Proof.
  unfold Url.unescape.
  destruct (unescape_check_literal Url.encodePath "/" s eq_refl eq_refl) as [-> ->].
  destruct (Url.unescape_check s Url.encodePath); [discriminate|].
  intros [= ->]. reflexivity.
Qed.

Lemma path_part_slash (u : Url.URL) : path_part u = slash_part u +:+ Url.EscapedPath u.
Proof. reflexivity. Qed.

Lemma unescape_path_part (u : Url.URL) :
  Url.unescape (path_part u) Url.encodePath = Ok (slash_part u +:+ Url.Path u).
Proof.
  rewrite path_part_slash. unfold slash_part.
  destruct (negb (Strings.is_empty (Url.EscapedPath u))
            && negb (Strings.HasPrefix (Url.EscapedPath u) "/")).
  - change ("/" +:+ Url.EscapedPath u) with (String "/" (Url.EscapedPath u)).
    change ("/" +:+ Url.Path u) with (String "/" (Url.Path u)).
    apply unescape_slash, unescape_EscapedPath.
  - rewrite !sapp_nil_l. apply unescape_EscapedPath.
Qed.

(** ** The authority, with or without a user *)

Lemma user_record (ui : Url.Userinfo) :
  Url.passwordSet ui = true -> ui = Url.UserPassword (Url.username ui) (Url.password ui).
Proof. destruct ui as [n p s]. cbn. intros ->. reflexivity. Qed.

Lemma user_record_name (ui : Url.Userinfo) :
  Url.passwordSet ui = false -> Url.password ui = "" -> ui = Url.User (Url.username ui).
Proof. destruct ui as [n p s]. cbn. intros -> ->. reflexivity. Qed.

Lemma escape_is_empty (mode : Url.encoding) (s : string) :
  Strings.is_empty (Url.escape s mode) = Strings.is_empty s.
Proof.
  destruct s as [|c s]; [reflexivity|]. rewrite escape_cons.
  destruct (Ascii.eqb c " " && _); [reflexivity|].
  destruct (Url.shouldEscape c mode); reflexivity.
Qed.

Lemma parseAuthority_round_trip (user : option Url.Userinfo) (h h' : string) :
  user_ok user = true ->
  Url.parseHost (Url.escape h Url.encodeHost) = Ok h' ->
  Url.parseAuthority (authority_user user +:+ Url.escape h Url.encodeHost) = Ok (user, h').
Proof.
  intros Hok Hparse.
  destruct (escaped_host_bytes h) as (_ & _ & Hat & _).
  destruct user as [ui|]; cbn [authority_user].
  - destruct (Url.passwordSet ui) eqn:Hset.
    + rewrite (user_record ui Hset) at 1 2. rewrite sapp_assoc.
      change ("@" +:+ Url.escape h Url.encodeHost) with (String "@" (Url.escape h Url.encodeHost)).
      rewrite (parseAuthority_userinfo _ _ h h' Hparse).
      rewrite <- (user_record ui Hset). reflexivity.
    + cbn in Hok. rewrite Hset in Hok. cbn [orb] in Hok. apply is_empty_true in Hok.
      rewrite (user_record_name ui Hset Hok) at 2.
      unfold Url.Userinfo_String. rewrite Hset. cbn zeta.
      destruct (userinfo_bytes (Url.username ui)) as (_ & _ & _ & Hc & _ & Hv).
      set (eu := Url.escape (Url.username ui) Url.encodeUserPassword) in *.
      rewrite sapp_assoc.
      change ("@" +:+ Url.escape h Url.encodeHost) with (String "@" (Url.escape h Url.encodeHost)).
      unfold Url.parseAuthority.
      rewrite (LastIndexByte_app "@" _ _ Hat), drop_S_app, Hparse. cbn [mbind result_bind].
      rewrite take_app_length, Hv. cbn [negb].
      unfold Strings.Contains. rewrite (IndexByte_without ":" eu Hc). cbn [negb].
      unfold eu. rewrite unescape_escape by reflexivity. reflexivity.
  - rewrite sapp_nil_l. unfold Url.parseAuthority.
    rewrite (LastIndexByte_without "@" _ Hat), Hparse. reflexivity.
Qed.

Lemma authority_user_bytes (user : option Url.Userinfo) :
  Strings.forallb safe_byte (authority_user user) = true
  /\ without "/" (authority_user user) = true /\ without "?" (authority_user user) = true.
Proof.
  destruct user as [ui|]; [|repeat split; reflexivity]. cbn [authority_user].
  destruct (userinfo_bytes (Url.username ui)) as (Hbs & Hbsl & _ & _ & Hbq & _).
  destruct (userinfo_bytes (Url.password ui)) as (Hps & Hpsl & _ & _ & Hpq & _).
  unfold Url.Userinfo_String, without in *.
  destruct (Url.passwordSet ui); rewrite !forallb_app, ?Hbs, ?Hps, ?Hbsl, ?Hpsl, ?Hbq, ?Hpq;
    repeat split.
Qed.

(** ** The string of a URL with a host *)

Lemma URL_String_host (u : Url.URL) :
  Url.Opaque u = "" -> Url.Host u <> "" ->
  Url.URL_String u
  = scheme_part u +:+ "//" +:+ authority_user (Url.User_ u)
      +:+ Url.escape (Url.Host u) Url.encodeHost
      +:+ path_part u +:+ query_part u +:+ fragment_part u.
Proof.
  intros Ho Hh. destruct (Url.User_ u) as [ui|] eqn:Hu.
  - rewrite (URL_String_authority u ui Ho Hh Hu). cbn [authority_user].
    rewrite !sapp_assoc. reflexivity.
  - apply is_empty_false in Hh.
    unfold Url.URL_String, scheme_part, path_part, query_part, fragment_part.
    rewrite Ho, Hh, Hu. cbn [Strings.is_empty negb orb andb authority_user].
    replace (bool_decide (is_Some (@None Url.Userinfo))) with false
      by (symmetry; apply bool_decide_eq_false; intros [? ?]; discriminate).
    rewrite ?orb_true_r, ?andb_true_r. cbn [orb andb].
    set (S := if Strings.is_empty (Url.Scheme u) then "" else Url.Scheme u +:+ ":").
    set (P := Url.EscapedPath u).
    set (buf0 := (S +:+ "//") +:+ Url.escape (Url.Host u) Url.encodeHost).
    assert (Hne0 : Strings.is_empty buf0 = false).
    { unfold buf0. rewrite !is_empty_app. destruct (Strings.is_empty S); reflexivity. }
    assert (Hne : forall x, Strings.is_empty (buf0 +:+ x) = false).
    { intros x. rewrite is_empty_app, Hne0. reflexivity. }
    destruct (negb (Strings.is_empty P) && negb (Strings.HasPrefix P "/")).
    + rewrite Hne. unfold buf0.
      destruct (Url.ForceQuery u || negb (Strings.is_empty (Url.RawQuery u)));
        destruct (negb (Strings.is_empty (Url.Fragment u)));
        rewrite ?sapp_assoc, ?sapp_nil_r, ?sapp_nil_l; reflexivity.
    + rewrite Hne0. unfold buf0.
      destruct (Url.ForceQuery u || negb (Strings.is_empty (Url.RawQuery u)));
        destruct (negb (Strings.is_empty (Url.Fragment u)));
        rewrite ?sapp_assoc, ?sapp_nil_r, ?sapp_nil_l; reflexivity.
Qed.

(** ** Parsing it back *)

Lemma setPath_result (u u' : Url.URL) (P p : string) :
  Url.unescape P Url.encodePath = Ok p ->
  Url.setPath u P = Ok u' ->
  Url.Scheme u' = Url.Scheme u /\ Url.Opaque u' = Url.Opaque u /\ Url.User_ u' = Url.User_ u
  /\ Url.Host u' = Url.Host u /\ Url.Path u' = p /\ Url.RawQuery u' = Url.RawQuery u
  /\ Url.Fragment u' = Url.Fragment u.
Proof.
  intros Hun. unfold Url.setPath. rewrite Hun. cbn [mbind result_bind].
  destruct (String.eqb P _); intros [= <-]; repeat split; reflexivity.
Qed.

Lemma parse_hierarchy_round_trip (url : Url.URL) (user : option Url.Userinfo)
    (h h' P p : string) :
  user_ok user = true -> h <> "" ->
  Url.parseHost (Url.escape h Url.encodeHost) = Ok h' ->
  (P = "" \/ exists t, P = String "/" t) ->
  Url.unescape P Url.encodePath = Ok p ->
  exists u',
    Url.parse_hierarchy url
      ("//" +:+ authority_user user +:+ Url.escape h Url.encodeHost +:+ P) = Ok u'
    /\ Url.Scheme u' = Url.Scheme url /\ Url.Opaque u' = Url.Opaque url
    /\ Url.User_ u' = user /\ Url.Host u' = h' /\ Url.Path u' = p
    /\ Url.RawQuery u' = Url.RawQuery url /\ Url.Fragment u' = Url.Fragment url.
Proof.
  intros Hok Hne Hh HP Hun.
  destruct (escaped_host_bytes h) as (_ & Hhsl & _ & _).
  assert (Hehne : Url.escape h Url.encodeHost <> "").
  { apply is_empty_false. rewrite escape_is_empty. apply is_empty_false. exact Hne. }
  set (eh := Url.escape h Url.encodeHost) in *.
  destruct (authority_user_bytes user) as (_ & Hausl & _).
  set (au := authority_user user) in *.
  set (T := au +:+ eh +:+ P).
  change ("//" +:+ T) with (String "/" (String "/" T)).
  unfold Url.parse_hierarchy.
  assert (Hw : without "/" (au +:+ eh) = true).
  { unfold without in *. rewrite forallb_app, Hausl, Hhsl. reflexivity. }
  assert (Hne' : au +:+ eh <> "").
  { apply is_empty_false. rewrite is_empty_app. apply is_empty_false in Hehne.
    rewrite Hehne. apply andb_false_r. }
  assert (H1 : Strings.HasPrefix (String "/" (String "/" T)) "/" = true) by reflexivity.
  assert (H2 : Strings.HasPrefix (String "/" (String "/" T)) "//" = true)
    by (destruct T; reflexivity).
  assert (H3 : Strings.HasPrefix (String "/" (String "/" T)) "///" = false).
  { change (Strings.HasPrefix (String "/" (String "/" T)) "///")
      with (Strings.HasPrefix T "/").
    unfold T. rewrite <- sapp_assoc. apply HasPrefix_app_without; assumption. }
  rewrite H1, H2, H3. cbn [negb andb orb]. rewrite orb_true_r. cbn [andb].
  change (Strings.drop 2 (String "/" (String "/" T))) with T.
  assert (Hsplit : Url.split T "/" false = (au +:+ eh, P)).
  { unfold T. rewrite <- sapp_assoc.
    destruct HP as [->|[t ->]].
    - rewrite sapp_nil_r. apply split_without. exact Hw.
    - apply split_app_keep. exact Hw. }
  rewrite Hsplit. unfold au, eh. rewrite (parseAuthority_round_trip user h h' Hok Hh).
  cbn [mbind result_bind].
  destruct (Url.setPath (Url.set_Host h' (Url.set_User user url)) P) as [u'|e] eqn:Hset.
  - destruct (setPath_result _ _ _ _ Hun Hset) as (Hs & Ho & Hu & Hho & Hp & Hq & Hf).
    exists u'. split; [reflexivity|]. rewrite Hs, Ho, Hu, Hho, Hp, Hq, Hf. repeat split.
  - unfold Url.setPath in Hset. rewrite Hun in Hset. cbn [mbind result_bind] in Hset.
    destruct (String.eqb P _); discriminate.
Qed.

Lemma split_query_round_trip (url : Url.URL) (a q : string) (force : bool) :
  without "?" a = true -> Url.RawQuery url = "" ->
  exists url',
    Url.split_query url (a +:+ (if force || negb (Strings.is_empty q) then "?" +:+ q else ""))
    = (a, url')
    /\ Url.Scheme url' = Url.Scheme url /\ Url.Opaque url' = Url.Opaque url
    /\ Url.RawQuery url' = q /\ Url.Fragment url' = Url.Fragment url.
Proof.
  intros Ha Hq0. unfold Url.split_query.
  destruct (force || negb (Strings.is_empty q)) eqn:Hq.
  - change ("?" +:+ q) with (String "?" q).
    destruct (Strings.HasSuffixByte (a +:+ String "?" q) "?"
              && Nat.eqb (Strings.CountByte (a +:+ String "?" q) "?") 1) eqn:Hcond.
    + apply andb_prop in Hcond as [Hsuf Hcount]. apply Nat.eqb_eq in Hcount.
      rewrite CountByte_app, (CountByte_without _ _ Ha) in Hcount.
      cbn [Strings.CountByte] in Hcount. rewrite Ascii.eqb_refl in Hcount.
      assert (Hqw : without "?" q = true) by (apply CountByte_zero; lia).
      rewrite HasSuffixByte_app in Hsuf by discriminate.
      destruct q as [|y q'].
      * exists (Url.set_ForceQuery true url). split; [|cbn; auto].
        rewrite slength_app. cbn [String.length].
        replace (String.length a + 1 - 1) with (String.length a + 0) by lia.
        rewrite take_app_plus. cbn. rewrite sapp_nil_r. reflexivity.
      * change (String "?" (String y q')) with ("?" +:+ String y q') in Hsuf.
        rewrite HasSuffixByte_app in Hsuf by discriminate.
        rewrite (HasSuffixByte_without _ _ Hqw) in Hsuf. discriminate.
    + rewrite (split_app_cut "?" a q Ha). exists (Url.set_RawQuery q url).
      split; [reflexivity|]. cbn. auto.
  - rewrite sapp_nil_r, (HasSuffixByte_without _ _ Ha). cbn [andb].
    rewrite (split_without "?" true a Ha). exists (Url.set_RawQuery "" url).
    split; [reflexivity|]. cbn.
    apply orb_false_iff in Hq as [_ Hq]. apply negb_false_iff, is_empty_true in Hq.
    subst q. auto.
Qed.

(** A URL with a host gives a string that [Parse] reads back as the same
    scheme, user, query and fragment, the host as [Parse] reads it and the
    path with a [/] in front. *)
Lemma Parse_String_round_trip (u : Url.URL) (h' : string) :
  Url.Opaque u = "" -> Url.Host u <> "" ->
  Url.parseHost (Url.escape (Url.Host u) Url.encodeHost) = Ok h' ->
  scheme_ok (Url.Scheme u) = true -> query_ok (Url.RawQuery u) = true ->
  user_ok (Url.User_ u) = true ->
  exists u',
    Url.Parse (Url.URL_String u) = Ok u'
    /\ Url.Scheme u' = Url.Scheme u /\ Url.Opaque u' = ""
    /\ Url.User_ u' = Url.User_ u /\ Url.Host u' = h'
    /\ Url.Path u' = slash_part u +:+ Url.Path u
    /\ Url.RawQuery u' = Url.RawQuery u /\ Url.Fragment u' = Url.Fragment u.
Proof.
  intros Ho Hne Hh' Hs Hq Hu.
  destruct (escaped_host_bytes (Url.Host u)) as (Hhsafe & _ & _ & Hhq).
  destruct (authority_user_bytes (Url.User_ u)) as (Hausafe & _ & Hauq).
  destruct (path_part_ok u) as (Hpsafe & Hpq & Hpform & _).
  pose proof (unescape_path_part u) as Hpun.
  rewrite (URL_String_host u Ho Hne).
  set (eh := Url.escape (Url.Host u) Url.encodeHost) in *.
  set (au := authority_user (Url.User_ u)) in *.
  set (R0 := "//" +:+ au +:+ eh +:+ path_part u).
  assert (HR0safe : Strings.forallb safe_byte R0 = true).
  { unfold R0. rewrite !forallb_app, Hausafe, Hhsafe, Hpsafe. reflexivity. }
  assert (HR0q : without "?" R0 = true).
  { unfold R0, without in *. rewrite !forallb_app, Hauq, Hhq, Hpq. reflexivity. }
  assert (Hqsafe : Strings.forallb safe_byte (query_part u) = true).
  { unfold query_part. destruct (_ || _); [|reflexivity].
    rewrite forallb_app. exact Hq. }
  destruct (scheme_part_getscheme u (au +:+ eh +:+ path_part u +:+ query_part u) Hs)
    as (Hget & Hstar & Hssafe & Hlow).
  assert (Hpre : scheme_part u +:+ "//" +:+ au +:+ eh +:+ path_part u
                   +:+ query_part u +:+ fragment_part u
                 = (scheme_part u +:+ "//" +:+ au +:+ eh +:+ path_part u
                      +:+ query_part u) +:+ fragment_part u).
  { rewrite !sapp_assoc. reflexivity. }
  rewrite Hpre. clear Hpre.
  set (pre := scheme_part u +:+ "//" +:+ au +:+ eh +:+ path_part u +:+ query_part u) in *.
  assert (Hpresafe : Strings.forallb safe_byte pre = true).
  { unfold pre. rewrite forallb_app, Hssafe.
    replace ("//" +:+ au +:+ eh +:+ path_part u +:+ query_part u)
      with (R0 +:+ query_part u) by (unfold R0; rewrite !sapp_assoc; reflexivity).
    rewrite forallb_app, HR0safe, Hqsafe. reflexivity. }
  assert (Hparse : exists u', Url.parse pre = Ok u'
            /\ Url.Scheme u' = Url.Scheme u /\ Url.Opaque u' = ""
            /\ Url.User_ u' = Url.User_ u /\ Url.Host u' = h'
            /\ Url.Path u' = slash_part u +:+ Url.Path u
            /\ Url.RawQuery u' = Url.RawQuery u /\ Url.Fragment u' = "").
  { unfold Url.parse. rewrite (forallb_not_ctl _ Hpresafe), Hstar, Hget.
    cbn [mbind result_bind]. rewrite Hlow.
    replace ("//" +:+ au +:+ eh +:+ path_part u +:+ query_part u)
      with (R0 +:+ query_part u) by (unfold R0; rewrite !sapp_assoc; reflexivity).
    unfold query_part.
    destruct (split_query_round_trip (Url.set_Scheme (Url.Scheme u) Url.emptyURL) R0
                (Url.RawQuery u) (Url.ForceQuery u) HR0q eq_refl)
      as (url' & -> & Hsc & Hop & Hrq & Hfr).
    unfold R0, au, eh.
    destruct (parse_hierarchy_round_trip url' (Url.User_ u) (Url.Host u) h' (path_part u)
                (slash_part u +:+ Url.Path u) Hu Hne Hh' Hpform Hpun)
      as (u' & Hu' & H1 & H2 & H3 & H4 & H5 & H6 & H7).
    exists u'. split; [exact Hu'|].
    rewrite H1, H2, H3, H4, H5, H6, H7, Hsc, Hop, Hrq, Hfr. repeat split. }
  destruct Hparse as (u' & Hparse & H1 & H2 & H3 & H4 & H5 & H6 & H7).
  unfold Url.Parse, fragment_part.
  destruct (negb (Strings.is_empty (Url.Fragment u))) eqn:Hf.
  - change ("#" +:+ Url.escape (Url.Fragment u) Url.encodeFragment)
      with (String "#" (Url.escape (Url.Fragment u) Url.encodeFragment)).
    rewrite (split_app_cut "#" pre _ (forallb_safe_without _ Hpresafe)), Hparse.
    rewrite unescape_escape by reflexivity.
    rewrite escape_is_empty. apply negb_true_iff in Hf. rewrite Hf.
    eexists. split; [reflexivity|]. cbn. auto 10.
  - rewrite sapp_nil_r, (split_without "#" true pre (forallb_safe_without _ Hpresafe)), Hparse.
    cbn [Strings.is_empty]. exists u'. split; [reflexivity|].
    apply negb_false_iff, is_empty_true in Hf. rewrite Hf. auto 10.
Qed.

Lemma HasPrefix_cons (c : ascii) (t : string) :
  Strings.HasPrefix (String c t) "/" = Ascii.eqb c "/".
Proof.
  unfold Strings.HasPrefix.
  change (String.prefix "/" (String c t))
    with (if ascii_dec "/" c then String.prefix "" t else false).
  destruct (ascii_dec "/" c) as [<-|Hne].
  - destruct t; reflexivity.
  - symmetry. apply Ascii.eqb_neq. congruence.
Qed.

Lemma rooted_spec (p : string) : rooted p = true <-> p = "" \/ exists t, p = String "/" t.
Proof.
  unfold rooted. destruct p as [|c t]; cbn [Strings.is_empty orb].
  - split; auto.
  - rewrite HasPrefix_cons. split.
    + intros ->%Ascii.eqb_eq. eauto.
    + intros [?|[t' [= -> _]]]; [discriminate|reflexivity].
Qed.

Lemma IndexByte_drop (c : ascii) (s : string) (i : nat) :
  Strings.IndexByte s c = Some i -> exists t, Strings.drop i s = String c t.
Proof.
  revert i. induction s as [|x s IH]; intros i; [discriminate|]. cbn [Strings.IndexByte].
  destruct (Ascii.eqb x c) eqn:Hx.
  - intros [= <-]. apply Ascii.eqb_eq in Hx. subst x. cbn. eauto.
  - destruct (Strings.IndexByte s c) as [j|]; [|discriminate]. intros [= <-].
    cbn [Strings.drop]. apply IH. reflexivity.
Qed.

Lemma split_keep_rooted (s : string) : rooted (snd (Url.split s "/" false)) = true.
Proof.
  unfold Url.split. destruct (Strings.IndexByte s "/") as [i|] eqn:Hi; cbn [snd].
  - destruct (IndexByte_drop _ _ _ Hi) as [t ->]. apply rooted_spec. eauto.
  - reflexivity.
Qed.

Lemma unescape_rooted (P p : string) :
  rooted P = true -> Url.unescape P Url.encodePath = Ok p -> rooted p = true.
Proof.
  intros [->|[t ->]]%rooted_spec.
  - intros [= <-]. reflexivity.
  - unfold Url.unescape.
    destruct (unescape_check_literal Url.encodePath "/" t eq_refl eq_refl) as [-> ->].
    destruct (Url.unescape_check t Url.encodePath); [discriminate|].
    intros [= <-]. apply rooted_spec. eauto.
Qed.

Lemma parseAuthority_user_ok (authority : string) (user : option Url.Userinfo) (h : string) :
  Url.parseAuthority authority = Ok (user, h) -> user_ok user = true.
Proof.
  unfold Url.parseAuthority.
  destruct (Strings.LastIndexByte authority "@") as [i|].
  - destruct (Url.parseHost _) as [host|e]; [|discriminate]. cbn [mbind result_bind].
    destruct (negb (Url.validUserinfo _)); [discriminate|].
    destruct (negb (Strings.Contains _ ":")).
    + destruct (Url.unescape _ _) as [x|e]; [|discriminate]. intros [= <- _]. reflexivity.
    + destruct (Url.split _ ":" true) as [x y].
      destruct (Url.unescape x _) as [x'|e]; [|discriminate]. cbn [mbind result_bind].
      destruct (Url.unescape y _) as [y'|e]; [|discriminate]. intros [= <- _]. reflexivity.
  - destruct (Url.parseHost _) as [host|e]; [|discriminate]. intros [= <- _]. reflexivity.
Qed.

Lemma setPath_shape (u u' : Url.URL) (P : string) :
  user_ok (Url.User_ u) = true -> rooted P = true ->
  Url.setPath u P = Ok u' -> shape_ok u'.
Proof.
  intros Hu HP. unfold Url.setPath.
  destruct (Url.unescape P Url.encodePath) as [p|e] eqn:Hun; [|discriminate].
  pose proof (unescape_rooted _ _ HP Hun) as Hp. cbn [mbind result_bind].
  destruct (String.eqb P _); intros [= <-]; split; cbn; auto.
Qed.

Lemma setPath_host (u u' : Url.URL) (P : string) :
  Url.setPath u P = Ok u' -> Url.Host u' = Url.Host u /\ Url.User_ u' = Url.User_ u.
Proof.
  unfold Url.setPath. destruct (Url.unescape P Url.encodePath) as [p|e]; [|discriminate].
  cbn [mbind result_bind]. destruct (String.eqb P _); intros [= <-]; split; reflexivity.
Qed.

Lemma parse_hierarchy_shape (url u : Url.URL) (rest : string) :
  Url.Host url = "" -> Url.User_ url = None ->
  Url.parse_hierarchy url rest = Ok u -> shape_ok u.
Proof.
  intros Hh Hu. unfold Url.parse_hierarchy.
  destruct (negb (Strings.HasPrefix rest "/") && negb (Strings.is_empty (Url.Scheme url))).
  { intros [= <-]. split; cbn; [rewrite Hu; reflexivity|]. intros H. done. }
  destruct (negb (Strings.HasPrefix rest "/") && _); [discriminate|].
  destruct ((negb (Strings.is_empty (Url.Scheme url)) || negb (Strings.HasPrefix rest "///"))
            && Strings.HasPrefix rest "//").
  - pose proof (split_keep_rooted (Strings.drop 2 rest)) as Hroot.
    destruct (Url.split (Strings.drop 2 rest) "/" false) as [authority rest'].
    cbn [snd] in Hroot.
    destruct (Url.parseAuthority authority) as [[user host]|e] eqn:Hauth; [|discriminate].
    cbn [mbind result_bind]. apply setPath_shape; [|exact Hroot].
    cbn. exact (parseAuthority_user_ok _ _ _ Hauth).
  - cbn [mbind result_bind]. intros H. destruct (setPath_host _ _ _ H) as [Hh' Hu'].
    split; [rewrite Hu', Hu; reflexivity|]. rewrite Hh', Hh. intros ?; done.
Qed.

Lemma split_query_host (url : Url.URL) (rest : string) :
  Url.Host (snd (Url.split_query url rest)) = Url.Host url
  /\ Url.User_ (snd (Url.split_query url rest)) = Url.User_ url.
Proof.
  unfold Url.split_query. destruct (Strings.HasSuffixByte rest "?" && _); [split; reflexivity|].
  destruct (Url.split rest "?" true). split; reflexivity.
Qed.

Lemma parse_shape (pre : string) (u : Url.URL) : Url.parse pre = Ok u -> shape_ok u.
Proof.
  unfold Url.parse. destruct (Url.stringContainsCTLByte pre); [discriminate|].
  destruct (String.eqb pre "*").
  { intros [= <-]. split; [reflexivity|]. intros H; cbn in H; done. }
  destruct (Url.getscheme pre) as [[scheme rest]|e]; [|discriminate].
  cbn [mbind result_bind].
  pose proof (split_query_host (Url.set_Scheme (Strings.ToLower scheme) Url.emptyURL) rest)
    as [Hh Hu].
  destruct (Url.split_query _ rest) as [rest' url']. cbn [snd] in Hh, Hu.
  apply parse_hierarchy_shape; assumption.
Qed.

Lemma Parse_shape (rawurl : string) (u : Url.URL) : Url.Parse rawurl = Ok u -> shape_ok u.
Proof.
  unfold Url.Parse. destruct (Url.split rawurl "#" true) as [pre frag].
  destruct (Url.parse pre) as [url|e] eqn:Hparse; [|discriminate].
  pose proof (parse_shape _ _ Hparse) as Hurl.
  destruct (Strings.is_empty frag).
  - intros [= <-]. exact Hurl.
  - destruct (Url.unescape frag Url.encodeFragment); [|discriminate].
    intros [= <-]. exact Hurl.
Qed.

(** ** The slash in front of the path *)

Lemma escape_path_prefix (p : string) :
  Strings.HasPrefix (Url.escape p Url.encodePath) "/" = Strings.HasPrefix p "/".
Proof.
  destruct p as [|c p]; [reflexivity|]. rewrite escape_cons.
  cbn [Url.encoding_eqb]. rewrite andb_false_r.
  destruct (Url.shouldEscape c Url.encodePath) eqn:Hesc; [|rewrite !HasPrefix_cons; reflexivity].
  rewrite !HasPrefix_cons. symmetry. apply Ascii.eqb_neq. intros ->. discriminate Hesc.
Qed.

Lemma slash_part_rooted (u : Url.URL) :
  rooted (Url.RawPath u) = true ->
  slash_part u = if rooted (Url.Path u) then "" else "/".
Proof.
  intros Hraw.
  assert (Hfall : forall path,
             path = (if String.eqb (Url.Path u) "*" then "*"
                     else Url.escape (Url.Path u) Url.encodePath) ->
             (if negb (Strings.is_empty path) && negb (Strings.HasPrefix path "/")
              then "/" else "")
             = if rooted (Url.Path u) then "" else "/").
  { intros path ->. destruct (String.eqb (Url.Path u) "*") eqn:Hstar.
    - apply String.eqb_eq in Hstar. rewrite Hstar. reflexivity.
    - rewrite escape_is_empty, escape_path_prefix. unfold rooted.
      destruct (Strings.is_empty (Url.Path u)); [reflexivity|].
      destruct (Strings.HasPrefix (Url.Path u) "/"); reflexivity. }
  unfold slash_part, Url.EscapedPath.
  destruct (negb (Strings.is_empty (Url.RawPath u)) && Url.validEncodedPath (Url.RawPath u))
    eqn:Hcond; [|apply Hfall; reflexivity].
  destruct (Url.unescape (Url.RawPath u) Url.encodePath) as [p|e] eqn:Hun;
    [|apply Hfall; reflexivity].
  destruct (String.eqb p (Url.Path u)) eqn:Hp; [|apply Hfall; reflexivity].
  apply String.eqb_eq in Hp. subst p.
  rewrite (unescape_rooted _ _ Hraw Hun).
  apply andb_prop in Hcond as [Hne _]. rewrite Hne. cbn [andb].
  unfold rooted in Hraw. apply negb_true_iff in Hne. rewrite Hne in Hraw. cbn [orb] in Hraw.
  rewrite Hraw. reflexivity.
Qed.

(** ** The query read back *)

Lemma query_component_byte_facts (c : ascii) :
  escaped_byte Url.encodeQueryComponent c = true ->
  field_byte c = true /\ negb (Ascii.eqb c "=") = true.
Proof.
  intros H. byte_cases c;
    try (vm_compute in H; discriminate H); split; reflexivity.
Qed.

Lemma QueryEscape_bytes (s : string) :
  Strings.forallb field_byte (Url.QueryEscape s) = true
  /\ without "=" (Url.QueryEscape s) = true.
Proof.
  pose proof (escape_bytes Url.encodeQueryComponent s) as H. unfold Url.QueryEscape.
  split; (eapply forallb_impl; [|exact H]); intros c Hc;
    destruct (query_component_byte_facts c Hc); assumption.
Qed.

Lemma query_fields_cons (c : ascii) (r : string) :
  Url.query_fields (String c r)
  = if Bytes.one_of "&;" c then "" :: Url.query_fields r
    else match Url.query_fields r with
         | f :: fs => String c f :: fs
         | [] => [String c ""]
         end.
Proof. reflexivity. Qed.

Lemma query_fields_field (f : string) :
  Strings.forallb field_byte f = true -> Url.query_fields f = [f].
Proof.
  induction f as [|c f IH]; [reflexivity|]. rewrite forallb_cons.
  intros [Hc Hf]%andb_prop. rewrite query_fields_cons, (IH Hf).
  unfold field_byte in Hc. apply negb_true_iff in Hc. rewrite Hc. reflexivity.
Qed.

Lemma query_fields_nonempty (x : string) : Url.query_fields x <> [].
Proof.
  destruct x as [|c x]; [discriminate|]. rewrite query_fields_cons.
  destruct (Bytes.one_of "&;" c); [discriminate|].
  destruct (Url.query_fields x); discriminate.
Qed.

Lemma query_fields_app (x y : string) :
  Url.query_fields (x +:+ String "&" y) = Url.query_fields x ++ Url.query_fields y.
Proof.
  induction x as [|c x IH]; [reflexivity|]. rewrite sapp_cons, !query_fields_cons, IH.
  destruct (Bytes.one_of "&;" c); [reflexivity|].
  pose proof (query_fields_nonempty x) as Hne.
  destruct (Url.query_fields x); [done|reflexivity].
Qed.

Lemma ParseQuery_empty : Url.ParseQuery "" = (∅, None).
Proof. reflexivity. Qed.

(** One more piece at the end of a query is one more turn of the loop. *)
Lemma ParseQuery_append (buf f : string) :
  Strings.forallb field_byte f = true ->
  Url.ParseQuery ((if Strings.is_empty buf then buf else buf +:+ "&") +:+ f)
  = Url.parseQuery_step (Url.ParseQuery buf) f.
Proof.
  intros Hf. unfold Url.ParseQuery. destruct buf as [|c buf].
  - cbn [Strings.is_empty]. rewrite sapp_nil_l, (query_fields_field f Hf). reflexivity.
  - cbn [Strings.is_empty]. rewrite sapp_assoc.
    change ("&" +:+ f) with (String "&" f).
    rewrite query_fields_app, (query_fields_field f Hf), fold_left_app. reflexivity.
Qed.

Lemma parseQuery_step_pair (m : Url.Values) (k val : string) :
  Url.parseQuery_step (m, None) (Url.QueryEscape k +:+ "=" +:+ Url.QueryEscape val)
  = (<[k := default [] (m !! k) ++ [val]]> m, None).
Proof.
  destruct (QueryEscape_bytes k) as [_ Hk].
  unfold Url.parseQuery_step.
  change ("=" +:+ Url.QueryEscape val) with (String "=" (Url.QueryEscape val)).
  rewrite is_empty_app. cbn [Strings.is_empty]. rewrite andb_false_r.
  rewrite (IndexByte_app "=" _ _ Hk), take_app_length, drop_S_app.
  unfold Url.QueryUnescape, Url.QueryEscape.
  rewrite !unescape_escape by reflexivity. reflexivity.
Qed.

Lemma pair_field (k val : string) :
  Strings.forallb field_byte (Url.QueryEscape k +:+ "=" +:+ Url.QueryEscape val) = true.
Proof.
  destruct (QueryEscape_bytes k) as [Hk _]. destruct (QueryEscape_bytes val) as [Hv _].
  rewrite !forallb_app, Hk, Hv. reflexivity.
Qed.

Lemma encode_key_parse (v : Url.Values) (buf k : string) (m : Url.Values) :
  Url.ParseQuery buf = (m, None) -> m !! k = None ->
  Url.ParseQuery (Url.encode_key v buf k)
  = (match values_of v k with Some l => <[k := l]> m | None => m end, None).
Proof.
  intros Hbuf Hk. unfold Url.encode_key, values_of.
  assert (Hgen : forall vals done buf m,
             Url.ParseQuery buf = (m, None) -> default [] (m !! k) = done ->
             Url.ParseQuery
               (fold_left
                  (fun buf val =>
                     (if Strings.is_empty buf then buf else buf +:+ "&")
                       +:+ Url.QueryEscape k +:+ "=" +:+ Url.QueryEscape val) vals buf)
             = (match vals with [] => m | _ => <[k := done ++ vals]> m end, None)).
  { clear. induction vals as [|x vs IH]; intros done buf m Hbuf Hdone; [exact Hbuf|].
    cbn [fold_left].
    pose proof (ParseQuery_append buf _ (pair_field k x)) as Hstep.
    rewrite Hbuf, parseQuery_step_pair, Hdone in Hstep.
    rewrite (IH (done ++ [x]) _ _ Hstep) by (rewrite lookup_insert_eq; reflexivity).
    destruct vs as [|y vs]; [reflexivity|].
    rewrite insert_insert_eq, <- app_assoc. reflexivity. }
  rewrite (Hgen (default [] (v !! k)) [] buf m Hbuf) by (rewrite Hk; reflexivity).
  destruct (v !! k) as [[|x l]|]; reflexivity.
Qed.

Lemma encode_keys_parse (v : Url.Values) (keys : list string) :
  NoDup keys ->
  forall (buf : string) (m : Url.Values),
    Url.ParseQuery buf = (m, None) -> (forall k, k ∈ keys -> m !! k = None) ->
    exists m',
      Url.ParseQuery (fold_left (Url.encode_key v) keys buf) = (m', None)
      /\ forall key, m' !! key = if decide (key ∈ keys) then values_of v key else m !! key.
Proof.
  induction 1 as [|k ks Hk Hnd IH]; intros buf m Hbuf Hnone.
  - exists m. split; [exact Hbuf|]. intros key. rewrite decide_False; [reflexivity|].
    apply not_elem_of_nil.
  - cbn [fold_left].
    pose proof (encode_key_parse v buf k m Hbuf (Hnone k (list_elem_of_here _ _))) as Hstep.
    destruct (IH _ _ Hstep) as (m' & Hm' & Hlook).
    { intros k' Hk'. assert (k <> k') by (intros ->; contradiction).
      destruct (values_of v k); [rewrite lookup_insert_ne by assumption|];
        apply Hnone; apply list_elem_of_further; exact Hk'. }
    exists m'. split; [exact Hm'|]. intros key. rewrite Hlook.
    destruct (decide (key ∈ ks)) as [Hin|Hnin].
    + rewrite decide_True; [reflexivity|]. apply list_elem_of_further. exact Hin.
    + destruct (decide (key = k)) as [->|Hne].
      * rewrite decide_True by apply list_elem_of_here.
        destruct (values_of v k); [apply lookup_insert_eq|]. apply Hnone, list_elem_of_here.
      * rewrite decide_False.
        -- destruct (values_of v k); [rewrite lookup_insert_ne by congruence|]; reflexivity.
        -- intros [->|?]%elem_of_cons; contradiction.
Qed.

(** [ParseQuery] reads back what [Encode] writes: the keys that have a
    value, each with its values. *)
Lemma ParseQuery_Encode (v : Url.Values) :
  exists m, Url.ParseQuery (Url.Values_Encode v) = (m, None)
            /\ forall key, m !! key = values_of v key.
Proof.
  unfold Url.Values_Encode.
  assert (Hperm : Url.sorted_keys v ≡ₚ (map_to_list v).*1).
  { unfold Url.sorted_keys. apply merge_sort_Permutation. }
  assert (Hnd : NoDup (Url.sorted_keys v)).
  { rewrite Hperm. apply NoDup_fst_map_to_list. }
  destruct (encode_keys_parse v _ Hnd "" ∅ ParseQuery_empty) as (m & Hm & Hlook).
  { intros k _. apply lookup_empty. }
  exists m. split; [exact Hm|]. intros key. rewrite Hlook.
  destruct (decide (key ∈ Url.sorted_keys v)) as [Hin|Hnin]; [reflexivity|].
  rewrite lookup_empty. unfold values_of.
  destruct (v !! key) as [l|] eqn:Hv; [|reflexivity].
  exfalso. apply Hnin. rewrite Hperm. apply list_elem_of_fmap.
  exists (key, l). split; [reflexivity|]. apply elem_of_map_to_list. exact Hv.
Qed.

Lemma ParseQuery_Encode_nonempty (v : Url.Values) :
  (forall key, v !! key <> Some []) ->
  Url.ParseQuery (Url.Values_Encode v) = (v, None).
Proof.
  intros Hne. destruct (ParseQuery_Encode v) as (m & Hm & Hlook). rewrite Hm. f_equal.
  apply map_eq. intros key. rewrite Hlook. unfold values_of.
  specialize (Hne key). destruct (v !! key) as [[|x l]|]; try reflexivity. done.
Qed.

Lemma parseQuery_step_nonempty (st : Url.Values * option error) (f : string) :
  (forall key, st.1 !! key <> Some []) ->
  forall key, (Url.parseQuery_step st f).1 !! key <> Some [].
Proof.
  intros Hst. unfold Url.parseQuery_step. destruct st as [m err]. cbn [fst] in Hst.
  destruct (Strings.is_empty f); [exact Hst|].
  destruct (match Strings.IndexByte f "=" with Some i => _ | None => _ end) as [k val].
  destruct (Url.QueryUnescape k) as [k'|e]; [|exact Hst].
  destruct (Url.QueryUnescape val) as [val'|e]; [|exact Hst].
  intros key. cbn [fst]. destruct (decide (k' = key)) as [->|Hne].
  - rewrite lookup_insert_eq. intros [= H]. destruct (default [] (m !! key)); discriminate.
  - rewrite lookup_insert_ne by exact Hne. apply Hst.
Qed.

Lemma ParseQuery_nonempty (query key : string) : (Url.ParseQuery query).1 !! key <> Some [].
Proof.
  unfold Url.ParseQuery. revert key.
  assert (H : forall key : string, (∅ : Url.Values, @None error).1 !! key <> Some [])
    by (intros key; cbn; rewrite lookup_empty; discriminate).
  revert H. generalize (∅ : Url.Values, @None error).
  induction (Url.query_fields query) as [|f fs IH]; intros st Hst; [exact Hst|].
  cbn [fold_left]. apply IH. apply parseQuery_step_nonempty. exact Hst.
Qed.

Lemma set_options_nonempty (options : gmap string Json.iface) (q : Url.Values) :
  (forall key, q !! key <> Some []) ->
  forall key, set_options options q !! key <> Some [].
Proof.
  intros Hq key. rewrite set_options_lookup. unfold merged_value.
  destruct (options !! key) as [[| | | | |]|]; try discriminate; apply Hq.
Qed.

(** The URL [buildConnectionString] turns into a string, field by field. *)
Lemma buildConnectionString_url (params : ConnectionStringParams) (cluster : Atlas.Cluster)
    (bindingID password : string) (u0 : Url.URL) :
  Url.Parse (if String.eqb (Format params) "standard"
             then Atlas.MongoURIWithOptions cluster
             else Atlas.SrvAddress cluster) = Ok u0 ->
  exists u,
    buildConnectionString (Some params) cluster bindingID password = Ret (Url.URL_String u)
    /\ Url.Scheme u = Url.Scheme u0 /\ Url.Opaque u = Url.Opaque u0
    /\ Url.Host u = Url.Host u0 /\ Url.RawPath u = Url.RawPath u0
    /\ Url.Fragment u = Url.Fragment u0 /\ Url.ForceQuery u = Url.ForceQuery u0
    /\ Url.User_ u = (if SkipCredentials params then Url.User_ u0
                      else Some (Url.UserPassword bindingID password))
    /\ Url.Path u
       = (if Strings.is_empty (Database params)
          then if Nat.ltb 0 (map_len (Options params)) && Strings.is_empty (Url.Path u0)
               then "/" else Url.Path u0
          else Database params)
    /\ Url.RawQuery u
       = (if Nat.ltb 0 (map_len (Options params))
          then Url.Values_Encode (set_options (default ∅ (Options params)) (Url.URL_Query u0))
          else Url.RawQuery u0).
Proof.
  intros Hparse. unfold buildConnectionString. rewrite Hparse.
  eexists. split; [reflexivity|].
  destruct u0 as [sch op us ho pa rp fq rq fr].
  destruct (SkipCredentials params); cbn [negb];
    destruct (Database params) as [|c d];
    cbn [String.length Nat.ltb Nat.leb Strings.is_empty];
    destruct (match map_len (Options params) with 0 => false | S _ => true end) eqn:Hopt;
    cbn [Url.set_User Url.set_Path Url.set_RawQuery Url.Scheme Url.Opaque Url.User_ Url.Host
         Url.Path Url.RawPath Url.ForceQuery Url.RawQuery Url.Fragment String.length Nat.eqb
         andb];
    try (repeat split; reflexivity);
    destruct pa; repeat split; reflexivity.
Qed.

Lemma regular_host_spec (h : string) :
  regular_host h = true ->
  h <> "" /\ Url.parseHost (Url.escape h Url.encodeHost) = Ok h.
Proof.
  intros H. destruct (regular_host_parse h H) as (Hp & He & _ & Hne).
  rewrite He. auto.
Qed.

(** The string of the URL that [buildConnectionString] builds is parsed
    back: what [Parse] reads. *)
Lemma buildConnectionString_parsed (params : ConnectionStringParams) (cluster : Atlas.Cluster)
    (bindingID password : string) (u0 : Url.URL) (h' : string) :
  Url.Parse (if String.eqb (Format params) "standard"
             then Atlas.MongoURIWithOptions cluster
             else Atlas.SrvAddress cluster) = Ok u0 ->
  Url.Host u0 <> "" -> Url.parseHost (Url.escape (Url.Host u0) Url.encodeHost) = Ok h' ->
  exists connectionString u',
    buildConnectionString (Some params) cluster bindingID password = Ret connectionString
    /\ Url.Parse connectionString = Ok u'
    /\ Url.Scheme u' = Url.Scheme u0 /\ Url.Opaque u' = "" /\ Url.Host u' = h'
    /\ Url.Fragment u' = Url.Fragment u0
    /\ Url.User_ u' = (if SkipCredentials params then Url.User_ u0
                       else Some (Url.UserPassword bindingID password))
    /\ Url.Path u'
       = (if Strings.is_empty (Database params)
          then if Nat.ltb 0 (map_len (Options params)) && Strings.is_empty (Url.Path u0)
               then "/" else Url.Path u0
          else database_path (Database params))
    /\ Url.RawQuery u'
       = (if Nat.ltb 0 (map_len (Options params))
          then Url.Values_Encode (set_options (default ∅ (Options params)) (Url.URL_Query u0))
          else Url.RawQuery u0).
Proof.
  intros Hparse Hne Hh'.
  destruct (Parse_fields _ _ Hparse) as (Hs0 & Hq0 & Ho0). specialize (Ho0 Hne).
  destruct (Parse_shape _ _ Hparse) as (Hu0 & Hroot). destruct (Hroot Hne) as [Hp0 Hrp0].
  destruct (buildConnectionString_url params cluster bindingID password u0 Hparse)
    as (u & Hbuild & Hs & Ho & Hh & Hrp & Hf & _ & Hu & Hp & Hq).
  destruct (Parse_String_round_trip u h') as (u' & Hu' & H1 & H2 & H3 & H4 & H5 & H6 & H7).
  - rewrite Ho. exact Ho0.
  - rewrite Hh. exact Hne.
  - rewrite Hh. exact Hh'.
  - rewrite Hs. exact Hs0.
  - rewrite Hq. destruct (Nat.ltb 0 (map_len (Options params)));
      [apply Values_Encode_safe|exact Hq0].
  - rewrite Hu. destruct (SkipCredentials params); [exact Hu0|reflexivity].
  - exists (Url.URL_String u), u'. split; [exact Hbuild|]. split; [exact Hu'|].
    rewrite H1, H2, H3, H4, H6, H7, Hs, Hf, Hu, Hq. repeat split.
    rewrite H5, slash_part_rooted by (rewrite Hrp; exact Hrp0). rewrite Hp.
    destruct (Database params) as [|c d] eqn:Hdb; cbn [Strings.is_empty].
    + destruct (Nat.ltb 0 (map_len (Options params))); cbn [andb];
        [destruct (Strings.is_empty (Url.Path u0)); [reflexivity|]|];
        rewrite Hp0; reflexivity.
    + unfold database_path, rooted. cbn [Strings.is_empty orb].
      destruct (Strings.HasPrefix (String c d) "/"); reflexivity.
Qed.

Lemma URL_String_opaque (u : Url.URL) :
  Url.Opaque u <> "" ->
  Url.URL_String u = scheme_part u +:+ Url.Opaque u +:+ query_part u +:+ fragment_part u.
Proof.
  intros Ho. apply is_empty_false in Ho.
  unfold Url.URL_String, scheme_part, query_part, fragment_part. rewrite Ho. cbn [negb].
  destruct (Url.ForceQuery u || negb (Strings.is_empty (Url.RawQuery u)));
    destruct (negb (Strings.is_empty (Url.Fragment u)));
    rewrite ?sapp_assoc, ?sapp_nil_r; reflexivity.
Qed.

(** ** The options merged into the query *)




(** ** What a client reads from the connection string *)

(** X1.  The connection string names the server of the cluster address:
    when the address is accepted by [Parse] with a host that is a name or a
    list of names with an optional port, the string [buildConnectionString]
    returns is accepted by [Parse] and has the scheme, the host and the
    fragment of the address; its user is the binding ID with the password,
    or, when the credentials are skipped, the user of the address. *)
Theorem X1_connection_string_names_the_server_of_the_address
    (params : ConnectionStringParams) (cluster : Atlas.Cluster) (bindingID password : string)
    (u0 : Url.URL) :
  Url.Parse (if String.eqb (Format params) "standard"
             then Atlas.MongoURIWithOptions cluster
             else Atlas.SrvAddress cluster) = Ok u0 ->
  regular_host (Url.Host u0) = true ->
  exists connectionString u,
    buildConnectionString (Some params) cluster bindingID password = Ret connectionString
    /\ Url.Parse connectionString = Ok u
    /\ Url.Scheme u = Url.Scheme u0 /\ Url.Host u = Url.Host u0
    /\ Url.Fragment u = Url.Fragment u0 /\ Url.Opaque u = ""
    /\ Url.User_ u = (if SkipCredentials params then Url.User_ u0
                      else Some (Url.UserPassword bindingID password)).
Proof.
  intros Hparse Hhost. destruct (regular_host_spec _ Hhost) as [Hne Hh].
  destruct (buildConnectionString_parsed params cluster bindingID password u0 _ Hparse Hne Hh)
    as (cs & u & Hb & Hu & H1 & H2 & H3 & H4 & H5 & _).
  exists cs, u. auto 10.
Qed.

Lemma X1_names_the_server_witness :
  exists connectionString u,
    buildConnectionString
      (Some {| SkipCredentials := true; Database := "app"; Options := None;
               Format := "standard" |})
      (example_cluster "mongodb+srv://c0.example.net" "IDLE") "b1" "S" = Ret connectionString
    /\ Url.Parse connectionString = Ok u
    /\ Url.Scheme u = "mongodb" /\ Url.Host u = "host1,host2"
    /\ Url.Fragment u = "" /\ Url.Opaque u = ""
    /\ Url.User_ u = None.
Proof.
  exact (X1_connection_string_names_the_server_of_the_address
           {| SkipCredentials := true; Database := "app"; Options := None;
              Format := "standard" |}
           (example_cluster "mongodb+srv://c0.example.net" "IDLE") "b1" "S"
           {| Url.Scheme := "mongodb"; Url.Opaque := ""; Url.User_ := None;
              Url.Host := "host1,host2"; Url.Path := "/"; Url.RawPath := "";
              Url.ForceQuery := false; Url.RawQuery := "ssl=true"; Url.Fragment := "" |}
           eq_refl eq_refl).
Defined.

(** X2.  A database name is read back from the connection string: when a
    database is given, the path [Parse] reads from the connection string is
    the database name, with a [/] in front when it has none, whatever bytes
    the name is made of and whatever path the cluster address has. *)
Theorem X2_database_is_read_back_as_the_path
    (params : ConnectionStringParams) (cluster : Atlas.Cluster) (bindingID password : string)
    (u0 : Url.URL) :
  Database params <> "" ->
  Url.Parse (if String.eqb (Format params) "standard"
             then Atlas.MongoURIWithOptions cluster
             else Atlas.SrvAddress cluster) = Ok u0 ->
  host_parses_back (Url.Host u0) = true ->
  exists connectionString u,
    buildConnectionString (Some params) cluster bindingID password = Ret connectionString
    /\ Url.Parse connectionString = Ok u
    /\ Url.Path u = (if Strings.HasPrefix (Database params) "/" then Database params
                     else "/" +:+ Database params).
Proof.
  intros Hdb Hparse Hhost. destruct (host_parses_back_spec _ Hhost) as (Hne & h' & Hh).
  destruct (buildConnectionString_parsed params cluster bindingID password u0 _ Hparse Hne Hh)
    as (cs & u & Hb & Hu & _ & _ & _ & _ & _ & Hp & _).
  exists cs, u. split; [exact Hb|]. split; [exact Hu|].
  rewrite Hp. apply is_empty_false in Hdb. rewrite Hdb. reflexivity.
Qed.

Lemma X2_database_witness :
  exists connectionString u,
    buildConnectionString
      (Some {| SkipCredentials := false; Database := "a b?c#d"; Options := None;
               Format := "" |})
      (example_cluster "mongodb+srv://c0.example.net/test" "IDLE") "b1" "S"
    = Ret connectionString
    /\ Url.Parse connectionString = Ok u
    /\ Url.Path u = "/a b?c#d".
Proof.
  exact (X2_database_is_read_back_as_the_path
           {| SkipCredentials := false; Database := "a b?c#d"; Options := None; Format := "" |}
           (example_cluster "mongodb+srv://c0.example.net/test" "IDLE") "b1" "S"
           {| Url.Scheme := "mongodb+srv"; Url.Opaque := ""; Url.User_ := None;
              Url.Host := "c0.example.net"; Url.Path := "/test"; Url.RawPath := "";
              Url.ForceQuery := false; Url.RawQuery := ""; Url.Fragment := "" |}
           ltac:(discriminate) eq_refl eq_refl).
Defined.

(** X3.  The options are read back from the connection string: with a
    non-empty options map and a cluster address that [Parse] accepts with a
    host that is not empty and that [Parse] accepts back, the query [Parse]
    reads from the connection string decodes ([ParseQuery]) without an
    error to the query of the cluster address with the options set in it;
    so each key has the one value of its option (the string, the integer
    text of the number, [true] or [false]), and a key that is no option, or
    whose option is of another type, has the values it has in the
    address. *)
Theorem X3_options_are_read_back_from_the_query
    (params : ConnectionStringParams) (cluster : Atlas.Cluster) (bindingID password : string)
    (options : gmap string Json.iface) (u0 : Url.URL) :
  Options params = Some options -> options <> ∅ ->
  Url.Parse (if String.eqb (Format params) "standard"
             then Atlas.MongoURIWithOptions cluster
             else Atlas.SrvAddress cluster) = Ok u0 ->
  host_parses_back (Url.Host u0) = true ->
  exists connectionString u,
    buildConnectionString (Some params) cluster bindingID password = Ret connectionString
    /\ Url.Parse connectionString = Ok u
    /\ Url.ParseQuery (Url.RawQuery u) = (set_options options (Url.URL_Query u0), None)
    /\ forall key, Url.URL_Query u !! key = merged_value options (Url.URL_Query u0) key.
Proof.
  intros Hopt Hne0 Hparse Hhost. destruct (host_parses_back_spec _ Hhost) as (Hne & h' & Hh).
  destruct (buildConnectionString_parsed params cluster bindingID password u0 _ Hparse Hne Hh)
    as (cs & u & Hb & Hu & _ & _ & _ & _ & _ & _ & Hq).
  rewrite Hopt in Hq. cbn [map_len default] in Hq.
  apply size_pos_nonempty in Hne0. rewrite Hne0 in Hq.
  assert (Hback : Url.ParseQuery (Url.RawQuery u)
                  = (set_options options (Url.URL_Query u0), None)).
  { rewrite Hq. apply ParseQuery_Encode_nonempty, set_options_nonempty.
    intros key. apply ParseQuery_nonempty. }
  exists cs, u. split; [exact Hb|]. split; [exact Hu|]. split; [exact Hback|].
  intros key. unfold Url.URL_Query at 1. rewrite Hback. apply set_options_lookup.
Qed.

Lemma X3_options_witness :
  exists connectionString u,
    buildConnectionString
      (Some {| SkipCredentials := false; Database := "";
               Options := Some (<[ "w" := Json.IString "a b&c" ]>
                                  {[ "ssl" := Json.IBool false ]});
               Format := "standard" |})
      (example_cluster "mongodb+srv://c0.example.net" "IDLE") "b1" "S" = Ret connectionString
    /\ Url.Parse connectionString = Ok u
    /\ Url.URL_Query u !! "w" = Some ["a b&c"]
    /\ Url.URL_Query u !! "ssl" = Some ["false"].
Proof.
  destruct (X3_options_are_read_back_from_the_query
              {| SkipCredentials := false; Database := "";
                 Options := Some (<[ "w" := Json.IString "a b&c" ]>
                                    {[ "ssl" := Json.IBool false ]});
                 Format := "standard" |}
              (example_cluster "mongodb+srv://c0.example.net" "IDLE") "b1" "S"
              (<[ "w" := Json.IString "a b&c" ]> {[ "ssl" := Json.IBool false ]})
              {| Url.Scheme := "mongodb"; Url.Opaque := ""; Url.User_ := None;
                 Url.Host := "host1,host2"; Url.Path := "/"; Url.RawPath := "";
                 Url.ForceQuery := false; Url.RawQuery := "ssl=true"; Url.Fragment := "" |})
    as (cs & u & Hb & Hu & _ & Hkeys).
  - reflexivity.
  - intros H. discriminate (f_equal (fun m => m !! "w") H).
  - vm_compute. reflexivity.
  - vm_compute. reflexivity.
  - exists cs, u. split; [exact Hb|]. split; [exact Hu|].
    split; rewrite Hkeys; vm_compute; reflexivity.
Defined.

(** X4.  Without a database and without options the path and the query of
    the cluster address go into the connection string as they are: when
    [Parse] accepts the address with a host that is not empty and that it
    accepts back, it reads the same path and the same raw query from the
    address and from the connection string. *)
Theorem X4_path_and_query_of_the_address_are_kept
    (params : ConnectionStringParams) (cluster : Atlas.Cluster) (bindingID password : string)
    (u0 : Url.URL) :
  Database params = "" -> map_len (Options params) = 0 ->
  Url.Parse (if String.eqb (Format params) "standard"
             then Atlas.MongoURIWithOptions cluster
             else Atlas.SrvAddress cluster) = Ok u0 ->
  host_parses_back (Url.Host u0) = true ->
  exists connectionString u,
    buildConnectionString (Some params) cluster bindingID password = Ret connectionString
    /\ Url.Parse connectionString = Ok u
    /\ Url.Path u = Url.Path u0 /\ Url.RawQuery u = Url.RawQuery u0.
Proof.
  intros Hdb Hopt Hparse Hhost. destruct (host_parses_back_spec _ Hhost) as (Hne & h' & Hh).
  destruct (buildConnectionString_parsed params cluster bindingID password u0 _ Hparse Hne Hh)
    as (cs & u & Hb & Hu & _ & _ & _ & _ & _ & Hp & Hq).
  exists cs, u. split; [exact Hb|]. split; [exact Hu|].
  rewrite Hp, Hq, Hdb, Hopt. split; reflexivity.
Qed.

Lemma X4_kept_witness :
  exists connectionString u,
    buildConnectionString
      (Some {| SkipCredentials := false; Database := ""; Options := Some ∅;
               Format := "standard" |})
      (example_cluster "mongodb+srv://c0.example.net" "IDLE") "b1" "S" = Ret connectionString
    /\ Url.Parse connectionString = Ok u
    /\ Url.Path u = "/" /\ Url.RawQuery u = "ssl=true".
Proof.
  exact (X4_path_and_query_of_the_address_are_kept
           {| SkipCredentials := false; Database := ""; Options := Some ∅;
              Format := "standard" |}
           (example_cluster "mongodb+srv://c0.example.net" "IDLE") "b1" "S"
           {| Url.Scheme := "mongodb"; Url.Opaque := ""; Url.User_ := None;
              Url.Host := "host1,host2"; Url.Path := "/"; Url.RawPath := "";
              Url.ForceQuery := false; Url.RawQuery := "ssl=true"; Url.Fragment := "" |}
           eq_refl eq_refl eq_refl eq_refl).
Defined.

(** X5.  An address without [//] after its scheme, such as
    [c0.example.net:27017], is opaque to [Parse]; for such an address the
    connection string is the address again, with the encoded options as its
    query when there are some: neither the binding ID, nor the password, nor
    the database goes into it, also when the credentials are not skipped. *)
Theorem X5_opaque_address_gets_no_credentials
    (params : ConnectionStringParams) (cluster : Atlas.Cluster) (bindingID password : string)
    (u0 : Url.URL) :
  Url.Parse (if String.eqb (Format params) "standard"
             then Atlas.MongoURIWithOptions cluster
             else Atlas.SrvAddress cluster) = Ok u0 ->
  Url.Opaque u0 <> "" ->
  let query :=
    if Nat.ltb 0 (map_len (Options params))
    then Url.Values_Encode (set_options (default ∅ (Options params)) (Url.URL_Query u0))
    else Url.RawQuery u0 in
  buildConnectionString (Some params) cluster bindingID password
  = Ret (scheme_part u0 +:+ Url.Opaque u0
           +:+ (if Url.ForceQuery u0 || negb (Strings.is_empty query)
                then "?" +:+ query else "")
           +:+ fragment_part u0).
Proof.
  intros Hparse Hop query.
  destruct (buildConnectionString_url params cluster bindingID password u0 Hparse)
    as (u & Hb & Hs & Ho & _ & _ & Hf & Hfq & _ & _ & Hq).
  rewrite Hb, URL_String_opaque by (rewrite Ho; exact Hop).
  unfold scheme_part, query_part, fragment_part. rewrite Hs, Ho, Hf, Hfq, Hq. reflexivity.
Qed.

Lemma X5_opaque_witness :
  buildConnectionString
    (Some {| SkipCredentials := false; Database := "app"; Options := None; Format := "" |})
    (example_cluster "c0.example.net:27017" "IDLE") "b1" "S"
  = Ret "c0.example.net:27017".
Proof.
  exact (X5_opaque_address_gets_no_credentials
           {| SkipCredentials := false; Database := "app"; Options := None; Format := "" |}
           (example_cluster "c0.example.net:27017" "IDLE") "b1" "S"
           {| Url.Scheme := "c0.example.net"; Url.Opaque := "27017"; Url.User_ := None;
              Url.Host := ""; Url.Path := ""; Url.RawPath := "";
              Url.ForceQuery := false; Url.RawQuery := ""; Url.Fragment := "" |}
           eq_refl ltac:(discriminate)).
Defined.

(** X6.  [buildConnectionString] on parameters that are there fails only
    on the cluster address: it returns an error exactly when [Parse]
    rejects the address of the chosen format, the error of [Parse] under
    the message [Couldn't parse Atlas address URL]; it returns a string
    exactly when [Parse] accepts that address, whatever the database, the
    options and the credentials are; it never faults. *)
Theorem X6_buildConnectionString_fails_only_on_the_address
    (params : ConnectionStringParams) (cluster : Atlas.Cluster) (bindingID password : string) :
  let address := if String.eqb (Format params) "standard"
                 then Atlas.MongoURIWithOptions cluster
                 else Atlas.SrvAddress cluster in
  (forall e, buildConnectionString (Some params) cluster bindingID password = Err e <->
             exists e', Url.Parse address = Error e'
                        /\ e = WithMessage e' "Couldn't parse Atlas address URL")
  /\ ((exists connectionString,
          buildConnectionString (Some params) cluster bindingID password = Ret connectionString)
      <-> exists u0, Url.Parse address = Ok u0)
  /\ (forall msg, buildConnectionString (Some params) cluster bindingID password <> Panic msg).
Proof.
  intros address. subst address. unfold buildConnectionString.
  destruct (Url.Parse _) as [u0|e0]; repeat split.
  - discriminate.
  - intros (e' & [=] & _).
  - eauto.
  - eauto.
  - discriminate.
  - intros [= <-]. eauto.
  - intros (e' & [= <-] & ->). reflexivity.
  - intros [cs [=]].
  - intros [u0 [=]].
  - discriminate.
Qed.

(** * The generated password *)

(** ** The URL-safe base64 encoding *)

Lemma string_ind3 (P : string -> Prop) :
  P "" -> (forall a, P (String a "")) -> (forall a b, P (String a (String b ""))) ->
  (forall a b c r, P r -> P (String a (String b (String c r)))) ->
  forall s, P s.
Proof.
  intros H0 H1 H2 H3.
  assert (H : forall n s, String.length s <= n -> P s).
  { induction n as [|n IH]; intros s Hs.
    - destruct s; [exact H0|cbn in Hs; lia].
    - destruct s as [|a [|b [|c r]]]; [exact H0|apply H1|apply H2|].
      apply H3, IH. cbn in Hs. lia. }
  intros s. exact (H (String.length s) s (le_n _)).
Qed.

Lemma land63_lt (n : N) : (N.land n 63 < 64)%N.
Proof.
  change 63%N with (N.ones 6). rewrite N.land_ones. apply N.mod_lt. discriminate.
Qed.

Lemma encodeURL_alphabet (n : N) : (n < 64)%N -> base64url_byte (Base64.encodeURL n) = true.
Proof.
  intros Hn.
  assert (H : forallb (fun k => base64url_byte (Base64.encodeURL (N.of_nat k))) (seq 0 64)
              = true) by (vm_compute; reflexivity).
  rewrite forallb_forall in H. specialize (H (N.to_nat n)).
  rewrite N2Nat.id in H. apply H. apply in_seq. lia.
Qed.

Lemma sextet_alphabet (n : N) : base64url_byte (Base64.encodeURL (N.land n 63)) = true.
Proof. apply encodeURL_alphabet, land63_lt. Qed.

Lemma EncodeToString_bytes (src : string) :
  Strings.forallb base64url_text_byte (Base64.EncodeToString src) = true.
Proof.
  induction src as [|a|a b|a b c r IH] using string_ind3; [reflexivity| | |].
  - cbn [Base64.EncodeToString]. rewrite !forallb_cons. unfold base64url_text_byte at 1 2.
    rewrite !sextet_alphabet. reflexivity.
  - cbn [Base64.EncodeToString]. rewrite !forallb_cons. unfold base64url_text_byte at 1 2 3.
    rewrite !sextet_alphabet. reflexivity.
  - cbn [Base64.EncodeToString]. rewrite !forallb_cons, IH.
    unfold base64url_text_byte. rewrite !sextet_alphabet. reflexivity.
Qed.

Lemma EncodeToString_length (src : string) :
  String.length (Base64.EncodeToString src) = 4 * ((String.length src + 2) / 3).
Proof.
  induction src as [|a|a b|a b c r IH] using string_ind3; [reflexivity..|].
  cbn [Base64.EncodeToString String.length]. rewrite IH.
  replace (S (S (S (String.length r))) + 2) with ((String.length r + 2) + 1 * 3) by lia.
  rewrite Nat.div_add by discriminate. lia.
Qed.

Lemma base64url_text_byte_facts (c : ascii) :
  base64url_text_byte c = true ->
  Url.shouldEscape c Url.encodeUserPassword = false /\ Ascii.eqb c " " = false.
Proof.
  intros H. byte_cases c;
    try (vm_compute in H; discriminate H); split; reflexivity.
Qed.

Lemma escape_base64url (s : string) :
  Strings.forallb base64url_text_byte s = true -> Url.escape s Url.encodeUserPassword = s.
Proof.
  induction s as [|c s IH]; [reflexivity|]. rewrite forallb_cons.
  intros [Hc Hs]%andb_prop. rewrite escape_cons, (IH Hs).
  destruct (base64url_text_byte_facts c Hc) as [-> ->]. reflexivity.
Qed.

(** The encoding ends in one [=] exactly when two bytes are left over. *)
Lemma EncodeToString_padding (src : string) :
  String.length src mod 3 = 2 ->
  exists body, Base64.EncodeToString src = body +:+ "="
               /\ Strings.forallb base64url_byte body = true.
Proof.
  induction src as [|a|a b|a b c r IH] using string_ind3; try discriminate.
  - intros _. eexists (String _ (String _ (String _ ""))). split; [reflexivity|].
    rewrite !forallb_cons, !sextet_alphabet. reflexivity.
  - cbn [String.length]. intros Hmod.
    replace (S (S (S (String.length r)))) with (String.length r + 1 * 3) in Hmod by lia.
    rewrite Nat.Div0.mod_add in Hmod. destruct (IH Hmod) as (body & Hbody & Hall).
    cbn [Base64.EncodeToString]. rewrite Hbody.
    eexists (String _ (String _ (String _ (String _ body)))). split; [reflexivity|].
    rewrite !forallb_cons, !sextet_alphabet, Hall. reflexivity.
Qed.

(** X7.  When the random source fills the 32 bytes, [generatePassword]
    returns 44 characters: 43 letters, digits, [-] or [_], and one [=] at
    the end. *)
Theorem X7_generated_password_shape (rand_Read : nat -> result string) (b : string) :
  rand_Read numberOfBytes = Ok b -> String.length b = numberOfBytes ->
  exists body,
    generatePassword rand_Read = Ok (body +:+ "=")
    /\ String.length body = 43
    /\ Strings.forallb base64url_byte body = true.
Proof.
  intros Hread Hlen. unfold generatePassword. rewrite Hread.
  destruct (EncodeToString_padding b) as (body & Hbody & Hall).
  { rewrite Hlen. reflexivity. }
  exists body. rewrite Hbody. split; [reflexivity|]. split; [|exact Hall].
  pose proof (EncodeToString_length b) as Hl. rewrite Hbody, Hlen, slength_app in Hl.
  cbn in Hl. lia.
Qed.

Lemma X7_password_shape_witness :
  exists body,
    generatePassword (rand_Read example_deps) = Ok (body +:+ "=")
    /\ String.length body = 43
    /\ Strings.forallb base64url_byte body = true.
Proof.
  exact (X7_generated_password_shape (rand_Read example_deps) example_entropy
           eq_refl eq_refl).
Defined.

(** X8.  A generated password goes into the connection string as it is:
    no byte of it is escaped.  With the credentials not skipped and an
    address with a host, the connection string is the scheme of the
    address, [//], the escaped binding ID, [:], the password, [@] and the
    rest. *)
Theorem X8_generated_password_is_embedded_as_it_is
    (params : ConnectionStringParams) (cluster : Atlas.Cluster) (bindingID password : string)
    (rand_Read : nat -> result string) (u0 : Url.URL) :
  SkipCredentials params = false ->
  generatePassword rand_Read = Ok password ->
  Url.Parse (if String.eqb (Format params) "standard"
             then Atlas.MongoURIWithOptions cluster
             else Atlas.SrvAddress cluster) = Ok u0 ->
  Url.Host u0 <> "" ->
  Url.escape password Url.encodeUserPassword = password
  /\ exists rest,
       buildConnectionString (Some params) cluster bindingID password
       = Ret (scheme_part u0 +:+ "//" +:+ Url.escape bindingID Url.encodeUserPassword
                +:+ ":" +:+ password +:+ "@" +:+ rest).
Proof.
  intros Hskip Hpw Hparse Hne.
  assert (Hesc : Url.escape password Url.encodeUserPassword = password).
  { unfold generatePassword in Hpw. destruct (rand_Read numberOfBytes) as [b|e]; [|discriminate].
    injection Hpw as <-. apply escape_base64url, EncodeToString_bytes. }
  split; [exact Hesc|].
  destruct (Parse_fields _ _ Hparse) as (_ & _ & Ho0). specialize (Ho0 Hne).
  destruct (buildConnectionString_url params cluster bindingID password u0 Hparse)
    as (u & Hb & Hs & Ho & Hh & _ & _ & _ & Hu & _).
  rewrite Hskip in Hu.
  rewrite Hb, URL_String_host by (rewrite ?Ho, ?Hh; assumption).
  rewrite Hu. cbn [authority_user]. rewrite Userinfo_String_password, Hesc.
  unfold scheme_part. rewrite Hs.
  eexists. rewrite !sapp_assoc. reflexivity.
Qed.

Lemma X8_password_embedded_witness :
  Url.escape example_password Url.encodeUserPassword
  = example_password
  /\ exists rest,
       buildConnectionString (Some zeroConnectionStringParams)
         (example_cluster "mongodb+srv://c0.example.net" "IDLE") "b1"
         example_password
       = Ret ("mongodb+srv:" +:+ "//" +:+ "b1" +:+ ":"
                +:+ example_password +:+ "@" +:+ rest).
Proof.
  exact (X8_generated_password_is_embedded_as_it_is zeroConnectionStringParams
           (example_cluster "mongodb+srv://c0.example.net" "IDLE") "b1"
           example_password (rand_Read example_deps)
           {| Url.Scheme := "mongodb+srv"; Url.Opaque := ""; Url.User_ := None;
              Url.Host := "c0.example.net"; Url.Path := ""; Url.RawPath := "";
              Url.ForceQuery := false; Url.RawQuery := ""; Url.Fragment := "" |}
           eq_refl eq_refl eq_refl ltac:(discriminate)).
Defined.

(** ** The encoding loses nothing *)

Lemma encodeURL_inj (n m : N) :
  (n < 64)%N -> (m < 64)%N -> Base64.encodeURL n = Base64.encodeURL m -> n = m.
Proof.
  intros Hn Hm Heq.
  assert (H : forallb
                (fun i => forallb
                            (fun j => implb (Ascii.eqb (Base64.encodeURL (N.of_nat i))
                                               (Base64.encodeURL (N.of_nat j)))
                                        (Nat.eqb i j)) (seq 0 64)) (seq 0 64) = true)
    by (vm_compute; reflexivity).
  rewrite forallb_forall in H. specialize (H (N.to_nat n) ltac:(apply in_seq; lia)).
  rewrite forallb_forall in H. specialize (H (N.to_nat m) ltac:(apply in_seq; lia)).
  rewrite !N2Nat.id, Heq, Ascii.eqb_refl in H. cbn [implb] in H.
  apply Nat.eqb_eq in H. lia.
Qed.

Lemma sextet_inj (x y : N) :
  Base64.encodeURL (N.land x 63) = Base64.encodeURL (N.land y 63) -> N.land x 63 = N.land y 63.
Proof. apply encodeURL_inj; apply land63_lt. Qed.

Lemma sextet_not_padding (x : N) : Base64.encodeURL (N.land x 63) <> "="%char.
Proof.
  intros H. pose proof (sextet_alphabet x) as Ha. rewrite H in Ha. discriminate Ha.
Qed.

(** The six bits of each character, byte by byte. *)
Lemma high6 (a : ascii) :
  let A := Bytes.code a in
  N.land (N.shiftr A 2) 63 = N.shiftr A 2 /\ N.land (N.shiftr A 10) 63 = 0%N
  /\ N.land (N.shiftr A 18) 63 = 0%N /\ N.land (N.shiftr A 12) 63 = 0%N
  /\ N.land (N.shiftr A 4) 63 = N.shiftr A 4 /\ N.land (N.shiftr A 6) 63 = N.shiftr A 6.
Proof. byte_cases a; repeat split; reflexivity. Qed.

Lemma low6 (a : ascii) :
  let A := Bytes.code a in
  N.land (N.shiftl A 4) 63 = N.land (N.shiftl A 4) 48
  /\ N.land (N.shiftl A 2) 63 = N.land (N.shiftl A 2) 60
  /\ N.land (N.shiftl A 10) 63 = 0%N /\ N.land (N.shiftl A 16) 63 = 0%N
  /\ N.land (N.shiftl A 8) 63 = 0%N.
Proof. byte_cases a; repeat split; reflexivity. Qed.

Lemma split6 (a : ascii) :
  let A := Bytes.code a in
  N.land (N.land (N.shiftl A 4) 48) 48 = N.land (N.shiftl A 4) 48
  /\ N.land (N.land (N.shiftl A 4) 48) 15 = 0%N
  /\ N.land (N.shiftr A 4) 48 = 0%N /\ N.land (N.shiftr A 4) 15 = N.shiftr A 4
  /\ N.land (N.land (N.shiftl A 2) 60) 60 = N.land (N.shiftl A 2) 60
  /\ N.land (N.land (N.shiftl A 2) 60) 3 = 0%N
  /\ N.land (N.shiftr A 6) 60 = 0%N /\ N.land (N.shiftr A 6) 3 = N.shiftr A 6.
Proof. byte_cases a; repeat split; reflexivity. Qed.

Lemma join6 (a : ascii) :
  let A := Bytes.code a in
  A = N.lor (N.shiftl (N.shiftr A 2) 2) (N.shiftr (N.land (N.shiftl A 4) 48) 4)
  /\ A = N.lor (N.shiftl (N.shiftr A 4) 4) (N.shiftr (N.land (N.shiftl A 2) 60) 2)
  /\ A = N.lor (N.shiftl (N.shiftr A 6) 6) (N.land A 63).
Proof. byte_cases a; repeat split; reflexivity. Qed.

Lemma code_inj (a b : ascii) : Bytes.code a = Bytes.code b -> a = b.
Proof.
  unfold Bytes.code. intros H. rewrite <- (ascii_N_embedding a), <- (ascii_N_embedding b), H.
  reflexivity.
Qed.

(** The four characters of three bytes. *)
Lemma sextets3 (a b c : ascii) :
  let v := N.lor (N.shiftl (Bytes.code a) 16)
                 (N.lor (N.shiftl (Bytes.code b) 8) (Bytes.code c)) in
  N.land (N.shiftr v 18) 63 = N.shiftr (Bytes.code a) 2
  /\ N.land (N.shiftr v 12) 63
     = N.lor (N.land (N.shiftl (Bytes.code a) 4) 48) (N.shiftr (Bytes.code b) 4)
  /\ N.land (N.shiftr v 6) 63
     = N.lor (N.land (N.shiftl (Bytes.code b) 2) 60) (N.shiftr (Bytes.code c) 6)
  /\ N.land v 63 = N.land (Bytes.code c) 63.
Proof.
  intros v. subst v.
  destruct (high6 a) as (Ha2 & _ & _ & _ & _ & _).
  destruct (high6 b) as (_ & Hb10 & _ & _ & Hb4 & _).
  destruct (high6 c) as (_ & _ & Hc18 & Hc12 & _ & Hc6).
  destruct (low6 a) as (Ha4 & _ & Ha10 & Ha16 & _).
  destruct (low6 b) as (_ & Hb2 & _ & _ & Hb8).
  cbv zeta in *.
  rewrite !N.shiftr_lor, !N.land_lor_distr_l.
  rewrite (N.shiftr_shiftl_r _ 16 18), (N.shiftr_shiftl_r _ 8 18), (N.shiftr_shiftl_l _ 16 12),
    (N.shiftr_shiftl_r _ 8 12), (N.shiftr_shiftl_l _ 16 6), (N.shiftr_shiftl_l _ 8 6)
    by (intros H; discriminate H).
  change (18 - 16)%N with 2%N. change (18 - 8)%N with 10%N. change (16 - 12)%N with 4%N.
  change (12 - 8)%N with 4%N. change (16 - 6)%N with 10%N. change (8 - 6)%N with 2%N.
  rewrite Ha2, Hb10, Hc18, Ha4, Hb4, Hc12, Ha10, Hb2, Hc6, Ha16, Hb8.
  rewrite !N.lor_0_r, !N.lor_0_l. repeat split.
Qed.

Lemma sextets2 (a b : ascii) :
  let v := N.lor (N.shiftl (Bytes.code a) 16) (N.shiftl (Bytes.code b) 8) in
  N.land (N.shiftr v 18) 63 = N.shiftr (Bytes.code a) 2
  /\ N.land (N.shiftr v 12) 63
     = N.lor (N.land (N.shiftl (Bytes.code a) 4) 48) (N.shiftr (Bytes.code b) 4)
  /\ N.land (N.shiftr v 6) 63 = N.land (N.shiftl (Bytes.code b) 2) 60.
Proof.
  intros v. subst v.
  destruct (high6 a) as (Ha2 & _ & _ & _ & _ & _).
  destruct (high6 b) as (_ & Hb10 & _ & _ & Hb4 & _).
  destruct (low6 a) as (Ha4 & _ & Ha10 & _ & _).
  destruct (low6 b) as (_ & Hb2 & _ & _ & _).
  cbv zeta in *.
  rewrite !N.shiftr_lor, !N.land_lor_distr_l.
  rewrite (N.shiftr_shiftl_r _ 16 18), (N.shiftr_shiftl_r _ 8 18), (N.shiftr_shiftl_l _ 16 12),
    (N.shiftr_shiftl_r _ 8 12), (N.shiftr_shiftl_l _ 16 6), (N.shiftr_shiftl_l _ 8 6)
    by (intros H; discriminate H).
  change (18 - 16)%N with 2%N. change (18 - 8)%N with 10%N. change (16 - 12)%N with 4%N.
  change (12 - 8)%N with 4%N. change (16 - 6)%N with 10%N. change (8 - 6)%N with 2%N.
  rewrite Ha2, Hb10, Ha4, Hb4, Ha10, Hb2.
  rewrite !N.lor_0_r, ?N.lor_0_l. repeat split.
Qed.

Lemma sextets1 (a : ascii) :
  let v := N.shiftl (Bytes.code a) 16 in
  N.land (N.shiftr v 18) 63 = N.shiftr (Bytes.code a) 2
  /\ N.land (N.shiftr v 12) 63 = N.land (N.shiftl (Bytes.code a) 4) 48.
Proof. byte_cases a; split; reflexivity. Qed.

(** Two parts that share no bit are read back from their union. *)
Lemma lor_parts_48 (a a' b b' : ascii) :
  N.lor (N.land (N.shiftl (Bytes.code a) 4) 48) (N.shiftr (Bytes.code b) 4)
  = N.lor (N.land (N.shiftl (Bytes.code a') 4) 48) (N.shiftr (Bytes.code b') 4) ->
  N.land (N.shiftl (Bytes.code a) 4) 48 = N.land (N.shiftl (Bytes.code a') 4) 48
  /\ N.shiftr (Bytes.code b) 4 = N.shiftr (Bytes.code b') 4.
Proof.
  intros H.
  destruct (split6 a) as (Ha1 & Ha2 & _). destruct (split6 a') as (Ha1' & Ha2' & _).
  destruct (split6 b) as (_ & _ & Hb1 & Hb2 & _).
  destruct (split6 b') as (_ & _ & Hb1' & Hb2' & _).
  cbv zeta in *. split.
  - apply (f_equal (fun x => N.land x 48)) in H. rewrite !N.land_lor_distr_l in H.
    rewrite Ha1, Ha1', Hb1, Hb1', !N.lor_0_r in H. exact H.
  - apply (f_equal (fun x => N.land x 15)) in H. rewrite !N.land_lor_distr_l in H.
    rewrite Ha2, Ha2', Hb2, Hb2', !N.lor_0_l in H. exact H.
Qed.

Lemma lor_parts_60 (b b' c c' : ascii) :
  N.lor (N.land (N.shiftl (Bytes.code b) 2) 60) (N.shiftr (Bytes.code c) 6)
  = N.lor (N.land (N.shiftl (Bytes.code b') 2) 60) (N.shiftr (Bytes.code c') 6) ->
  N.land (N.shiftl (Bytes.code b) 2) 60 = N.land (N.shiftl (Bytes.code b') 2) 60
  /\ N.shiftr (Bytes.code c) 6 = N.shiftr (Bytes.code c') 6.
Proof.
  intros H.
  destruct (split6 b) as (_ & _ & _ & _ & Hb1 & Hb2 & _).
  destruct (split6 b') as (_ & _ & _ & _ & Hb1' & Hb2' & _).
  destruct (split6 c) as (_ & _ & _ & _ & _ & _ & Hc1 & Hc2).
  destruct (split6 c') as (_ & _ & _ & _ & _ & _ & Hc1' & Hc2').
  cbv zeta in *. split.
  - apply (f_equal (fun x => N.land x 60)) in H. rewrite !N.land_lor_distr_l in H.
    rewrite Hb1, Hb1', Hc1, Hc1', !N.lor_0_r in H. exact H.
  - apply (f_equal (fun x => N.land x 3)) in H. rewrite !N.land_lor_distr_l in H.
    rewrite Hb2, Hb2', Hc2, Hc2', !N.lor_0_l in H. exact H.
Qed.

Lemma byte_from_first (a a' : ascii) :
  N.shiftr (Bytes.code a) 2 = N.shiftr (Bytes.code a') 2 ->
  N.land (N.shiftl (Bytes.code a) 4) 48 = N.land (N.shiftl (Bytes.code a') 4) 48 -> a = a'.
Proof.
  intros H1 H2. apply code_inj.
  destruct (join6 a) as (-> & _). destruct (join6 a') as (-> & _). rewrite H1, H2. reflexivity.
Qed.

Lemma byte_from_second (b b' : ascii) :
  N.shiftr (Bytes.code b) 4 = N.shiftr (Bytes.code b') 4 ->
  N.land (N.shiftl (Bytes.code b) 2) 60 = N.land (N.shiftl (Bytes.code b') 2) 60 -> b = b'.
Proof.
  intros H1 H2. apply code_inj.
  destruct (join6 b) as (_ & -> & _). destruct (join6 b') as (_ & -> & _).
  rewrite H1, H2. reflexivity.
Qed.

Lemma byte_from_third (c c' : ascii) :
  N.shiftr (Bytes.code c) 6 = N.shiftr (Bytes.code c') 6 ->
  N.land (Bytes.code c) 63 = N.land (Bytes.code c') 63 -> c = c'.
Proof.
  intros H1 H2. apply code_inj.
  destruct (join6 c) as (_ & _ & ->). destruct (join6 c') as (_ & _ & ->).
  rewrite H1, H2. reflexivity.
Qed.

Lemma EncodeToString_cons3 (a b c : ascii) (r : string) :
  Base64.EncodeToString (String a (String b (String c r)))
  = let v := N.lor (N.shiftl (Bytes.code a) 16)
                   (N.lor (N.shiftl (Bytes.code b) 8) (Bytes.code c)) in
    String (Base64.encodeURL (N.land (N.shiftr v 18) 63))
      (String (Base64.encodeURL (N.land (N.shiftr v 12) 63))
         (String (Base64.encodeURL (N.land (N.shiftr v 6) 63))
            (String (Base64.encodeURL (N.land v 63)) (Base64.EncodeToString r)))).
Proof. reflexivity. Qed.

Lemma EncodeToString_inj (x y : string) :
  Base64.EncodeToString x = Base64.EncodeToString y -> x = y.
Proof.
  revert y. induction x as [|a|a b|a b c r IH] using string_ind3;
    intros [|a' [|b' [|c' r']]]; rewrite ?EncodeToString_cons3;
    cbn [Base64.EncodeToString]; cbv zeta; try discriminate; try reflexivity;
    intros Heq; injection Heq; intros;
    try match goal with
        | H : Base64.encodeURL (N.land _ 63) = "="%char |- _ =>
            exfalso; exact (sextet_not_padding _ H)
        | H : "="%char = Base64.encodeURL (N.land _ 63) |- _ =>
            exfalso; exact (sextet_not_padding _ (eq_sym H))
        end.
  all: repeat match goal with
         | H : Base64.encodeURL _ = Base64.encodeURL _ |- _ => apply sextet_inj in H
         end.
  - destruct (sextets1 a) as [E1 E2]. destruct (sextets1 a') as [E1' E2'].
    cbv zeta in *. rewrite E1, E1' in *. rewrite E2, E2' in *.
    f_equal. apply byte_from_first; assumption.
  - destruct (sextets2 a b) as (E1 & E2 & E3). destruct (sextets2 a' b') as (E1' & E2' & E3').
    cbv zeta in *. rewrite E1, E1', E2, E2', E3, E3' in *.
    match goal with H : N.lor _ _ = N.lor _ _ |- _ =>
      destruct (lor_parts_48 a a' b b' H) as [Ha Hb] end.
    f_equal; [apply byte_from_first; assumption|].
    f_equal. apply byte_from_second; assumption.
  - destruct (sextets3 a b c) as (E1 & E2 & E3 & E4).
    destruct (sextets3 a' b' c') as (E1' & E2' & E3' & E4').
    cbv zeta in *. rewrite E1, E1', E2, E2', E3, E3', E4, E4' in *.
    match goal with H : N.lor (N.land (N.shiftl (Bytes.code a) 4) 48) _ = _ |- _ =>
      destruct (lor_parts_48 a a' b b' H) as [Ha Hb] end.
    match goal with H : N.lor (N.land (N.shiftl (Bytes.code b) 2) 60) _ = _ |- _ =>
      destruct (lor_parts_60 b b' c c' H) as [Hb' Hc] end.
    f_equal; [apply byte_from_first; assumption|].
    f_equal; [apply byte_from_second; assumption|].
    f_equal; [apply byte_from_third; assumption|].
    apply IH. assumption.
Qed.

(** X9.  The password keeps all of the random bytes: the URL-safe base64
    encoding is injective, so two reads of the random source that give the
    same password gave the same bytes, and different bytes give different
    passwords. *)
Theorem X9_generated_password_determines_the_random_bytes
    (rand_Read1 rand_Read2 : nat -> result string) (password : string) :
  generatePassword rand_Read1 = Ok password ->
  generatePassword rand_Read2 = Ok password ->
  rand_Read1 numberOfBytes = rand_Read2 numberOfBytes.
Proof.
  unfold generatePassword.
  destruct (rand_Read1 numberOfBytes) as [b1|e1]; [|discriminate].
  destruct (rand_Read2 numberOfBytes) as [b2|e2]; [|discriminate].
  intros [= <-] [= H]. f_equal. symmetry. exact (EncodeToString_inj _ _ H).
Qed.

Lemma X9_random_bytes_witness :
  rand_Read example_deps numberOfBytes = Ok example_entropy.
Proof.
  exact (X9_generated_password_determines_the_random_bytes (rand_Read example_deps)
           (fun _ => Ok example_entropy) example_password
           eq_refl eq_refl).
Defined.

(** * The failures of Bind and Unbind *)

(** X10.  [Bind] checks the request before it goes to the backend: when
    the client cannot be taken from the context, or the service ID or the
    plan ID is not found in the catalog, [Bind] returns that error as it
    is, with the backend and the log of its calls untouched. *)
Theorem X10_bind_rejects_unknown_services_before_the_backend
    (deps : Deps) (ctx : Ctx deps) (instanceID bindingID : string) (details : BindDetails)
    (asyncAllowed : bool) (w : Atlas.world (St deps)) (e : error) :
  atlasClientFromContext deps ctx = Error e
  \/ (exists client,
        atlasClientFromContext deps ctx = Ok client
        /\ (findProviderByServiceID deps client (ServiceID details) = Error e
            \/ exists provider,
                 findProviderByServiceID deps client (ServiceID details) = Ok provider
                 /\ findInstanceSizeByPlanID deps provider (PlanID details) = Error e)) ->
  Bind deps ctx instanceID bindingID details asyncAllowed w = (w, Err e).
Proof.
  unfold Bind. intros [->|(client & -> & [->|(provider & -> & ->)])]; reflexivity.
Qed.

Lemma X10_unknown_service_witness :
  Bind (example_deps_with example_catalog (fun n => Ok (Strings.take n example_entropy)))
    tt "i1" "b1"
    {| ServiceID := "no-such-service"; PlanID := "p"; RawParameters := "" |} true example_world
  = (example_world, Err (ErrorString "unknown service")).
Proof.
  apply (X10_bind_rejects_unknown_services_before_the_backend
           (example_deps_with example_catalog (fun n => Ok (Strings.take n example_entropy)))).
  right. exists Atlas.memoryClient. split; [reflexivity|]. left. reflexivity.
Defined.

(** X11.  When the cluster of the instance cannot be fetched, [Bind]
    returns the error of the backend as [atlasToAPIError] translates it; the
    fetch is the only call made, so no user is created. *)
Theorem X11_bind_without_cluster_creates_no_user
    (deps : Deps) (ctx : Ctx deps) (instanceID bindingID : string) (details : BindDetails)
    (asyncAllowed : bool) (w w1 : Atlas.world (St deps)) (client : Atlas.Client (St deps))
    (provider : Provider deps) (size : InstanceSize deps) (err : error) :
  atlasClientFromContext deps ctx = Ok client ->
  findProviderByServiceID deps client (ServiceID details) = Ok provider ->
  findInstanceSizeByPlanID deps provider (PlanID details) = Ok size ->
  Atlas.do_GetCluster client (NormalizeClusterName deps instanceID) w = (w1, Error err) ->
  Bind deps ctx instanceID bindingID details asyncAllowed w
  = (w1, Err (atlasToAPIError deps err))
  /\ Atlas.calls w1
     = Atlas.calls w ++ [Atlas.CallGetCluster (NormalizeClusterName deps instanceID)].
Proof.
  intros Hclient Hprovider Hsize Hget. unfold Bind.
  rewrite Hclient, Hprovider, Hsize, Hget. split; [reflexivity|].
  unfold Atlas.do_GetCluster in Hget.
  destruct (Atlas.GetCluster client _ _) as [st r]. injection Hget as <- _. reflexivity.
Qed.

Lemma X11_without_cluster_witness :
  Bind (example_deps_with example_catalog (fun n => Ok (Strings.take n example_entropy)))
    tt "i2" "b1" (example_details "") true example_world
  = ({| Atlas.backend := Atlas.backend example_world;
        Atlas.calls := [Atlas.CallGetCluster "i2"] |},
     Err (WithMessage (BackendError "cluster not found") "atlas"))
  /\ [Atlas.CallGetCluster "i2"] = [] ++ [Atlas.CallGetCluster "i2"].
Proof.
  exact (X11_bind_without_cluster_creates_no_user
           (example_deps_with example_catalog (fun n => Ok (Strings.take n example_entropy)))
           tt "i2" "b1" (example_details "") true example_world
           {| Atlas.backend := Atlas.backend example_world;
              Atlas.calls := [Atlas.CallGetCluster "i2"] |}
           Atlas.memoryClient tt tt (BackendError "cluster not found")
           eq_refl eq_refl eq_refl eq_refl).
Defined.

(** X12.  When the random source fails, [Bind] returns the error
    [Failed to generate binding password] in place of the error of the
    source, after the fetch of the cluster and without creating a user. *)
Theorem X12_bind_hides_the_error_of_the_random_source
    (deps : Deps) (ctx : Ctx deps) (instanceID bindingID : string) (details : BindDetails)
    (asyncAllowed : bool) (w w1 : Atlas.world (St deps)) (client : Atlas.Client (St deps))
    (provider : Provider deps) (size : InstanceSize deps) (cluster : Atlas.Cluster)
    (err : error) :
  atlasClientFromContext deps ctx = Ok client ->
  findProviderByServiceID deps client (ServiceID details) = Ok provider ->
  findInstanceSizeByPlanID deps provider (PlanID details) = Ok size ->
  Atlas.do_GetCluster client (NormalizeClusterName deps instanceID) w = (w1, Ok cluster) ->
  rand_Read deps numberOfBytes = Error err ->
  Bind deps ctx instanceID bindingID details asyncAllowed w
  = (w1, Err (ErrorString "Failed to generate binding password"))
  /\ Atlas.calls w1
     = Atlas.calls w ++ [Atlas.CallGetCluster (NormalizeClusterName deps instanceID)].
Proof.
  intros Hclient Hprovider Hsize Hget Hrand. unfold Bind, generatePassword.
  rewrite Hclient, Hprovider, Hsize, Hget, Hrand. split; [reflexivity|].
  unfold Atlas.do_GetCluster in Hget.
  destruct (Atlas.GetCluster client _ _) as [st r]. injection Hget as <- _. reflexivity.
Qed.

Lemma X12_random_source_witness :
  Bind (example_deps_with example_catalog (fun _ => Error (ErrorString "no entropy")))
    tt "i1" "b1" (example_details "") true example_world
  = ({| Atlas.backend := Atlas.backend example_world;
        Atlas.calls := [Atlas.CallGetCluster "i1"] |},
     Err (ErrorString "Failed to generate binding password"))
  /\ [Atlas.CallGetCluster "i1"] = [] ++ [Atlas.CallGetCluster "i1"].
Proof.
  exact (X12_bind_hides_the_error_of_the_random_source
           (example_deps_with example_catalog (fun _ => Error (ErrorString "no entropy")))
           tt "i1" "b1" (example_details "") true example_world
           {| Atlas.backend := Atlas.backend example_world;
              Atlas.calls := [Atlas.CallGetCluster "i1"] |}
           Atlas.memoryClient tt tt (example_cluster "mongodb+srv://c0.example.net" "IDLE")
           (ErrorString "no entropy")
           eq_refl eq_refl eq_refl eq_refl eq_refl).
Defined.

(** What a successful [Bind] went through. *)
Lemma Bind_success (deps : Deps) (ctx : Ctx deps) (instanceID bindingID : string)
    (details : BindDetails) (asyncAllowed : bool) (w : Atlas.world (St deps)) (b : Binding) :
  snd (Bind deps ctx instanceID bindingID details asyncAllowed w) = Ret b ->
  exists client w1 cluster password connectionStringParams connectionString,
    atlasClientFromContext deps ctx = Ok client
    /\ Atlas.do_GetCluster client (NormalizeClusterName deps instanceID) w = (w1, Ok cluster)
    /\ generatePassword (rand_Read deps) = Ok password
    /\ connectionStringParamsFromParams (RawParameters details) = Ok connectionStringParams
    /\ buildConnectionString connectionStringParams cluster bindingID password
       = Ret connectionString
    /\ b = {| Credentials := Some {| Username := bindingID; Password := password;
                                     URI := Atlas.SrvAddress cluster;
                                     ConnectionString := connectionString |} |}.
Proof.
  unfold Bind.
  destruct (atlasClientFromContext deps ctx) as [client|e]; [|discriminate].
  destruct (findProviderByServiceID deps client _) as [provider|e]; [|discriminate].
  destruct (findInstanceSizeByPlanID deps provider _) as [size|e]; [|discriminate].
  destruct (Atlas.do_GetCluster client _ w) as [w1 [cluster|e]] eqn:Hget; [|discriminate].
  destruct (generatePassword (rand_Read deps)) as [password|e]; [|discriminate].
  destruct (userFromParams bindingID password _) as [user|e|msg]; [|discriminate..].
  destruct (Atlas.do_CreateUser client user w1) as [w2 [created|e]]; [|discriminate].
  destruct (connectionStringParamsFromParams _) as [csp|e]; [|discriminate].
  destruct (buildConnectionString csp cluster bindingID password) as [cs|e|msg] eqn:Hcs;
    [|discriminate..].
  intros [= <-]. exists client, w1, cluster, password, csp, cs. repeat split; assumption.
Qed.

(** X13.  The credentials of a successful [Bind]: the URI is the
    abbreviated address of the cluster that was fetched, also when the
    parameters ask for the standard format; the format goes into the
    connection string only, which is what [buildConnectionString] returns
    for the decoded parameters, that cluster, the binding ID and the
    generated password. *)
Theorem X13_bind_returns_the_abbreviated_address_as_uri
    (deps : Deps) (ctx : Ctx deps) (instanceID bindingID : string) (details : BindDetails)
    (asyncAllowed : bool) (w : Atlas.world (St deps)) (b : Binding) :
  snd (Bind deps ctx instanceID bindingID details asyncAllowed w) = Ret b ->
  exists client w1 cluster connectionStringParams creds,
    atlasClientFromContext deps ctx = Ok client
    /\ Atlas.do_GetCluster client (NormalizeClusterName deps instanceID) w = (w1, Ok cluster)
    /\ connectionStringParamsFromParams (RawParameters details) = Ok connectionStringParams
    /\ Credentials b = Some creds
    /\ URI creds = Atlas.SrvAddress cluster
    /\ buildConnectionString connectionStringParams cluster bindingID (Password creds)
       = Ret (ConnectionString creds).
Proof.
  intros Hb.
  destruct (Bind_success _ _ _ _ _ _ _ _ Hb)
    as (client & w1 & cluster & password & csp & cs & Hc & Hg & _ & Hp & Hcs & ->).
  exists client, w1, cluster, csp. eexists. split; [exact Hc|]. split; [exact Hg|].
  split; [exact Hp|]. split; [reflexivity|]. split; [reflexivity|]. exact Hcs.
Qed.

Lemma X13_uri_witness :
  exists client w1 cluster connectionStringParams creds,
    atlasClientFromContext example_deps tt = Ok client
    /\ Atlas.do_GetCluster client "i1" example_world = (w1, Ok cluster)
    /\ connectionStringParamsFromParams example_parameters = Ok connectionStringParams
    /\ Some example_credentials = Some creds
    /\ URI creds = Atlas.SrvAddress cluster
    /\ buildConnectionString connectionStringParams cluster "b1" (Password creds)
       = Ret (ConnectionString creds).
Proof.
  apply (X13_bind_returns_the_abbreviated_address_as_uri example_deps tt "i1" "b1"
           (example_details example_parameters) true example_world
           {| Credentials := Some example_credentials |}).
  vm_compute. reflexivity.
Defined.

(** X14.  What [Bind] returns hangs together.  For a successful [Bind]
    whose parameters do not skip the credentials: when the address, in the
    format asked for, of the cluster that [Bind] fetched is accepted by
    [Parse] with a host that is not empty and that [Parse] accepts back, the
    returned credentials have the binding ID as their username, and their
    connection string is accepted by [Parse] with, as its user, the username
    and the password of the same credentials. *)
Theorem X14_bind_connection_string_carries_the_returned_credentials
    (deps : Deps) (ctx : Ctx deps) (instanceID bindingID : string) (details : BindDetails)
    (asyncAllowed : bool) (w w1 : Atlas.world (St deps)) (client : Atlas.Client (St deps))
    (cluster : Atlas.Cluster) (params : ConnectionStringParams) (u0 : Url.URL) (b : Binding) :
  snd (Bind deps ctx instanceID bindingID details asyncAllowed w) = Ret b ->
  atlasClientFromContext deps ctx = Ok client ->
  Atlas.do_GetCluster client (NormalizeClusterName deps instanceID) w = (w1, Ok cluster) ->
  connectionStringParamsFromParams (RawParameters details) = Ok (Some params) ->
  SkipCredentials params = false ->
  Url.Parse (if String.eqb (Format params) "standard"
             then Atlas.MongoURIWithOptions cluster
             else Atlas.SrvAddress cluster) = Ok u0 ->
  host_parses_back (Url.Host u0) = true ->
  exists creds u,
    Credentials b = Some creds
    /\ Username creds = bindingID
    /\ Url.Parse (ConnectionString creds) = Ok u
    /\ Url.User_ u = Some (Url.UserPassword (Username creds) (Password creds)).
Proof.
  intros Hb Hclient Hget Hparams Hskip Hparse Hhost.
  destruct (Bind_success _ _ _ _ _ _ _ _ Hb)
    as (client' & w1' & cluster' & password & csp & cs & Hc & Hg & _ & Hp & Hcs & ->).
  rewrite Hclient in Hc. injection Hc as <-.
  rewrite Hget in Hg. injection Hg as <- <-.
  rewrite Hparams in Hp. injection Hp as <-.
  destruct (host_parses_back_spec _ Hhost) as (Hne & h' & Hh).
  destruct (buildConnectionString_parsed params cluster bindingID password u0 _ Hparse Hne Hh)
    as (cs' & u & Hb' & Hu & _ & _ & _ & _ & Huser & _).
  rewrite Hcs in Hb'. injection Hb' as <-. rewrite Hskip in Huser.
  eexists. exists u. cbn [Credentials Username Password ConnectionString].
  split; [reflexivity|]. split; [reflexivity|]. split; [exact Hu|exact Huser].
Qed.

Lemma X14_returned_credentials_witness :
  exists creds u,
    Some example_credentials = Some creds
    /\ Username creds = "b1"
    /\ Url.Parse (ConnectionString creds) = Ok u
    /\ Url.User_ u = Some (Url.UserPassword (Username creds) (Password creds)).
Proof.
  apply (X14_bind_connection_string_carries_the_returned_credentials example_deps tt "i1" "b1"
           (example_details example_parameters) true example_world
           {| Atlas.backend := Atlas.backend example_world;
              Atlas.calls := [Atlas.CallGetCluster "i1"] |}
           Atlas.memoryClient (example_cluster "mongodb+srv://c0.example.net" "IDLE")
           {| SkipCredentials := false; Database := "app";
              Options := Some {[ "retryWrites" := Json.IBool true ]};
              Format := "standard" |}
           {| Url.Scheme := "mongodb"; Url.Opaque := ""; Url.User_ := None;
              Url.Host := "host1,host2"; Url.Path := "/"; Url.RawPath := "";
              Url.ForceQuery := false; Url.RawQuery := "ssl=true"; Url.Fragment := "" |}
           {| Credentials := Some example_credentials |}).
  - vm_compute. reflexivity.
  - reflexivity.
  - reflexivity.
  - vm_compute. reflexivity.
  - reflexivity.
  - vm_compute. reflexivity.
  - vm_compute. reflexivity.
Defined.

(** X15.  [Unbind] deletes the user only after it has fetched the cluster:
    when the fetch fails, [Unbind] returns the error of the backend as
    [atlasToAPIError] translates it, and the fetch is the only call made;
    the user of a binding whose cluster is gone is left in the backend. *)
Theorem X15_unbind_without_cluster_deletes_no_user
    (deps : Deps) (ctx : Ctx deps) (instanceID bindingID : string) (asyncAllowed : bool)
    (w w1 : Atlas.world (St deps)) (client : Atlas.Client (St deps)) (err : error) :
  atlasClientFromContext deps ctx = Ok client ->
  Atlas.do_GetCluster client (NormalizeClusterName deps instanceID) w = (w1, Error err) ->
  Unbind deps ctx instanceID bindingID asyncAllowed w
  = (w1, Error (atlasToAPIError deps err))
  /\ Atlas.calls w1
     = Atlas.calls w ++ [Atlas.CallGetCluster (NormalizeClusterName deps instanceID)].
Proof.
  intros Hclient Hget. unfold Unbind. rewrite Hclient, Hget. split; [reflexivity|].
  unfold Atlas.do_GetCluster in Hget.
  destruct (Atlas.GetCluster client _ _) as [st r]. injection Hget as <- _. reflexivity.
Qed.

Lemma X15_unbind_without_cluster_witness :
  Unbind example_deps tt "i2" "b1" true example_world
  = ({| Atlas.backend := Atlas.backend example_world;
        Atlas.calls := [Atlas.CallGetCluster "i2"] |},
     Error (BackendError "cluster not found"))
  /\ [Atlas.CallGetCluster "i2"] = [] ++ [Atlas.CallGetCluster "i2"].
Proof.
  exact (X15_unbind_without_cluster_deletes_no_user example_deps tt "i2" "b1" true
           example_world
           {| Atlas.backend := Atlas.backend example_world;
              Atlas.calls := [Atlas.CallGetCluster "i2"] |}
           Atlas.memoryClient (BackendError "cluster not found") eq_refl eq_refl).
Defined.

(** * The members of the parameter blob *)

Lemma find_field_single (name key : string) :
  Json.find_field [name] key 0 None = if matches name key then Some 0 else None.
Proof.
  unfold matches. cbn [Json.find_field].
  destruct (String.eqb name key); [reflexivity|]. cbn [orb].
  destruct (Json.equalFold name key); reflexivity.
Qed.

(** In a struct of one field, the members that go to no field change
    nothing. *)
Lemma store_single_members {T : Type} (name : string)
    (field : nat -> Json.json -> T -> T * option error) (members : list (string * Json.json))
    (st : T * option error) :
  fold_left (Json.object_step [name] field) members st
  = fold_left (Json.object_step [name] field) (members_of name members) st.
Proof.
  revert st. induction members as [|kv members IH]; intros st; [reflexivity|].
  cbn [fold_left members_of List.filter]. fold (members_of name members).
  destruct (matches name kv.1) eqn:Hm.
  - cbn [fold_left]. apply IH.
  - rewrite IH. f_equal. unfold Json.object_step. rewrite find_field_single, Hm. reflexivity.
Qed.

Lemma parse_nonempty (data : string) (j : Json.json) : Json.parse data = Some j -> data <> "".
Proof. intros H ->. discriminate H. Qed.

Lemma Unmarshal_object {T : Type} (name : string)
    (field : nat -> Json.json -> T -> T * option error) (data : string)
    (members : list (string * Json.json)) (v : T) :
  Json.parse data = Some (Json.JObject members) ->
  Json.Unmarshal (Json.store_struct [name] field) data v
  = match fold_left (Json.object_step [name] field) (members_of name members) (v, None) with
    | (v', None) => Ok v'
    | (_, Some e) => Error e
    end.
Proof.
  intros Hparse. unfold Json.Unmarshal. rewrite Hparse. cbn [Json.store_struct].
  rewrite store_single_members. reflexivity.
Qed.

(** X16.  Each reader of the parameter blob sees its own member only.  For
    a blob that is a JSON object, [userFromParams] depends on the members
    whose key is [user] (up to case) and on nothing else, and
    [connectionStringParamsFromParams] on the members whose key is
    [connectionString]: two blobs with the same such members give the same
    result, and a blob without such a member gives what the empty blob
    gives, whatever the other members hold. *)
Theorem X16_each_reader_sees_its_own_members
    (bindingID password rawParams : string) (members : list (string * Json.json)) :
  Json.parse rawParams = Some (Json.JObject members) ->
  (members_of "user" members = [] ->
   userFromParams bindingID password rawParams = userFromParams bindingID password "")
  /\ (members_of "connectionString" members = [] ->
      connectionStringParamsFromParams rawParams = connectionStringParamsFromParams "")
  /\ (forall rawParams' members',
        Json.parse rawParams' = Some (Json.JObject members') ->
        (members_of "user" members = members_of "user" members' ->
         userFromParams bindingID password rawParams
         = userFromParams bindingID password rawParams')
        /\ (members_of "connectionString" members = members_of "connectionString" members' ->
            connectionStringParamsFromParams rawParams
            = connectionStringParamsFromParams rawParams')).
Proof.
  intros Hparse.
  assert (Hu : forall raw ms,
             Json.parse raw = Some (Json.JObject ms) ->
             userFromParams bindingID password raw
             = match
                 match fold_left
                         (Json.object_step ["user"]
                            (fun _ => Json.store_pointer Atlas.User_names Atlas.User_field
                                        Atlas.zeroUser))
                         (members_of "user" ms) (Some Atlas.zeroUser, None) with
                 | (v', None) => Ok v'
                 | (_, Some e) => Error e
                 end
               with
               | Error err => Err err
               | Ok None => Panic nil_dereference
               | Ok (Some user) =>
                   Ret (if Nat.eqb (Json.len (Atlas.Roles user)) 0
                        then {| Atlas.Username := bindingID; Atlas.Password := password;
                                Atlas.LDAPAuthType := Atlas.LDAPAuthType user;
                                Atlas.Roles := defaultRoles |}
                        else {| Atlas.Username := bindingID; Atlas.Password := password;
                                Atlas.LDAPAuthType := Atlas.LDAPAuthType user;
                                Atlas.Roles := Atlas.Roles user |})
               end).
  { intros raw ms Hp. unfold userFromParams.
    rewrite (proj2 (length_pos_nonempty _) (parse_nonempty _ _ Hp)).
    unfold store_userParams. rewrite (Unmarshal_object _ _ _ _ _ Hp). reflexivity. }
  assert (Hc : forall raw ms,
             Json.parse raw = Some (Json.JObject ms) ->
             connectionStringParamsFromParams raw
             = match fold_left
                       (Json.object_step ["connectionString"]
                          (fun _ => Json.store_pointer ConnectionStringParams_names
                                      ConnectionStringParams_field zeroConnectionStringParams))
                       (members_of "connectionString" ms)
                       (Some zeroConnectionStringParams, None) with
               | (v', None) => Ok v'
               | (_, Some e) => Error e
               end).
  { intros raw ms Hp. unfold connectionStringParamsFromParams.
    rewrite (proj2 (length_pos_nonempty _) (parse_nonempty _ _ Hp)).
    unfold store_connectionStringParams. apply (Unmarshal_object _ _ _ _ _ Hp). }
  split; [|split].
  - intros Hm. rewrite (Hu _ _ Hparse), Hm. reflexivity.
  - intros Hm. rewrite (Hc _ _ Hparse), Hm. reflexivity.
  - intros raw' ms' Hparse'. split; intros Hm.
    + rewrite (Hu _ _ Hparse), (Hu _ _ Hparse'), Hm. reflexivity.
    + rewrite (Hc _ _ Hparse), (Hc _ _ Hparse'), Hm. reflexivity.
Qed.

Lemma X16_own_members_witness :
  userFromParams "b1" "S" example_parameters = userFromParams "b1" "S" "".
Proof.
  exact (proj1
    (X16_each_reader_sees_its_own_members "b1" "S" example_parameters
       [("connectionString",
         Json.JObject [("format", Json.JString "standard"); ("database", Json.JString "app");
                       ("options", Json.JObject [("retryWrites", Json.JBool true)])])]
       eq_refl) eq_refl).
Defined.

(** ** The faults *)

Lemma members_of_matches (name : string) (members : list (string * Json.json))
    (kv : string * Json.json) :
  In kv (members_of name members) -> matches name kv.1 = true.
Proof. unfold members_of. intros H. apply filter_In in H as [_ H]. exact H. Qed.

(** The pointer of a struct of one pointer field is nil after an object
    only when the last member that goes to the field is [null]. *)
Lemma store_pointer_nil {T : Type} (name : string) (names : list string)
    (field : nat -> Json.json -> T -> T * option error) (zero : T)
    (members : list (string * Json.json)) (st : option T * option error) :
  (forall kv, In kv members -> matches name kv.1 = true) ->
  (fold_left (Json.object_step [name] (fun _ => Json.store_pointer names field zero))
     members st).1 = None ->
  (members = [] /\ st.1 = None) \/ exists key, last members = Some (key, Json.JNull).
Proof.
  revert st. induction members as [|kv members IH] using rev_ind; intros st Hall; [auto|].
  rewrite fold_left_app. cbn [fold_left]. intros Hnil. right.
  rewrite last_snoc. unfold Json.object_step in Hnil.
  rewrite find_field_single, (Hall kv) in Hnil by (apply in_or_app; right; left; reflexivity).
  destruct kv as [key j]. exists key. do 2 f_equal. cbn [snd] in Hnil.
  unfold Json.store_pointer in Hnil.
  destruct j; [reflexivity|..];
    destruct (Json.store_struct names field _ _) as [v e]; discriminate Hnil.
Qed.

Lemma Unmarshal_nil {T : Type} (name : string) (names : list string)
    (field : nat -> Json.json -> T -> T * option error) (zero : T) (data : string) (v : T) :
  Json.Unmarshal (Json.store_struct [name] (fun _ => Json.store_pointer names field zero))
    data (Some v) = Ok None ->
  exists members key,
    Json.parse data = Some (Json.JObject members)
    /\ last (members_of name members) = Some (key, Json.JNull).
Proof.
  unfold Json.Unmarshal. destruct (Json.parse data) as [j|] eqn:Hparse; [|discriminate].
  destruct j as [| | | | |members]; try discriminate.
  cbn [Json.store_struct]. rewrite store_single_members.
  pose proof (store_pointer_nil name names field zero (members_of name members)
                (Some v, None) (members_of_matches name members)) as H.
  destruct (fold_left _ (members_of name members) _) as [p [e|]]; [discriminate|].
  intros [= ->]. destruct (H eq_refl) as [[_ Hnone]|[key Hkey]]; [discriminate|].
  exists members, key. auto.
Qed.

Lemma userFromParams_fault (bindingID password rawParams msg : string) :
  userFromParams bindingID password rawParams = Panic msg ->
  msg = nil_dereference
  /\ exists members key,
       Json.parse rawParams = Some (Json.JObject members)
       /\ last (members_of "user" members) = Some (key, Json.JNull).
Proof.
  unfold userFromParams. destruct (Nat.ltb 0 (String.length rawParams)).
  - destruct (Json.Unmarshal store_userParams rawParams (Some Atlas.zeroUser))
      as [[u|]|e] eqn:Hun; try discriminate.
    intros [= <-]. split; [reflexivity|]. unfold store_userParams in Hun.
    exact (Unmarshal_nil _ _ _ _ _ _ Hun).
  - discriminate.
Qed.

Lemma connectionStringParams_nil (rawParams : string) :
  connectionStringParamsFromParams rawParams = Ok None ->
  exists members key,
    Json.parse rawParams = Some (Json.JObject members)
    /\ last (members_of "connectionString" members) = Some (key, Json.JNull).
Proof.
  unfold connectionStringParamsFromParams. destruct (Nat.ltb 0 (String.length rawParams)).
  - unfold store_connectionStringParams. apply Unmarshal_nil.
  - discriminate.
Qed.

(** X17.  [Bind] faults on a [null] only.  When [Bind] ends in a fault, the
    fault is the dereference of a nil pointer, and the blob is a JSON object
    in which the last member [user], or the last member [connectionString]
    (keys up to case), is [null]; every other request ends in credentials
    or in an error. *)
Theorem X17_bind_faults_only_on_a_null_member
    (deps : Deps) (ctx : Ctx deps) (instanceID bindingID : string) (details : BindDetails)
    (asyncAllowed : bool) (w : Atlas.world (St deps)) (msg : string) :
  snd (Bind deps ctx instanceID bindingID details asyncAllowed w) = Panic msg ->
  msg = nil_dereference
  /\ exists members key,
       Json.parse (RawParameters details) = Some (Json.JObject members)
       /\ (last (members_of "user" members) = Some (key, Json.JNull)
           \/ last (members_of "connectionString" members) = Some (key, Json.JNull)).
Proof.
  unfold Bind.
  destruct (atlasClientFromContext deps ctx) as [client|e]; [|discriminate].
  destruct (findProviderByServiceID deps client _) as [provider|e]; [|discriminate].
  destruct (findInstanceSizeByPlanID deps provider _) as [size|e]; [|discriminate].
  destruct (Atlas.do_GetCluster client _ w) as [w1 [cluster|e]]; [|discriminate].
  destruct (generatePassword (rand_Read deps)) as [password|e]; [|discriminate].
  destruct (userFromParams bindingID password _) as [user|e|msg'] eqn:Hu; [|discriminate|].
  - destruct (Atlas.do_CreateUser client user w1) as [w2 [created|e]]; [|discriminate].
    destruct (connectionStringParamsFromParams _) as [csp|e] eqn:Hc; [|discriminate].
    destruct csp as [params|].
    + unfold buildConnectionString. destruct (Url.Parse _); discriminate.
    + cbn. intros [= <-]. split; [reflexivity|].
      destruct (connectionStringParams_nil _ Hc) as (members & key & Hp & Hl).
      exists members, key. auto.
  - cbn. intros [= <-].
    destruct (userFromParams_fault _ _ _ _ Hu) as (-> & members & key & Hp & Hl).
    split; [reflexivity|]. exists members, key. auto.
Qed.

Lemma X17_bind_faults_witness :
  nil_dereference = nil_dereference
  /\ exists members key,
       Json.parse (RawParameters (example_details (json_text "{'user':null}")))
       = Some (Json.JObject members)
       /\ (last (members_of "user" members) = Some (key, Json.JNull)
           \/ last (members_of "connectionString" members) = Some (key, Json.JNull)).
Proof.
  apply (X17_bind_faults_only_on_a_null_member example_deps tt "i1" "b1"
           (example_details (json_text "{'user':null}")) true example_world).
  vm_compute. reflexivity.
Defined.

(** * The roles of the users *)

(** ** Slices stay within their backing array *)

Section SliceFacts.
Context {A : Type} (zero : A) (value : Json.json -> A -> A * option error).

Lemma array_loop_ok (elems : list Json.json) (i : nat) (s : Json.slice A) :
  slice_ok s -> i <= length (Json.backing s) ->
  slice_ok (Json.array_loop zero value elems i s).1.
Proof.
  revert i s. induction elems as [|x elems IH]; intros i s Hs Hi; [exact Hs|].
  cbn [Json.array_loop].
  set (s1 := if Nat.leb (length (Json.backing s)) i then _ else s).
  assert (H1 : slice_ok s1 /\ i < length (Json.backing s1)).
  { unfold s1, slice_ok in *. destruct (Nat.leb_spec (length (Json.backing s)) i) as [Hle|Hlt].
    - cbn [Json.backing Json.len].
      rewrite length_app, length_take, length_replicate.
      set (c := length (Json.backing s)) in *.
      assert (Hnew : c < Nat.max 4 (c + c / 2)).
      { destruct (Nat.lt_ge_cases c 4) as [?|Hc]; [lia|].
        assert (1 <= c / 2) by (apply Nat.div_le_lower_bound; lia). lia. }
      lia.
    - split; [exact Hs|exact Hlt]. }
  destruct H1 as [Hs1 Hi1].
  set (s2 := if Nat.leb (Json.len s1) i then _ else s1).
  assert (H2 : slice_ok s2 /\ Json.backing s2 = Json.backing s1).
  { unfold s2, slice_ok in *. destruct (Nat.leb (Json.len s1) i); cbn; split; auto; lia. }
  destruct H2 as [Hs2 Hb2].
  destruct (value x (nth i (Json.backing s2) zero)) as [v e].
  specialize (IH (S i) {| Json.backing := <[i := v]> (Json.backing s2); Json.len := Json.len s2 |}).
  destruct (Json.array_loop zero value elems (S i) _) as [s3 es]. cbn [fst] in *.
  apply IH.
  - unfold slice_ok in *. cbn. rewrite length_insert. exact Hs2.
  - cbn. rewrite length_insert, Hb2. lia.
Qed.

Lemma store_slice_ok (j : Json.json) (cur : Json.slice A) :
  slice_ok cur -> slice_ok (Json.store_slice zero value j cur).1.
Proof.
  intros Hcur. destruct j as [| | | |elems|]; try exact Hcur.
  - unfold slice_ok. cbn. lia.
  - cbn [Json.store_slice].
    pose proof (array_loop_ok elems 0 cur Hcur ltac:(lia)) as Hloop.
    destruct (Json.array_loop zero value elems 0 cur) as [s e]. cbn [fst] in *.
    destruct (Nat.eqb (length elems) 0); [unfold slice_ok; cbn; lia|].
    destruct (Nat.ltb_spec (length elems) (Json.len s)); [|exact Hloop].
    unfold slice_ok in *. cbn. lia.
Qed.

End SliceFacts.

Lemma User_field_roles_ok (i : nat) (j : Json.json) (u : Atlas.User) :
  slice_ok (Atlas.Roles u) -> slice_ok (Atlas.Roles (Atlas.User_field i j u).1).
Proof.
  intros Hu. unfold Atlas.User_field. destruct i as [|[|[|i]]].
  - destruct (Json.store_string j _). exact Hu.
  - destruct (Json.store_string j _). exact Hu.
  - destruct (Json.store_string j _). exact Hu.
  - pose proof (store_slice_ok Atlas.zeroRole Atlas.store_Role j _ Hu) as H.
    destruct (Json.store_slice _ _ j _). exact H.
Qed.

Lemma store_User_roles_ok (members : list (string * Json.json)) (st : Atlas.User * option error) :
  slice_ok (Atlas.Roles st.1) ->
  slice_ok (Atlas.Roles
              (fold_left (Json.object_step Atlas.User_names Atlas.User_field) members st).1).
Proof.
  revert st. induction members as [|kv members IH]; intros st Hst; [exact Hst|].
  cbn [fold_left]. apply IH. unfold Json.object_step.
  destruct (Json.find_field _ _ _ _) as [i|]; [|exact Hst].
  pose proof (User_field_roles_ok i kv.2 st.1 Hst) as H.
  destruct (Atlas.User_field i kv.2 st.1). exact H.
Qed.

Lemma store_pointer_User_ok (j : Json.json) (cur : option Atlas.User) :
  (forall u, cur = Some u -> slice_ok (Atlas.Roles u)) ->
  forall u, (Json.store_pointer Atlas.User_names Atlas.User_field Atlas.zeroUser j cur).1
            = Some u ->
            slice_ok (Atlas.Roles u).
Proof.
  intros Hcur u. unfold Json.store_pointer.
  assert (Hdef : slice_ok (Atlas.Roles (default Atlas.zeroUser cur))).
  { destruct cur as [c|]; [apply Hcur; reflexivity|]. unfold slice_ok. cbn. lia. }
  destruct j as [| | | | |members]; try discriminate;
    cbn [Json.store_struct]; try (intros [= <-]; exact Hdef).
  pose proof (store_User_roles_ok members (default Atlas.zeroUser cur, None) Hdef) as H.
  destruct (fold_left _ members _) as [v e]. intros [= <-]. exact H.
Qed.

Lemma store_userParams_ok (j : Json.json) (cur : option Atlas.User) :
  (forall u, cur = Some u -> slice_ok (Atlas.Roles u)) ->
  forall u, (store_userParams j cur).1 = Some u -> slice_ok (Atlas.Roles u).
Proof.
  intros Hcur. unfold store_userParams.
  destruct j as [| | | | |members]; try exact Hcur. cbn [Json.store_struct].
  assert (H : forall u, (cur, @None error).1 = Some u -> slice_ok (Atlas.Roles u)) by exact Hcur.
  revert H. generalize (cur, @None error).
  induction members as [|kv members IH]; intros st Hst; [exact Hst|].
  cbn [fold_left]. apply IH. unfold Json.object_step.
  destruct (Json.find_field _ _ _ _) as [i|]; [|exact Hst].
  pose proof (store_pointer_User_ok kv.2 st.1 Hst) as H.
  destruct (Json.store_pointer _ _ _ kv.2 st.1). exact H.
Qed.

Lemma userFromParams_roles (bindingID password rawParams : string) (user : Atlas.User) :
  userFromParams bindingID password rawParams = Ret user ->
  Json.elements (Atlas.Roles user) <> [].
Proof.
  unfold userFromParams.
  assert (Hok : forall u,
             (if Nat.ltb 0 (String.length rawParams)
              then Json.Unmarshal store_userParams rawParams (Some Atlas.zeroUser)
              else Ok (Some Atlas.zeroUser)) = Ok (Some u) ->
             slice_ok (Atlas.Roles u)).
  { intros u. destruct (Nat.ltb 0 (String.length rawParams)).
    - unfold Json.Unmarshal. destruct (Json.parse rawParams) as [j|]; [|discriminate].
      pose proof (store_userParams_ok j (Some Atlas.zeroUser)) as H.
      destruct (store_userParams j (Some Atlas.zeroUser)) as [v [e|]]; [discriminate|].
      intros [= ->]. apply H; [|reflexivity].
      intros u' [= <-]. unfold slice_ok. cbn. lia.
    - intros [= <-]. unfold slice_ok. cbn. lia. }
  destruct (if Nat.ltb 0 (String.length rawParams) then _ else _) as [[u|]|e];
    try discriminate.
  specialize (Hok u eq_refl). cbn [Atlas.Roles].
  destruct (Nat.eqb_spec (Json.len (Atlas.Roles u)) 0) as [Hz|Hnz].
  - intros [= <-]. discriminate.
  - intros [= <-]. cbn [Atlas.Roles]. unfold Json.elements, slice_ok in *.
    destruct (Json.len (Atlas.Roles u)) as [|n]; [done|].
    destruct (Json.backing (Atlas.Roles u)); [cbn in Hok; lia|discriminate].
Qed.

(** ** The users that are created *)

(** X18.  No user is created without a role: the user [userFromParams]
    returns has at least one role among its elements, whatever the blob
    holds (no roles, [null], an empty array), and so has every user that
    [Bind] hands to [CreateUser]. *)
Theorem X18_every_created_user_has_a_role
    (deps : Deps) (ctx : Ctx deps) (instanceID bindingID : string) (details : BindDetails)
    (asyncAllowed : bool) (w : Atlas.world (St deps)) :
  (forall password rawParams user,
      userFromParams bindingID password rawParams = Ret user ->
      Json.elements (Atlas.Roles user) <> [])
  /\ exists new,
       Atlas.calls (fst (Bind deps ctx instanceID bindingID details asyncAllowed w))
       = Atlas.calls w ++ new
       /\ forall user, In (Atlas.CallCreateUser user) new ->
                       Json.elements (Atlas.Roles user) <> [].
Proof.
  split; [intros password rawParams user; apply userFromParams_roles|].
  destruct (Bind_calls deps ctx instanceID bindingID details asyncAllowed w)
    as [[Hc _]|[[Hc _]|(password & user & _ & Hu & Hc & _)]].
  - exists []. rewrite app_nil_r. split; [exact Hc|]. intros ? [].
  - eexists. split; [exact Hc|]. intros ? [[=]|[]].
  - eexists. split; [exact Hc|]. intros ? [[=]|[[= <-]|[]]].
    exact (userFromParams_roles _ _ _ _ Hu).
Qed.

(** * The integration test *)

(** ** The loop of [poll] *)

Lemma wrap_id (z : Z) :
  (Strconv.minInt64 <= z <= Strconv.maxInt64)%Z -> Integration.wrap z = z.
Proof.
  unfold Integration.wrap, Strconv.minInt64, Strconv.maxInt64. intros H.
  rewrite Z.mod_small by lia. lia.
Qed.

Lemma attempts_spec (m : Z) :
  (0 < attempts m -> (Z.of_nat (attempts m) * 11 < m * 60 + 11)%Z)
  /\ (m * 60 <= Z.of_nat (attempts m) * 11)%Z.
Proof.
  unfold attempts.
  pose proof (Z.div_mod (m * 60 + 10) 11 ltac:(lia)) as Hdm.
  pose proof (Z.mod_pos_bound (m * 60 + 10) 11 ltac:(lia)) as Hb.
  set (q := ((m * 60 + 10) / 11)%Z) in *. set (r := ((m * 60 + 10) mod 11)%Z) in *. lia.
Qed.

Lemma rounds_S {W : Type} (Sleep : Z -> W -> W) (f : W -> W * (bool * option error))
    (k : nat) (w : W) :
  rounds Sleep f (S k) w = rounds Sleep f k (round Sleep f w).
Proof. unfold rounds. apply Nat.iter_succ_r. Qed.

Section PollFacts.
Context {W : Type} (Sleep : Z -> W -> W) (f : W -> W * (bool * option error)).
Context (timeoutMinutes : Z).
Hypothesis Hrange :
  (Strconv.minInt64 <= timeoutMinutes * 60 <= Strconv.maxInt64 - 10)%Z.

(** A turn of the loop without an answer. *)
Lemma poll_from_pending (fuel : nat) (i : Z) (w : W) :
  (0 <= i < timeoutMinutes * 60)%Z -> snd (f w) = (false, None) ->
  Integration.poll_from Sleep (S fuel) timeoutMinutes f i w
  = Integration.poll_from Sleep fuel timeoutMinutes f (i + 11) (round Sleep f w).
Proof.
  intros Hi Hf. cbn [Integration.poll_from].
  rewrite (wrap_id (timeoutMinutes * 60)) by (unfold Strconv.maxInt64 in *; lia).
  destruct (Z.ltb_spec i (timeoutMinutes * 60)) as [_|?]; [|lia].
  unfold round. destruct (f w) as [w1 [res err]]. cbn [snd fst] in *.
  injection Hf as -> ->.
  unfold Integration.pollInterval.
  rewrite (wrap_id (i + 10)), (wrap_id (i + 10 + 1)), (wrap_id (10 * Integration.Second))
    by (unfold Strconv.minInt64, Strconv.maxInt64, Integration.Second in *; lia).
  replace (i + 10 + 1)%Z with (i + 11)%Z by lia. reflexivity.
Qed.

Lemma poll_from_rounds (k fuel : nat) (i : Z) (w : W) :
  (0 <= i)%Z -> (0 < k -> (i + 11 * Z.of_nat k < timeoutMinutes * 60 + 11)%Z) ->
  (forall j, j < k -> snd (f (rounds Sleep f j w)) = (false, None)) ->
  Integration.poll_from Sleep (k + fuel) timeoutMinutes f i w
  = Integration.poll_from Sleep fuel timeoutMinutes f (i + 11 * Z.of_nat k) (rounds Sleep f k w).
Proof.
  revert i w. induction k as [|k IH]; intros i w Hi Hk Hpending.
  - cbn. rewrite Z.add_0_r. reflexivity.
  - cbn [Nat.add]. rewrite poll_from_pending; [|lia|exact (Hpending 0 ltac:(lia))].
    rewrite IH; [|lia|lia|].
    + rewrite rounds_S. f_equal. lia.
    + intros j Hj. rewrite <- rounds_S. apply Hpending. lia.
Qed.

Lemma poll_from_done (fuel : nat) (i : Z) (w : W) :
  (timeoutMinutes * 60 <= i)%Z ->
  Integration.poll_from Sleep fuel timeoutMinutes f i w
  = Some (w, Some (timeout_error timeoutMinutes)).
Proof.
  intros Hi. destruct fuel; cbn [Integration.poll_from];
    rewrite (wrap_id (timeoutMinutes * 60)) by (unfold Strconv.maxInt64 in *; lia);
    (destruct (Z.ltb_spec i (timeoutMinutes * 60)) as [?|_]; [lia|]); reflexivity.
Qed.

Lemma poll_timeout (fuel : nat) (w : W) :
  attempts timeoutMinutes <= fuel ->
  (forall j, j < attempts timeoutMinutes -> snd (f (rounds Sleep f j w)) = (false, None)) ->
  Integration.poll Sleep fuel timeoutMinutes f w
  = Some (rounds Sleep f (attempts timeoutMinutes) w, Some (timeout_error timeoutMinutes)).
Proof.
  intros Hfuel Hpending. destruct (attempts_spec timeoutMinutes) as [Hlt Hge].
  unfold Integration.poll.
  replace fuel with (attempts timeoutMinutes + (fuel - attempts timeoutMinutes)) by lia.
  rewrite poll_from_rounds; [|lia|lia|exact Hpending].
  apply poll_from_done. lia.
Qed.

Lemma poll_answer (fuel k : nat) (w : W) (res : bool) (err : option error) :
  k < attempts timeoutMinutes -> k < fuel ->
  (forall j, j < k -> snd (f (rounds Sleep f j w)) = (false, None)) ->
  snd (f (rounds Sleep f k w)) = (res, err) -> res = true \/ err <> None ->
  Integration.poll Sleep fuel timeoutMinutes f w = Some (fst (f (rounds Sleep f k w)), err).
Proof.
  intros Hk Hfuel Hpending Hf Hanswer. destruct (attempts_spec timeoutMinutes) as [Hlt Hge].
  unfold Integration.poll. replace fuel with (k + S (fuel - S k)) by lia.
  rewrite poll_from_rounds; [|lia|lia|exact Hpending].
  cbn [Integration.poll_from].
  rewrite (wrap_id (timeoutMinutes * 60)) by (unfold Strconv.maxInt64 in *; lia).
  destruct (Z.ltb_spec (0 + 11 * Z.of_nat k) (timeoutMinutes * 60)) as [_|?]; [|lia].
  destruct (f (rounds Sleep f k w)) as [w1 [res' err']]. cbn [snd fst] in *.
  injection Hf as -> ->. destruct err as [e|]; [reflexivity|].
  destruct Hanswer as [->|?]; [reflexivity|done].
Qed.

End PollFacts.

(** [poll] returns without an error only after [f] has returned [true]. *)
Lemma poll_from_nil {W : Type} (Sleep : Z -> W -> W) (f : W -> W * (bool * option error))
    (timeoutMinutes : Z) (fuel : nat) (i : Z) (w w' : W) :
  Integration.poll_from Sleep fuel timeoutMinutes f i w = Some (w', None) ->
  exists w0, f w0 = (w', (true, None)).
Proof.
  revert i w. induction fuel as [|fuel IH]; intros i w; cbn [Integration.poll_from];
    destruct (i <? Integration.wrap (timeoutMinutes * 60))%Z; try discriminate.
  destruct (f w) as [w1 [res [e|]]] eqn:Hf; [discriminate|].
  destruct res.
  - intros [= <-]. eauto.
  - apply IH.
Qed.

(** ** Polling *)

(** X19.  [poll] gives up after a bounded number of attempts.  Its counter
    grows by 11 at each turn (10 in the body, 1 in the loop header) up to 60
    times the minutes, so a function that never answers is run
    [(60 * timeoutMinutes + 10) / 11] times, each time followed by a sleep
    of 10 seconds, and [poll] then returns the timeout error that names the
    minutes; with no minutes, or fewer, the function is not run at all.
    That number of turns is the fuel the loop needs. *)
Theorem X19_poll_times_out_after_a_bounded_number_of_attempts
    {W : Type} (Sleep : Z -> W -> W) (f : W -> W * (bool * option error))
    (timeoutMinutes : Z) (fuel : nat) (w : W) :
  (Strconv.minInt64 <= timeoutMinutes * 60 <= Strconv.maxInt64 - 10)%Z ->
  attempts timeoutMinutes <= fuel ->
  (forall j, j < attempts timeoutMinutes -> snd (f (rounds Sleep f j w)) = (false, None)) ->
  Integration.poll Sleep fuel timeoutMinutes f w
  = Some (rounds Sleep f (attempts timeoutMinutes) w,
          Some (ErrorString ("timeout while polling (waited "
                               +:+ Strconv.FormatInt10 timeoutMinutes +:+ " minutes)"))).
Proof. intros Hrange Hfuel Hpending. apply poll_timeout; assumption. Qed.

Lemma X19_poll_times_out_witness :
  Integration.poll clock_Sleep 6 1 never_ready 0%Z
  = Some (60000000000%Z, Some (ErrorString "timeout while polling (waited 1 minutes)")).
Proof.
  apply (X19_poll_times_out_after_a_bounded_number_of_attempts clock_Sleep never_ready 1 6 0%Z).
  - vm_compute. split; discriminate.
  - vm_compute. lia.
  - intros j _. reflexivity.
Defined.

(** X20.  [poll] stops at the first answer: when the attempts before the
    attempt [k] give neither [true] nor an error, and the attempt [k], within
    the bound, gives [true] or an error, [poll] returns after that attempt
    with its error (none for [true]), in the world that attempt left, with
    no sleep after it. *)
Theorem X20_poll_returns_the_first_answer
    {W : Type} (Sleep : Z -> W -> W) (f : W -> W * (bool * option error))
    (timeoutMinutes : Z) (fuel k : nat) (w : W) (res : bool) (err : option error) :
  (Strconv.minInt64 <= timeoutMinutes * 60 <= Strconv.maxInt64 - 10)%Z ->
  k < attempts timeoutMinutes -> k < fuel ->
  (forall j, j < k -> snd (f (rounds Sleep f j w)) = (false, None)) ->
  snd (f (rounds Sleep f k w)) = (res, err) -> res = true \/ err <> None ->
  Integration.poll Sleep fuel timeoutMinutes f w = Some (fst (f (rounds Sleep f k w)), err).
Proof.
  intros Hrange Hk Hfuel Hpending Hf Hanswer. eapply poll_answer; eassumption.
Qed.

Lemma X20_poll_first_answer_witness :
  Integration.poll clock_Sleep 6 1 (ready_from 30000000000) 0%Z = Some (30000000000%Z, None).
Proof.
  apply (X20_poll_returns_the_first_answer clock_Sleep (ready_from 30000000000) 1 6 3 0%Z
           true None).
  - vm_compute. split; discriminate.
  - vm_compute. lia.
  - lia.
  - intros [|[|[|j]]] Hj; try reflexivity. lia.
  - reflexivity.
  - left. reflexivity.
Defined.

(** X21.  [poll] reports no success of its own: it returns without an
    error only from an attempt in which the function returned [true] and no
    error; so [waitForLastOperation] returns without an error only after
    the last-operation function of the broker has returned, without an
    error, an operation in the state of success. *)
Theorem X21_waiting_succeeds_only_on_a_succeeded_operation
    {W LastOperation LastOperationState : Type} `{EqDecision LastOperationState}
    (Sleep : Z -> W -> W) (State : LastOperation -> LastOperationState)
    (Succeeded : LastOperationState)
    (broker_LastOperation : string -> Integration.PollDetails -> W -> W * result LastOperation)
    (fuel : nat) (instanceID operation : string) (timeoutMinutes : Z) (w w' : W) :
  (forall f, Integration.poll Sleep fuel timeoutMinutes f w = Some (w', None) ->
             exists w0, f w0 = (w', (true, None)))
  /\ (Integration.waitForLastOperation Sleep State Succeeded broker_LastOperation fuel
        instanceID operation timeoutMinutes w = Some (w', None) ->
      exists w0 res,
        broker_LastOperation instanceID
          {| Integration.ServiceID := ""; Integration.PlanID := "";
             Integration.OperationData := operation |} w0 = (w', Ok res)
        /\ State res = Succeeded).
Proof.
  split; [intros f; apply poll_from_nil|].
  intros H. apply poll_from_nil in H as [w0 Hw0]. exists w0.
  unfold Integration.lastOperationSucceeded in Hw0.
  destruct (broker_LastOperation instanceID _ w0) as [w1 [res|e]]; [|discriminate].
  injection Hw0 as -> Hres. exists res. split; [reflexivity|].
  apply bool_decide_eq_true in Hres. exact Hres.
Qed.

(** X22.  [waitForLastOperation] does not tell a failed operation from one
    in progress: as long as the last-operation function returns, without an
    error, a state other than success (the state of failure too),
    [waitForLastOperation] goes on polling, and it ends in the timeout
    error after all its attempts. *)
Theorem X22_waiting_polls_a_failed_operation_until_the_timeout
    {W LastOperation LastOperationState : Type} `{EqDecision LastOperationState}
    (Sleep : Z -> W -> W) (State : LastOperation -> LastOperationState)
    (Succeeded : LastOperationState)
    (broker_LastOperation : string -> Integration.PollDetails -> W -> W * result LastOperation)
    (fuel : nat) (instanceID operation : string) (timeoutMinutes : Z) (w : W) :
  let f := Integration.lastOperationSucceeded State Succeeded broker_LastOperation
             instanceID operation in
  (Strconv.minInt64 <= timeoutMinutes * 60 <= Strconv.maxInt64 - 10)%Z ->
  attempts timeoutMinutes <= fuel ->
  (forall j, j < attempts timeoutMinutes ->
             exists res,
               snd (broker_LastOperation instanceID
                      {| Integration.ServiceID := ""; Integration.PlanID := "";
                         Integration.OperationData := operation |} (rounds Sleep f j w))
               = Ok res
               /\ State res <> Succeeded) ->
  Integration.waitForLastOperation Sleep State Succeeded broker_LastOperation fuel
    instanceID operation timeoutMinutes w
  = Some (rounds Sleep f (attempts timeoutMinutes) w,
          Some (ErrorString ("timeout while polling (waited "
                               +:+ Strconv.FormatInt10 timeoutMinutes +:+ " minutes)"))).
Proof.
  intros f Hrange Hfuel Hfailed. unfold Integration.waitForLastOperation.
  apply poll_timeout; [assumption..|].
  intros j Hj. destruct (Hfailed j Hj) as (res & Hres & Hne). fold f.
  unfold f at 1. unfold Integration.lastOperationSucceeded.
  destruct (broker_LastOperation instanceID _ (rounds Sleep f j w)) as [w1 r].
  cbn [snd] in Hres. subst r. cbn [snd]. rewrite bool_decide_eq_false_2 by exact Hne.
  reflexivity.
Qed.

Lemma X22_failed_operation_witness :
  Integration.waitForLastOperation clock_Sleep (fun state : string => state) "succeeded"
    failed_LastOperation 6 "i1" "provision" 1 0%Z
  = Some (60000000000%Z, Some (ErrorString "timeout while polling (waited 1 minutes)")).
Proof.
  apply (X22_waiting_polls_a_failed_operation_until_the_timeout clock_Sleep
           (fun state : string => state) "succeeded" failed_LastOperation 6 "i1" "provision"
           1 0%Z).
  - vm_compute. split; discriminate.
  - vm_compute. lia.
  - intros j _. exists "failed". split; [reflexivity|discriminate].
Defined.

(** X23.  The timeout [poll] reports is longer than the time it waits.  On
    a clock that only the sleeps of [poll] move, with a function that never
    answers, [poll] returns the error that names [timeoutMinutes] minutes at
    the time 10 seconds times the number of its attempts, which is less
    than the minutes named as soon as these are two or more. *)
Theorem X23_poll_gives_up_before_the_minutes_it_reports (timeoutMinutes : Z) :
  (2 <= timeoutMinutes)%Z -> (timeoutMinutes * 60 <= Strconv.maxInt64 - 10)%Z ->
  exists now,
    Integration.poll clock_Sleep (attempts timeoutMinutes) timeoutMinutes never_ready 0%Z
    = Some (now, Some (ErrorString ("timeout while polling (waited "
                                      +:+ Strconv.FormatInt10 timeoutMinutes +:+ " minutes)")))
    /\ now = (Z.of_nat (attempts timeoutMinutes) * (10 * Integration.Second))%Z
    /\ (now < timeoutMinutes * (60 * Integration.Second))%Z.
Proof.
  intros Hm Hmax.
  assert (Hclock : forall k, rounds clock_Sleep never_ready k 0%Z
                             = (Z.of_nat k * (10 * Integration.Second))%Z).
  { induction k as [|k IH]; [reflexivity|].
    change (rounds clock_Sleep never_ready (S k) 0%Z)
      with (round clock_Sleep never_ready (rounds clock_Sleep never_ready k 0%Z)).
    rewrite IH. unfold round, clock_Sleep, never_ready.
    cbn [fst]. unfold Integration.pollInterval, Integration.Second. lia. }
  eexists. split; [|split; [reflexivity|]].
  - rewrite <- Hclock. apply poll_timeout; [|lia|intros; reflexivity].
    unfold Strconv.minInt64. lia.
  - destruct (attempts_spec timeoutMinutes) as [Hlt _].
    unfold Integration.Second.
    assert (0 < attempts timeoutMinutes).
    { unfold attempts. apply Nat2Z.inj_lt. rewrite Z2Nat.id.
      - apply Z.div_str_pos. lia.
      - apply Z.div_pos; lia. }
    specialize (Hlt ltac:(assumption)). lia.
Qed.

Lemma X23_poll_gives_up_witness :
  exists now,
    Integration.poll clock_Sleep (attempts 20) 20 never_ready 0%Z
    = Some (now, Some (ErrorString "timeout while polling (waited 20 minutes)"))
    /\ now = 1100000000000%Z
    /\ (now < 1200000000000)%Z.
Proof.
  apply (X23_poll_gives_up_before_the_minutes_it_reports 20).
  - lia.
  - vm_compute. discriminate.
Defined.

(** ** The fixtures *)

(** X24.  The user [setupBinding] creates is the user [Bind] defines for a
    request without parameters for the user: for the empty blob, and for a
    blob that is a JSON object without a member [user], [userFromParams]
    returns, for the binding ID and the password [uuid], the user that
    [setupBinding] hands to [CreateUser]; and [teardownBinding] asks for the
    deletion of that username. *)
Theorem X24_setupBinding_creates_the_default_user_of_bind
    {St : Type} (client : Atlas.Client St) (uuid bindingID rawParams : string)
    (members : list (string * Json.json)) (w : Atlas.world St) :
  rawParams = ""
  \/ (Json.parse rawParams = Some (Json.JObject members) /\ members_of "user" members = []) ->
  exists user,
    userFromParams bindingID uuid rawParams = Ret user
    /\ Integration.setupBinding client uuid bindingID w = Atlas.do_CreateUser client user w
    /\ Atlas.calls
         (Integration.teardownBinding client bindingID
            (fst (Integration.setupBinding client uuid bindingID w)))
       = Atlas.calls w ++ [Atlas.CallCreateUser user;
                           Atlas.CallDeleteUser (Atlas.Username user)].
Proof.
  intros Hraw.
  assert (Huser : userFromParams bindingID uuid rawParams = userFromParams bindingID uuid "").
  { destruct Hraw as [->|[Hparse Hm]]; [reflexivity|].
    unfold userFromParams.
    rewrite (proj2 (length_pos_nonempty _) (parse_nonempty _ _ Hparse)).
    unfold store_userParams. rewrite (Unmarshal_object _ _ _ _ _ Hparse), Hm. reflexivity. }
  eexists. split; [rewrite Huser; reflexivity|]. split; [reflexivity|].
  unfold Integration.teardownBinding, Integration.setupBinding, Atlas.do_DeleteUser,
    Atlas.do_CreateUser.
  destruct (Atlas.CreateUser client _ (Atlas.backend w)) as [st1 r1]. cbn [fst Atlas.backend].
  destruct (Atlas.DeleteUser client bindingID st1) as [st2 r2]. cbn [fst Atlas.calls].
  rewrite <- app_assoc. reflexivity.
Qed.

Lemma X24_setupBinding_witness :
  exists user,
    userFromParams "b1" "S" example_parameters = Ret user
    /\ Integration.setupBinding Atlas.memoryClient "S" "b1" example_world
       = Atlas.do_CreateUser Atlas.memoryClient user example_world
    /\ Atlas.calls
         (Integration.teardownBinding Atlas.memoryClient "b1"
            (fst (Integration.setupBinding Atlas.memoryClient "S" "b1" example_world)))
       = [] ++ [Atlas.CallCreateUser user; Atlas.CallDeleteUser (Atlas.Username user)].
Proof.
  apply (X24_setupBinding_creates_the_default_user_of_bind Atlas.memoryClient "S" "b1"
           example_parameters
           [("connectionString",
             Json.JObject [("format", Json.JString "standard"); ("database", Json.JString "app");
                           ("options", Json.JObject [("retryWrites", Json.JBool true)])])]
           example_world).
  right. split; vm_compute; reflexivity.
Defined.
